(** * UKTVDownloader: a shallow embedding of [uk_streamer_downloader.py]

    The embedding follows the layout of the Python module:
    - [Py]: the built-in string operations the program relies on;
    - [ET]: [xml.etree.ElementTree] elements and the [findall] paths used;
    - [Manifest]: the PSSH extraction block shared by the three extractors;
    - [Re]: a backtracking matcher for the two [re.search] patterns;
    - [Url], [Path]: the parts of [urllib.parse] and [os.path] that are read;
    - [Downloader]: the [UKStreamerDownloader] class, as a state, trace and
      exception monad over an explicit description of the outside world.

    [ManifestSpec] and [DownloaderSpec] hold the statements of the
    specification and the test data; [PyFacts], [ManifestFacts] and
    [DownloaderFacts] hold the proofs.

    Python [str] values are modelled by [string]; a character is a code point
    below 256.  Whitespace, case mapping and digit classes are those of
    Python 3 on that range. *)

From stdpp Require Import gmap strings list.
From Stdlib Require Import Ascii String ZArith Lia.

Local Open Scope string_scope.

(** ** Python built-ins *)

Module Py.

(** [str.isspace] on a single character. *)
Definition is_space (c : ascii) : bool :=
  let n := N_of_ascii c in
  ((9 <=? n) && (n <=? 13) || (28 <=? n) && (n <=? 32)
   || (n =? 133) || (n =? 160))%N.

(** [str.lower] on a single character: ASCII and Latin-1 capitals. *)
Definition lower_char (c : ascii) : ascii :=
  let n := N_of_ascii c in
  if ((65 <=? n) && (n <=? 90)
      || (192 <=? n) && (n <=? 222) && negb (n =? 215))%N
  then ascii_of_N (n + 32) else c.

Fixpoint lower (s : string) : string :=
  match s with
  | EmptyString => EmptyString
  | String c s' => String (lower_char c) (lower s')
  end.

Fixpoint lstrip (s : string) : string :=
  match s with
  | EmptyString => EmptyString
  | String c s' => if is_space c then lstrip s' else s
  end.

Fixpoint rstrip (s : string) : string :=
  match s with
  | EmptyString => EmptyString
  | String c s' =>
      match rstrip s' with
      | EmptyString => if is_space c then EmptyString else String c EmptyString
      | r => String c r
      end
  end.

(** [s.strip()] *)
Definition strip (s : string) : string := rstrip (lstrip s).

(** [needle in hay] on strings. *)
Fixpoint contains (needle hay : string) : bool :=
  String.prefix needle hay
  || match hay with
     | EmptyString => false
     | String _ hay' => contains needle hay'
     end.

(** [s.startswith(p)] and [s.endswith(p)] *)
Definition startswith (p s : string) : bool := String.prefix p s.

Fixpoint endswith (p s : string) : bool :=
  String.eqb p s
  || match s with
     | EmptyString => false
     | String _ s' => endswith p s'
     end.

(** [s.replace(' ', '')] *)
Fixpoint remove_spaces (s : string) : string :=
  match s with
  | EmptyString => EmptyString
  | String c s' =>
      if Ascii.eqb c " "%char then remove_spaces s' else String c (remove_spaces s')
  end.

(** [s.split(':', 1)] for a string that holds a colon: what precedes the
    first one and what follows it. *)
Fixpoint split_colon (s : string) : string * string :=
  match s with
  | EmptyString => (EmptyString, EmptyString)
  | String c s' =>
      if Ascii.eqb c ":"%char then (EmptyString, s')
      else let (a, b) := split_colon s' in (String c a, b)
  end.

(** Truth value of a [str]. *)
Definition truthy (s : string) : bool :=
  match s with EmptyString => false | String _ _ => true end.

(** Truth value of a value that is [None] or a [str]. *)
Definition truthy_opt (o : option string) : bool :=
  match o with Some s => truthy s | None => false end.

(** [f"{x}"] for a value that is [None] or a [str]. *)
Definition format_opt (o : option string) : string :=
  match o with Some s => s | None => "None" end.

End Py.

(** ** ElementTree *)

Module ET.

(** An [Element]: tag in Clark notation, attribute dictionary, the [text]
    before the first child ([None] when there is none) and the children. *)
#[warnings="-register-all"]
Inductive Element : Type :=
  mkElement {
      tag : string;
      attrib : gmap string string;
      text : option string;
      children : list Element }.

(** [e.iter()]: [e] and everything below it, in document order. *)
Fixpoint iter (e : Element) : list Element :=
  e :: flat_map iter (children e).

(** The [.//] step: everything strictly below [e]. *)
Definition descendants (e : Element) : list Element :=
  flat_map iter (children e).

(** [e.findall(".//*")] *)
Definition findall_any (e : Element) : list Element := descendants e.

(** [e.findall(".//TAG")] *)
Definition findall_tag (t : string) (e : Element) : list Element :=
  filter (λ d, tag d = t) (descendants e).

(** [e.findall(".//TAG[@key='value']")] *)
Definition findall_tag_attr (t key value : string) (e : Element)
  : list Element :=
  filter (λ d, attrib d !! key = Some value) (findall_tag t e).

End ET.

(** ** The PSSH extraction block

    The three extractors carry the same block (lines 159-174, 252-267 and
    330-345).  Its only local variable that outlives the [try] is [pssh]; an
    exception raised inside leaves [pssh] at the value it had reached. *)

Module Manifest.
Import ET.

Definition CONTENT_PROTECTION : string :=
  "{urn:mpeg:dash:schema:mpd:2011}ContentProtection".
Definition SCHEME_ID_URI : string := "schemeIdUri".
Definition WIDEVINE_URN : string :=
  "urn:uuid:edef8ba9-79d6-4ace-a3c8-27dcd51d21ed".
Definition CENC_PSSH : string := "{urn:mpeg:cenc:2013}pssh".

(** [root.findall(".//{...}ContentProtection[@schemeIdUri='...']")] *)
Definition protections (root : Element) : list Element :=
  findall_tag_attr CONTENT_PROTECTION SCHEME_ID_URI WIDEVINE_URN root.

(** [elem.findall(".//{urn:mpeg:cenc:2013}pssh")] *)
Definition payloads (elem : Element) : list Element :=
  findall_tag CENC_PSSH elem.

(** State of the block: the value of [pssh] and whether an exception is
    propagating. *)
Record scan := mkScan { pssh_var : option string; raised : bool }.

(** Inner loop: [pssh = pssh_elem.text.strip()], which raises
    [AttributeError] on an element without text. *)
Fixpoint scan_payloads (ps : list Element) (pssh : option string) : scan :=
  match ps with
  | [] => mkScan pssh false
  | p :: ps' =>
      match text p with
      | Some t => scan_payloads ps' (Some (Py.strip t))
      | None => mkScan pssh true
      end
  end.

(** Outer loop over the protection elements. *)
Fixpoint scan_protections (es : list Element) (pssh : option string) : scan :=
  match es with
  | [] => mkScan pssh false
  | e :: es' =>
      let r := scan_payloads (payloads e) pssh in
      if raised r then r else scan_protections es' (pssh_var r)
  end.

(** The test of the fallback loop:
    ["pssh" in elem.tag.lower() and elem.text]. *)
Definition pssh_like (e : Element) : bool :=
  Py.contains "pssh" (Py.lower (tag e)) && Py.truthy_opt (text e).

(** Fallback loop, left at the first hit by [break]. *)
Fixpoint scan_fallback (es : list Element) (pssh : option string)
  : option string :=
  match es with
  | [] => pssh
  | e :: es' =>
      if pssh_like e
      then match text e with
           | Some t => Some (Py.strip t)
           | None => pssh
           end
      else scan_fallback es' pssh
  end.

(** The body of the [try] once [ET.fromstring] has returned [root];
    [pssh] is [None] on entry. *)
Definition scan_root (root : Element) : scan :=
  let r := scan_protections (protections root) None in
  if raised r then r
  else if negb (Py.truthy_opt (pssh_var r))
       then mkScan (scan_fallback (findall_any root) (pssh_var r)) false
       else r.

(** The whole block.  [fetched] is what [requests.get] followed by
    [ET.fromstring] produced: [None] when either raised. *)
Definition scan_manifest (fetched : option Element) : scan :=
  match fetched with
  | Some root => scan_root root
  | None => mkScan None true
  end.

(** The value of [pssh] after the block. *)
Definition extract_pssh (root : Element) : option string :=
  pssh_var (scan_root root).

End Manifest.

(** ** Regular expressions

    A backtracking matcher with Python's priorities (greedy repetition,
    leftmost alternative first) for the constructs of the two patterns the
    extractors search for.  There is one capture group. *)

Module Re.

Inductive regex : Type :=
| Lit (c : ascii)                  (* a literal character *)
| PlusClass (cls : ascii → bool)   (* [...]+ *)
| Seq (r1 r2 : regex)              (* r1 r2 *)
| Alt (r1 r2 : regex)              (* r1|r2 *)
| Opt (r : regex)                  (* (?:r)? *)
| Group (r : regex)                (* (r), group 1 *)
| Eos.                             (* $ *)

(** [\d] and [[0-9a-zA-Z]] *)
Definition is_digit (c : ascii) : bool :=
  let n := N_of_ascii c in ((48 <=? n) && (n <=? 57))%N.

Definition is_alnum (c : ascii) : bool :=
  let n := N_of_ascii c in
  ((48 <=? n) && (n <=? 57) || (97 <=? n) && (n <=? 122)
   || (65 <=? n) && (n <=? 90))%N.

(** [$] without [re.MULTILINE]: at the end, or before a final newline. *)
Definition at_end (s : string) : bool :=
  match s with
  | EmptyString => true
  | String c EmptyString => Ascii.eqb c "010"%char
  | _ => false
  end.

(** What was consumed between [s] and its suffix [rest]. *)
Definition consumed (s rest : string) : string :=
  substring 0 (String.length s - String.length rest) s.

Section Matcher.
Context {A : Type}.

(** Zero or more characters of the class, longest first. *)
Fixpoint star (cls : ascii → bool) (s : string) (k : string → option A)
  : option A :=
  match s with
  | String c s' =>
      if cls c
      then match star cls s' k with
           | Some a => Some a
           | None => k s
           end
      else k s
  | EmptyString => k s
  end.

(** [matching r s cap k]: match [r] at the head of [s], then continue
    with [k] on the rest and the group captured so far. *)
Fixpoint matching (r : regex) (s : string) (cap : option string)
  (k : string → option string → option A) : option A :=
  match r with
  | Lit c =>
      match s with
      | String c' s' => if Ascii.eqb c c' then k s' cap else None
      | EmptyString => None
      end
  | PlusClass cls =>
      match s with
      | String c' s' => if cls c' then star cls s' (λ rest, k rest cap) else None
      | EmptyString => None
      end
  | Seq r1 r2 => matching r1 s cap (λ s1 cap1, matching r2 s1 cap1 k)
  | Alt r1 r2 =>
      match matching r1 s cap k with
      | Some a => Some a
      | None => matching r2 s cap k
      end
  | Opt r1 =>
      match matching r1 s cap k with
      | Some a => Some a
      | None => k s cap
      end
  | Group r1 => matching r1 s cap (λ rest _, k rest (Some (consumed s rest)))
  | Eos => if at_end s then k s cap else None
  end.
End Matcher.

(** [re.search(r, s)]: the leftmost match; the result is [match.group(1)]
    inside [Some], or [None] when nothing matches. *)
Fixpoint search (r : regex) (s : string) : option (option string) :=
  match matching r s None (λ _ cap, Some cap) with
  | Some cap => Some cap
  | None =>
      match s with
      | String _ s' => search r s'
      | EmptyString => None
      end
  end.

(** [r'/(\d+)(?:-\d+)?(?:/|$)'] *)
Definition CHANNEL4_ID : regex :=
  Seq (Lit "/") (Seq (Group (PlusClass is_digit))
    (Seq (Opt (Seq (Lit "-") (PlusClass is_digit))) (Alt (Lit "/") Eos))).

(** [r'/([0-9a-zA-Z]+)(?:/|$)'] *)
Definition ALNUM_ID : regex :=
  Seq (Lit "/") (Seq (Group (PlusClass is_alnum)) (Alt (Lit "/") Eos)).

(** [program_id = None; match = re.search(r, url);
     if match: program_id = match.group(1)] *)
Definition program_id_of (r : regex) (url : string) : option string :=
  match search r url with
  | Some g => g
  | None => None
  end.

End Re.

(** ** URLs and paths *)

Module Url.

(** [urllib.parse.scheme_chars] *)
Definition is_scheme_char (c : ascii) : bool :=
  let n := N_of_ascii c in
  (Re.is_alnum c || (n =? 43) || (n =? 45) || (n =? 46))%N.

Definition is_ascii_alpha (c : ascii) : bool :=
  let n := N_of_ascii c in
  ((97 <=? n) && (n <=? 122) || (65 <=? n) && (n <=? 90))%N.

Fixpoint all_chars (p : ascii → bool) (s : string) : bool :=
  match s with
  | EmptyString => true
  | String c s' => p c && all_chars p s'
  end.

(** [s.find(c)] *)
Fixpoint find_char (c : ascii) (s : string) : option nat :=
  match s with
  | EmptyString => None
  | String c' s' =>
      if Ascii.eqb c c' then Some 0 else S <$> find_char c s'
  end.

(** [s[n:]] *)
Fixpoint drop_str (n : nat) (s : string) : string :=
  match n, s with
  | S n', String _ s' => drop_str n' s'
  | _, _ => s
  end.

(** The scheme step of [urlsplit]: a non-empty prefix before the first
    [':'] that starts with an ASCII letter and has scheme characters only
    is the scheme (lower-cased); the rest follows the colon. *)
Definition split_scheme (url : string) : string * string :=
  match find_char ":" url, url with
  | Some (S i), String c0 _ =>
      let pre := substring 0 (S i) url in
      if is_ascii_alpha c0 && all_chars is_scheme_char pre
      then (Py.lower pre, drop_str (S (S i)) url)
      else ("", url)
  | _, _ => ("", url)
  end.

(** [_splitnetloc]: up to the first of ['/'], ['?'], ['#']. *)
Fixpoint take_netloc (s : string) : string :=
  match s with
  | EmptyString => EmptyString
  | String c s' =>
      if Ascii.eqb c "/" || Ascii.eqb c "?" || Ascii.eqb c "#"
      then EmptyString
      else String c (take_netloc s')
  end.

(** [urlparse(url).scheme] *)
Definition scheme (url : string) : string := fst (split_scheme url).

(** [urlparse(url).netloc], for a URL that [urlsplit] takes as it is:
    free of the blanks and control characters it strips and of the square
    brackets on which it may raise [ValueError].  Statements that depend on
    the value for other URLs carry that restriction as a hypothesis. *)
Definition netloc (url : string) : string :=
  let rest := snd (split_scheme url) in
  if String.prefix "//" rest then take_netloc (drop_str 2 rest) else "".

End Url.

Module Path.

(** [os.path.join(a, b)] on POSIX. *)
Definition join (a b : string) : string :=
  if Py.startswith "/" b then b
  else if negb (Py.truthy a) || Py.endswith "/" a then a ++ b
  else a ++ "/" ++ b.

(** [s.rfind(c)] *)
Fixpoint rfind_char (c : ascii) (s : string) : option nat :=
  match s with
  | EmptyString => None
  | String c' s' =>
      match rfind_char c s' with
      | Some i => Some (S i)
      | None => if Ascii.eqb c c' then Some 0 else None
      end
  end.

(** [os.path.splitext(p)[0]]: the extension starts at the last dot of the
    last component, unless only dots precede it there. *)
Definition splitext_root (p : string) : string :=
  match rfind_char "." p with
  | None => p
  | Some dot =>
      let name_start :=
        match rfind_char "/" p with Some i => S i | None => 0 end in
      if (name_start <=? dot)%nat
         && negb (Url.all_chars (Ascii.eqb ".")
                    (substring name_start (dot - name_start) p))
      then substring 0 dot p
      else p
  end.

End Path.

(** ** The downloader

    [UKStreamerDownloader] talks to a browser session, to HTTP servers, to the
    operator, to two child processes and to the file system.  The answers of
    these collaborators are gathered in a [World]; what the program does to
    them is recorded as a trace of [event]s; the instance fields and the files
    are the [state].  Collaborator calls that the source wraps in [try] may
    fail in the world; the others are taken to return. *)

Module Downloader.
Import ET.

Inductive provider : Type := Channel4 | ITV | Channel5.

(** The [service_name] strings of [process_url]. *)
Definition service_name (p : provider) : string :=
  match p with
  | Channel4 => "Channel 4"
  | ITV => "ITV"
  | Channel5 => "Channel 5"
  end.

Inductive exn : Type := AttributeError | FileNotFoundError.

(** *** The world *)

(** What the environment answers.  The record has a field for every call
    whose failure the source handles: a wait that times out, a request that
    fails, a tool that cannot be started.  The calls the source leaves
    outside any [try] (starting the browser, [driver.get],
    [execute_script], [input] for the key, [os.makedirs]) have no failing
    answer: the model follows the runs in which they return, and in a run in
    which one of them raises, the method ends there with that exception.
    Statements about a whole method are conditioned on its outcome or on an
    event of its trace wherever that difference matters. *)

Record tool_result := mkToolResult {
  t_stdout : list string;
  t_stderr : string;
  t_returncode : Z;
  t_files : gmap string string }.

Inductive ffmpeg_result : Type :=
| FfDone (content : string)       (* exit code 0, output written *)
| FfFailed (stderr : string)      (* nonzero exit: CalledProcessError *)
| FfNotStarted.                   (* [subprocess.run] raises: no ffmpeg to start *)

Record World := mkWorld {
  (* the home directory [expanduser] substitutes for "~" *)
  home : string;
  (* [time.strftime("%Y%m%d_%H%M%S")] *)
  timestamp : string;
  (* [base64.b64decode]; [None] when it raises *)
  b64decode : string → option (list ascii);
  (* [WebDriverWait(driver, 30).until(presence of "video")] on the page:
     [false] is [TimeoutException] *)
  video_appears : string → bool;
  (* the ['name'] entries of [performance.getEntries()], [None] where an
     entry has none *)
  network_items : list (option string);
  (* the [src] attributes of the [<track kind="subtitles">] elements of
     [page_source]; [None] when reading or parsing raises *)
  page_tracks : option (list (option string));
  (* the play control was found and clicked within 10 *)
  play_clicked : bool;
  (* [requests.get(mpd_url)] then [ET.fromstring]; [None] when either
     raises *)
  http_manifest : string → option Element;
  (* the subtitle body, fetched and written; [None] when either raises *)
  http_subtitle : string → option string;
  (* what the operator types at [input()] *)
  answer : string;
  (* the cache file can be opened for writing *)
  cache_writable : bool;
  (* N_m3u8DL-RE run on a command line; [None] when [Popen] raises *)
  tool : list string → option tool_result;
  (* ffmpeg run on a command line *)
  ffmpeg : list string → ffmpeg_result }.

(** *** The state *)

(** The file at [WIDEVINE_PROXY_DATA_FILE]: absent, not JSON, or a JSON
    object of strings, which is what [save_widevine_proxy_data] writes.  A
    file that holds another JSON value is not among the states. *)
Inductive cache_file_state : Type :=
| Missing
| Unreadable                          (* [json.load] raises *)
| Stored (m : gmap string string).    (* a JSON object of strings *)

Record state := mkState {
  driver : bool;                                (* [self.driver] is set *)
  widevine_data : option (gmap string string);  (* [None]: never assigned *)
  cache_file : cache_file_state;
  files : gmap string string }.                 (* path to content *)

(** *** What the program prints and does *)

Inductive message : Type :=
| MsgInitializing | MsgInitialized
| MsgCacheLoaded | MsgCacheLoadError | MsgCacheSaved | MsgCacheSaveError
| MsgAnalyzing (p : provider) (url : string)
| MsgVideoTimeout | MsgNoMpd | MsgMpdParseError | MsgSubtitleScanError
| MsgMpdUrl (u : string)
| MsgPssh (head : string) | MsgPsshNotFound
| MsgSubtitleUrl (u : string) | MsgNoSubtitles
| MsgNoPsshForKey
| MsgCachedKey (k : string)
| MsgKid (kid : string) | MsgKidError
| MsgKeyExtraction | MsgGuide | MsgOpening (service : string)
| MsgLooking | MsgPleaseWait | MsgNoPlayButton
| MsgCheckExtension | MsgLookForRequests | MsgFindPair
| MsgKidNeeded (kid : string)
| MsgInvalidKeyFormat
| MsgSubtitleDownloaded (path : string) | MsgSubtitleError
| MsgDownloading | MsgRunningTool
| MsgToolLine (line : string)
| MsgDecrypted (path : string)
| MsgFinalOutput (path : string)
| MsgOutputNotFound (path : string)
| MsgToolFailed (code : Z)
| MsgToolStderr (err : string)
| MsgToolException
| MsgMuxing | MsgMuxed (path : string) | MsgMuxError
| MsgFfmpegStderr (err : string)
| MsgProcessing (url : string)
| MsgUnsupported (url : string) | MsgSupportedServices
| MsgDetected (service : string)
| MsgExtractFailed | MsgKeyFailed
| MsgComplete | MsgFinalFile (path : string)
| MsgDownloadFailed.

Inductive event : Type :=
| Print (m : message)
| StartBrowser                         (* [webdriver.Firefox(...)] *)
| Navigate (url : string)              (* [driver.get(url)] *)
| WaitForVideo (bound : nat)           (* [WebDriverWait(driver, 30)] *)
| WaitForPlay (bound : nat)            (* [WebDriverWait(driver, 10)] *)
| ClickPlay                            (* [play_button.click()] *)
| Sleep (n : nat)                      (* [time.sleep(n)] *)
| ReadNetwork                          (* [driver.execute_script] *)
| ReadPageSource                       (* [driver.page_source] *)
| HttpGet (url : string)               (* [requests.get] *)
| Prompt                               (* [input(...)] *)
| WriteCache (m : gmap string string)  (* [json.dump] to the cache file *)
| Makedirs (path : string)
| RunTool (cmd : list string)          (* [subprocess.Popen] *)
| RunFfmpeg (cmd : list string)        (* [subprocess.run] *)
| Remove (path : string)               (* [os.remove] *)
| Rename (src dst : string).           (* [os.rename] *)

(** *** The monad: state, trace, exceptions *)

Inductive outcome (A : Type) : Type :=
| Ret (a : A)
| Raise (e : exn).
Arguments Ret {A} a.
Arguments Raise {A} e.

Record run (A : Type) := mkRun {
  out : outcome A;
  st : state;
  trace : list event }.
Arguments mkRun {A} out st trace.
Arguments out {A} r.
Arguments st {A} r.
Arguments trace {A} r.

Definition M (A : Type) : Type := state → run A.

#[export] Instance M_ret : MRet M := λ A a s, mkRun (Ret a) s [].

(** A run that comes after the events [t]. *)
Definition after {A : Type} (t : list event) (r : run A) : run A :=
  mkRun (out r) (st r) (t ++ trace r).

#[export] Instance M_bind : MBind M := λ A B f m s,
  let r := m s in
  match out r with
  | Ret a => after (trace r) (f a (st r))
  | Raise e => mkRun (Raise e) (st r) (trace r)
  end.

Definition raise {A : Type} (e : exn) : M A := λ s, mkRun (Raise e) s [].

(** [try: m  except Exception: h] *)
Definition try_catch {A : Type} (m : M A) (h : exn → M A) : M A := λ s,
  let r := m s in
  match out r with
  | Ret _ => r
  | Raise e => after (trace r) (h e (st r))
  end.

Definition emit (e : event) : M unit := λ s, mkRun (Ret ()) s [e].
Definition print (m : message) : M unit := emit (Print m).
Definition get_state : M state := λ s, mkRun (Ret s) s [].
Definition put_state (s' : state) : M unit := λ _, mkRun (Ret ()) s' [].

(** [for x in l: body x] *)
Fixpoint for_each {A : Type} (l : list A) (body : A → M unit) : M unit :=
  match l with
  | [] => mret ()
  | x :: l' => body x;; for_each l' body
  end.

(** [os.path.exists], [os.remove], [os.rename] *)
Definition path_exists (path : string) : M bool :=
  s ← get_state; mret (bool_decide (is_Some (files s !! path))).

Definition set_files (f : gmap string string) (s : state) : state :=
  mkState (driver s) (widevine_data s) (cache_file s) f.

Definition os_remove (path : string) : M unit :=
  emit (Remove path);;
  s ← get_state;
  match files s !! path with
  | Some _ => put_state (set_files (delete path (files s)) s)
  | None => raise FileNotFoundError
  end.

Definition os_rename (src dst : string) : M unit :=
  emit (Rename src dst);;
  s ← get_state;
  match files s !! src with
  | Some c => put_state (set_files (<[dst := c]> (delete src (files s))) s)
  | None => raise FileNotFoundError
  end.

(** *** The class *)

(** The dictionary returned by a successful extraction.  [mpd_url] is a
    string there; the other three entries may hold [None]. *)
Record data := mkData {
  mpd_url : string;
  pssh : option string;
  subtitle_url : option string;
  program_id : option string }.

(** What an extractor returns: [None], the tuple [(None, None, None)], or
    the dictionary. *)
Inductive extracted : Type :=
| ExNone
| ExTriple
| ExData (d : data).

(** The variables the network loop assigns: the loop variable is named
    [url], like the parameter of the extractor. *)
Record loop_vars := mkVars {
  v_url : string;
  v_mpd : option string;
  v_sub : option string }.

(** [d.get(key, default)]: [binding] is the value bound to [key] in [d],
    [None] when [d] has no such key. *)
Definition dict_get_default {A : Type} (binding : option A) (default : A) : A :=
  match binding with
  | Some v => v
  | None => default
  end.

Definition hex_digit (n : N) : ascii :=
  if (n <? 10)%N then ascii_of_N (48 + n) else ascii_of_N (87 + n).

(** [bytes.hex()] *)
Fixpoint hex (bs : list ascii) : string :=
  match bs with
  | [] => ""
  | b :: bs' =>
      let n := N_of_ascii b in
      String (hex_digit (n / 16)) (String (hex_digit (n mod 16)) (hex bs'))
  end.

Definition set_driver (b : bool) (s : state) : state :=
  mkState b (widevine_data s) (cache_file s) (files s).
Definition set_widevine_data (m : gmap string string) (s : state) : state :=
  mkState (driver s) (Some m) (cache_file s) (files s).
Definition set_cache_file (f : cache_file_state) (s : state) : state :=
  mkState (driver s) (widevine_data s) f (files s).

Section Methods.
Variable w : World.

Definition DOWNLOAD_DIR : string := home w ++ "/Downloads/UKStreamDownloads".
Definition TEMP_DIR : string := Path.join DOWNLOAD_DIR "temp".
Definition N_M3U8DL_RE_PATH : string :=
  home w ++ "/tools/N_m3u8DL-RE/N_m3u8DL-RE.dll".
Definition USER_AGENT : string :=
  "Mozilla/5.0 (Macintosh; Intel Mac OS X 10.15; rv:138.0) Gecko/20100101 Firefox/138.0".

Definition load_widevine_proxy_data : M unit :=
  s ← get_state;
  match cache_file s with
  | Stored m => put_state (set_widevine_data m s);; print MsgCacheLoaded
  | Unreadable =>
      print MsgCacheLoadError;; put_state (set_widevine_data ∅ s)
  | Missing => put_state (set_widevine_data ∅ s)
  end.

Definition save_widevine_proxy_data : M unit :=
  s ← get_state;
  if cache_writable w
  then match widevine_data s with
       | Some m =>
           emit (WriteCache m);;
           put_state (set_cache_file (Stored m) s);;
           print MsgCacheSaved
       | None =>
           (* opened and truncated, then the attribute read raises *)
           put_state (set_cache_file Unreadable s);;
           print MsgCacheSaveError
       end
  else print MsgCacheSaveError.

(** [webdriver.Firefox] returns here; see the remark on the world. *)
Definition initialize_browser : M unit :=
  print MsgInitializing;;
  emit StartBrowser;;
  s ← get_state;
  put_state (set_driver true s);;
  load_widevine_proxy_data;;
  print MsgInitialized.

(** [if not self.driver: self.initialize_browser()] *)
Definition ensure_browser : M unit :=
  s ← get_state;
  if driver s then mret () else initialize_browser.

(** The [try] around [WebDriverWait]: [true] when the video element
    appeared. *)
Definition wait_for_video (url : string) : M bool :=
  emit (WaitForVideo 30);;
  if video_appears w url
  then emit (Sleep 5);; mret true
  else print MsgVideoTimeout;; mret false.

(** The bodies of the three network loops. *)
Definition classify_channel4 (v : loop_vars) (item : option string) : loop_vars :=
  let url := default "" item in
  if Py.contains ".mpd" url then mkVars url (Some url) (v_sub v)
  else if Py.contains ".vtt" url || Py.contains "/subs." url
       then mkVars url (v_mpd v) (Some url)
       else mkVars url (v_mpd v) (v_sub v).

Definition classify_itv (v : loop_vars) (item : option string) : loop_vars :=
  let url := default "" item in
  if Py.contains ".mpd" url || Py.contains ".ism/" url
  then mkVars url (Some url) (v_sub v)
  else if Py.contains ".vtt" url || Py.contains "/subs." url
          || Py.contains "subtitles" url
       then mkVars url (v_mpd v) (Some url)
       else mkVars url (v_mpd v) (v_sub v).

Definition classify_channel5 (v : loop_vars) (item : option string) : loop_vars :=
  let url := default "" item in
  if Py.contains ".mpd" url then mkVars url (Some url) (v_sub v)
  else if Py.contains ".vtt" url || Py.contains "subtitles" url
       then mkVars url (v_mpd v) (Some url)
       else mkVars url (v_mpd v) (v_sub v).

(** The [try] that fetches the manifest and looks for the PSSH. *)
Definition fetch_pssh (mpd : string) : M (option string) :=
  emit (HttpGet mpd);;
  let r := Manifest.scan_manifest (http_manifest w mpd) in
  (if Manifest.raised r then print MsgMpdParseError else mret ());;
  mret (Manifest.pssh_var r).

(** The three closing [print]s of an extractor. *)
Definition report (mpd : string) (pssh subtitle : option string) : M unit :=
  print (MsgMpdUrl mpd);;
  print (match pssh with
         | Some p => if Py.truthy p then MsgPssh (substring 0 20 p) else MsgPsshNotFound
         | None => MsgPsshNotFound
         end);;
  print (match subtitle with
         | Some u => if Py.truthy u then MsgSubtitleUrl u else MsgNoSubtitles
         | None => MsgNoSubtitles
         end).

(** Channel 4 only: look for a subtitle track in the page source.  The
    base of a relative source is taken by [urlparse]; see [Url.netloc] for
    the URLs on which the model follows it. *)
Definition scan_page_for_subtitles (url : string) (subtitle : option string)
  : M (option string) :=
  if Py.truthy_opt subtitle then mret subtitle
  else
    emit ReadPageSource;;
    match page_tracks w with
    | None => print MsgSubtitleScanError;; mret subtitle
    | Some [] => mret subtitle
    | Some (None :: _) => mret None
    | Some (Some src :: _) =>
        if Py.truthy src && negb (Py.startswith "http" src)
        then mret (Some (Url.scheme url ++ "://" ++ Url.netloc url ++ src))
        else mret (Some src)
    end.

Definition extract_channel4_data (url : string) : M extracted :=
  print (MsgAnalyzing Channel4 url);;
  ensure_browser;;
  emit (Navigate url);;
  loaded ← wait_for_video url;
  if negb loaded then mret ExTriple
  else
    emit ReadNetwork;;
    let v := fold_left classify_channel4 (network_items w) (mkVars url None None) in
    let url := v_url v in
    if negb (Py.truthy_opt (v_mpd v))
    then print MsgNoMpd;; mret ExTriple
    else
      let mpd := default "" (v_mpd v) in
      pssh ← fetch_pssh mpd;
      subtitle ← scan_page_for_subtitles url (v_sub v);
      report mpd pssh subtitle;;
      let program_id := Re.program_id_of Re.CHANNEL4_ID url in
      mret (ExData (mkData mpd pssh subtitle program_id)).

Definition extract_itv_data (url : string) : M extracted :=
  print (MsgAnalyzing ITV url);;
  ensure_browser;;
  emit (Navigate url);;
  loaded ← wait_for_video url;
  if negb loaded then mret ExNone
  else
    emit ReadNetwork;;
    let v := fold_left classify_itv (network_items w) (mkVars url None None) in
    let url := v_url v in
    if negb (Py.truthy_opt (v_mpd v))
    then print MsgNoMpd;; mret ExNone
    else
      let mpd := default "" (v_mpd v) in
      pssh ← fetch_pssh mpd;
      let program_id := Re.program_id_of Re.ALNUM_ID url in
      report mpd pssh (v_sub v);;
      mret (ExData (mkData mpd pssh (v_sub v) program_id)).

Definition extract_channel5_data (url : string) : M extracted :=
  print (MsgAnalyzing Channel5 url);;
  ensure_browser;;
  emit (Navigate url);;
  loaded ← wait_for_video url;
  if negb loaded then mret ExNone
  else
    emit ReadNetwork;;
    let v := fold_left classify_channel5 (network_items w) (mkVars url None None) in
    let url := v_url v in
    if negb (Py.truthy_opt (v_mpd v))
    then print MsgNoMpd;; mret ExNone
    else
      let mpd := default "" (v_mpd v) in
      pssh ← fetch_pssh mpd;
      let program_id := Re.program_id_of Re.ALNUM_ID url in
      report mpd pssh (v_sub v);;
      mret (ExData (mkData mpd pssh (v_sub v) program_id)).

(** The [try] that decodes the key identifier, bytes 32 to 48. *)
Definition extract_kid (pssh : string) : M (option string) :=
  match b64decode w pssh with
  | Some pssh_bytes =>
      let kid := hex (take 16 (drop 32 pssh_bytes)) in
      print (MsgKid kid);; mret (Some kid)
  | None => print MsgKidError;; mret None
  end.

(** The [try] that clicks the play control. *)
Definition try_play : M unit :=
  emit (WaitForPlay 10);;
  if play_clicked w
  then emit ClickPlay;; emit (Sleep 5)
  else print MsgNoPlayButton.

Definition get_drm_key (pssh : option string) (url service : string)
  : M (option string) :=
  if negb (Py.truthy_opt pssh) then print MsgNoPsshForKey;; mret None
  else
    let pssh := default "" pssh in
    s ← get_state;
    match widevine_data s with
    | None => raise AttributeError
    | Some cache =>
        match cache !! pssh with
        | Some k => print (MsgCachedKey k);; mret (Some k)
        | None =>
            ensure_browser;;
            kid ← extract_kid pssh;
            print MsgKeyExtraction;;
            print MsgGuide;;
            print (MsgOpening service);;
            emit (Navigate url);;
            emit (Sleep 5);;
            print MsgLooking;;
            print MsgPleaseWait;;
            try_play;;
            print MsgCheckExtension;;
            print MsgLookForRequests;;
            print MsgFindPair;;
            (if Py.truthy_opt kid then print (MsgKidNeeded (default "" kid))
             else mret ());;
            emit Prompt;;
            let key_input := Py.strip (answer w) in
            if Py.contains ":" key_input
            then
              let (kid, key) := Py.split_colon key_input in
              let kid := Py.lower (Py.strip kid) in
              let key := Py.lower (Py.strip key) in
              s' ← get_state;
              match widevine_data s' with
              | None => raise AttributeError
              | Some cache' =>
                  put_state (set_widevine_data (<[pssh := key_input]> cache') s');;
                  save_widevine_proxy_data;;
                  mret (Some key_input)
              end
            else print MsgInvalidKeyFormat;; mret None
        end
    end.

Definition download_subtitle (subtitle : option string) (output_path : string)
  : M (option string) :=
  if negb (Py.truthy_opt subtitle) then mret None
  else
    let u := default "" subtitle in
    emit (HttpGet u);;
    match http_subtitle w u with
    | Some body =>
        s ← get_state;
        put_state (set_files (<[output_path := body]> (files s)) s);;
        print (MsgSubtitleDownloaded output_path);;
        mret (Some output_path)
    | None => print MsgSubtitleError;; mret None
    end.

Definition mux_subtitle_into_video (video_path subtitle_path : string) : M unit :=
  print MsgMuxing;;
  let output_path := Path.splitext_root video_path ++ "_with_subs.mkv" in
  let cmd := ["ffmpeg"; "-i"; video_path; "-i"; subtitle_path;
              "-c"; "copy"; "-c:s"; "mov_text"; output_path] in
  emit (RunFfmpeg cmd);;
  match ffmpeg w cmd with
  | FfDone content =>
      s ← get_state;
      put_state (set_files (<[output_path := content]> (files s)) s);;
      print (MsgMuxed output_path);;
      os_remove video_path;;
      os_rename output_path video_path
  | FfFailed err =>
      print MsgMuxError;;
      print (MsgFfmpegStderr err)
  | FfNotStarted =>
      (* not a [CalledProcessError]: the [except] lets it through *)
      raise FileNotFoundError
  end.

(** The command line of N_m3u8DL-RE. *)
Definition tool_command (mpd drm_key output_name output_dir : string)
  : list string :=
  ["dotnet"; N_M3U8DL_RE_PATH;
   "--url"; mpd;
   "--key"; drm_key;
   "--saveName"; output_name;
   "--workDir"; output_dir;
   "--useSystemProxy"; "true";
   "--autoSelect";
   "--binaryMerge"]
  ++ ["--header"; "User-Agent: " ++ USER_AGENT]
  ++ ["--header"; "Accept: */*"]
  ++ ["--header"; "Referer: " ++ Url.netloc mpd].

(** The branch of [download_and_decrypt] taken on return code 0. *)
Definition collect_output (output_name output_dir : string)
  (subtitle_path : option string) : M (option string) :=
  let mkv := Path.join output_dir (output_name ++ ".mkv") in
  has_mkv ← path_exists mkv;
  let expected_output :=
    if (has_mkv : bool) then mkv else Path.join output_dir (output_name ++ ".mp4") in
  found ← path_exists expected_output;
  if (found : bool)
  then
    print (MsgDecrypted expected_output);;
    has_sub ← (if Py.truthy_opt subtitle_path
               then path_exists (default "" subtitle_path)
               else mret false);
    (if (has_sub : bool)
     then mux_subtitle_into_video expected_output (default "" subtitle_path)
     else mret ());;
    let final_output := Path.join DOWNLOAD_DIR (output_name ++ "_FINAL.mkv") in
    os_rename expected_output final_output;;
    print (MsgFinalOutput final_output);;
    mret (Some final_output)
  else print (MsgOutputNotFound expected_output);; mret None.

(** [os.makedirs] and [urlparse(mpd_url)], for the "Referer" header of the
    command, stand before the [try] and return here; from [RunTool] on the
    run is inside the [try]. *)
Definition download_and_decrypt (mpd drm_key output_name : string)
  (subtitle_path : option string) : M (option string) :=
  print MsgDownloading;;
  let output_dir := Path.join DOWNLOAD_DIR output_name in
  emit (Makedirs output_dir);;
  let cmd := tool_command mpd drm_key output_name output_dir in
  try_catch
    (print MsgRunningTool;;
     emit (RunTool cmd);;
     match tool w cmd with
     | None => raise FileNotFoundError
     | Some process =>
         s ← get_state;
         put_state (set_files (t_files process ∪ files s) s);;
         for_each (t_stdout process) (λ line, print (MsgToolLine (Py.strip line)));;
         if (t_returncode process =? 0)%Z
         then collect_output output_name output_dir subtitle_path
         else
           print (MsgToolFailed (t_returncode process));;
           print (MsgToolStderr (t_stderr process));;
           mret None
     end)
    (λ _, print MsgToolException;; mret None).

(** The "Generate output name" step of [process_url]; the dictionary
    always has the key ["program_id"]. *)
Definition generate_output_name (service : string) (d : data) : string :=
  let timestamp := timestamp w in
  let program_id :=
    dict_get_default (Some (program_id d)) (Some "program") in
  Py.remove_spaces service ++ "-" ++ Py.format_opt program_id
  ++ "-" ++ timestamp.

(** [process_url] from "Extract data" on, once the service is known. *)
Definition process_detected (url service : string)
  (extract_func : string → M extracted) : M bool :=
  print (MsgDetected service);;
  data ← extract_func url;
  match data with
  | ExNone => print MsgExtractFailed;; mret false
  | ExTriple => raise AttributeError      (* [data.get] on a tuple *)
  | ExData d =>
      if negb (Py.truthy (mpd_url d))
      then print MsgExtractFailed;; mret false
      else
        drm_key ← get_drm_key (pssh d) url service;
        if negb (Py.truthy_opt drm_key)
        then print MsgKeyFailed;; mret false
        else
          let drm_key := default "" drm_key in
          let output_name := generate_output_name service d in
          subtitle_path ←
            (if Py.truthy_opt (subtitle_url d)
             then download_subtitle (subtitle_url d)
                    (Path.join TEMP_DIR (output_name ++ ".vtt"))
             else mret None);
          output_file ←
            download_and_decrypt (mpd_url d) drm_key output_name subtitle_path;
          if Py.truthy_opt output_file
          then
            print MsgComplete;;
            print (MsgFinalFile (default "" output_file));;
            mret true
          else print MsgDownloadFailed;; mret false
  end.

Definition process_url (url : string) : M bool :=
  print (MsgProcessing url);;
  if Py.contains "channel4.com" url || Py.contains "all4.com" url
  then process_detected url "Channel 4" extract_channel4_data
  else if Py.contains "itv.com" url || Py.contains "itvx.com" url
  then process_detected url "ITV" extract_itv_data
  else if Py.contains "channel5.com" url || Py.contains "my5.tv" url
  then process_detected url "Channel 5" extract_channel5_data
  else
    print (MsgUnsupported url);;
    print MsgSupportedServices;;
    mret false.

End Methods.

End Downloader.

(** ** The program around the class

    [__init__], [setup_directories], [close_browser], [cleanup] and [main].
    They print lines and touch the system in ways the class does not, so
    their trace has its own alphabet, in which the events of the class are
    embedded.  The model has no [KeyboardInterrupt]; the [--no-headless]
    flag only changes the options of the browser, which the model does not
    hold. *)

Module Program.
Import Downloader.

(** As in the class, the calls the source leaves outside any [try] return
    here: [os.makedirs] in [__init__], [driver.quit] in [close_browser].
    [os.listdir], whose failure ends [cleanup], and [input], whose failure
    the [try] of [main] handles, have their answers in the shell. *)

(** The exceptions the second handler of [main] reports: one that a job
    raised, or the [EOFError] of [input]. *)
Inductive error : Type :=
| JobError (e : exn)
| EOFError.

(** The lines printed by [main] and [cleanup]. *)
Inductive notice : Type :=
| NoteBanner | NoteRule
| NoteToolMissing (path : string) | NoteInstallTool
| NoteFfmpegMissing
| NoteCancelled                   (* "Operation cancelled by user" *)
| NoteError (e : error)           (* "An error occurred: ..." *)
| NoteCleaning
| NoteDeleteError (path : string).

Inductive action : Type :=
| Job (e : event)                 (* an event of the class *)
| Say (n : notice)
| QuitBrowser                     (* [driver.quit()] *)
| ListDir (path : string)         (* [os.listdir] *)
| Unlink (path : string)          (* [os.unlink] *)
| AskUrl.                         (* [input] for the show URL *)

(** What [input] does at the prompt for the URL. *)
Inductive input_result : Type :=
| Typed (line : string)           (* it returns the line *)
| EndOfInput                      (* it raises [EOFError] *)
| Interrupted.                    (* Ctrl-C: it raises [KeyboardInterrupt] *)

(** What the command line and the system answer to [main]. *)
Record Shell := mkShell {
  (* [args.url]; [None] without [--url] *)
  arg_url : option string;
  (* what happens when the operator is asked for the URL *)
  typed_url : input_result;
  (* [os.listdir(TEMP_DIR)] at the time of [cleanup]; [None] when it raises *)
  listing : option (list string);
  (* [os.unlink] raises on this path *)
  unlink_fails : string → bool }.

Record prun (A : Type) := mkPRun {
  p_out : outcome A;
  p_st : state;
  p_trace : list action }.
Arguments mkPRun {A} p_out p_st p_trace.
Arguments p_out {A} p.
Arguments p_st {A} p.
Arguments p_trace {A} p.

Definition P (A : Type) : Type := state → prun A.

#[export] Instance P_ret : MRet P := λ A a s, mkPRun (Ret a) s [].

#[export] Instance P_bind : MBind P := λ A B f m s,
  let r := m s in
  match p_out r with
  | Ret a =>
      let r' := f a (p_st r) in
      mkPRun (p_out r') (p_st r') (p_trace r ++ p_trace r')
  | Raise e => mkPRun (Raise e) (p_st r) (p_trace r)
  end.

Definition act (a : action) : P unit := λ s, mkPRun (Ret ()) s [a].
Definition say (n : notice) : P unit := act (Say n).
Definition get : P state := λ s, mkPRun (Ret s) s [].
Definition put (s' : state) : P unit := λ _, mkPRun (Ret ()) s' [].
Definition fail {A : Type} (e : exn) : P A := λ s, mkPRun (Raise e) s [].

(** How a call of [process_url] ends, as the [try] of [main] sees it, and
    the run of such a call. *)
Inductive job_end : Type :=
| Returned (b : bool)
| Failed (e : exn)                (* an [Exception] *)
| Cancelled.                      (* Ctrl-C while it runs: [KeyboardInterrupt] *)

Record job_run := mkJobRun {
  j_end : job_end;
  j_st : state;
  j_trace : list event }.

(** A method of the class, called from the [try] of [main].  The class as
    modelled returns or raises an [Exception]. *)
Definition call (m : M bool) : state → job_run := λ s,
  let r := m s in
  mkJobRun (match out r with
            | Ret b => Returned b
            | Raise e => Failed e
            end)
    (st r) (trace r).

(** How the body of the [try] of [main] ends. *)
Inductive ending : Type :=
| Completed
| Exception (e : error)
| KeyboardInterrupt.

Definition run_process (j : state → job_run) : P ending := λ s,
  let r := j s in
  mkPRun (Ret match j_end r with
              | Returned _ => Completed
              | Failed e => Exception (JobError e)
              | Cancelled => KeyboardInterrupt
              end)
    (j_st r) (Job <$> j_trace r).

(** [try: m  finally: f]: [f] runs in either case, and an exception of
    [f] replaces the outcome of [m]. *)
Definition try_finally {A : Type} (m : P A) (f : P unit) : P A := λ s,
  let r := m s in
  let r' := f (p_st r) in
  mkPRun (match p_out r' with
          | Ret _ => p_out r
          | Raise e => Raise e
          end)
    (p_st r') (p_trace r ++ p_trace r').

Fixpoint for_in {A : Type} (l : list A) (body : A → P unit) : P unit :=
  match l with
  | [] => mret ()
  | x :: l' => body x;; for_in l' body
  end.

Section Methods.
Variable w : World.
Variable sh : Shell.

Definition setup_directories : P unit :=
  act (Job (Makedirs (DOWNLOAD_DIR w)));;
  act (Job (Makedirs (TEMP_DIR w))).

(** A new instance: no session, and no [widevine_data] attribute yet. *)
Definition __init__ : P unit :=
  setup_directories;;
  s ← get;
  put (mkState false None (cache_file s) (files s)).

Definition close_browser : P unit :=
  s ← get;
  if driver s
  then act QuitBrowser;; put (set_driver false s)
  else mret ().

(** The body of the loop of [cleanup]; a file is what the file system
    holds at the path. *)
Definition remove_entry (file : string) : P unit :=
  let file_path := Path.join (TEMP_DIR w) file in
  s ← get;
  if bool_decide (is_Some (files s !! file_path))
  then
    act (Unlink file_path);;
    if unlink_fails sh file_path
    then say (NoteDeleteError file_path)
    else put (set_files (delete file_path (files s)) s)
  else mret ().

Definition cleanup : P unit :=
  say NoteCleaning;;
  close_browser;;
  act (ListDir (TEMP_DIR w));;
  match listing sh with
  | Some names => for_in names remove_entry
  | None => fail FileNotFoundError
  end.

(** The body of the [try] of [main]: the URL, from the command line or
    from [input], then the job; [process] is [downloader.process_url].  The
    result says which of the clauses of the [try] comes next. *)
Definition run_job (process : string → state → job_run) : P ending :=
  if Py.truthy_opt (arg_url sh)
  then run_process (process (default "" (arg_url sh)))
  else
    act AskUrl;;
    match typed_url sh with
    | Typed url => run_process (process url)
    | EndOfInput => mret (Exception EOFError)
    | Interrupted => mret KeyboardInterrupt
    end.

(** The [except] clauses of [main]. *)
Definition handle (e : ending) : P unit :=
  match e with
  | Completed => mret ()
  | KeyboardInterrupt => say NoteCancelled
  | Exception e => say (NoteError e)
  end.

(** The [try] statement of [main], with its handlers and its [finally],
    over whatever the job does. *)
Definition attempt (process : string → state → job_run) : P unit :=
  try_finally (run_job process ≫= handle) cleanup.

Definition main : P unit :=
  say NoteBanner;;
  say NoteRule;;
  s ← get;
  if negb (bool_decide (is_Some (files s !! N_M3U8DL_RE_PATH w)))
  then
    say (NoteToolMissing (N_M3U8DL_RE_PATH w));;
    say NoteInstallTool
  else
    act (Job (RunFfmpeg ["ffmpeg"; "-version"]));;
    match ffmpeg w ["ffmpeg"; "-version"] with
    | FfFailed _ | FfNotStarted => say NoteFfmpegMissing
    | FfDone _ =>
        __init__;;
        attempt (λ url, call (process_url w url))
    end.

End Methods.

End Program.

(** * Statements and test data

    What the specification says, in its own words, and the inputs the
    properties below are exercised on. *)

Module ManifestSpec.
Import ET Manifest.

(** The header a payload element contributes. *)
Definition header_of (p : Element) : option string := Py.strip <$> text p.

(** The payload elements the two nested [findall] loops visit, in order. *)
Definition visited_payloads (root : Element) : list Element :=
  protections root ≫= payloads.

(** A protection element in the words of the specification: the
    ContentProtection tag of the DASH namespace with the common-encryption
    scheme identifier. *)
Definition is_protection (e : Element) : Prop :=
  tag e = CONTENT_PROTECTION ∧ attrib e !! SCHEME_ID_URI = Some WIDEVINE_URN.

(** [p] is a payload element embedded in a protection element of the
    manifest [root]; the root itself counts as an element of the manifest. *)
Definition namespaced_payload (root p : Element) : Prop :=
  ∃ cp, cp ∈ iter root ∧ is_protection cp
        ∧ p ∈ descendants cp ∧ tag p = CENC_PSSH.

(** The three parts of the specification's sentence, read on a manifest. *)
Definition returns_namespaced_payload (root : Element) : Prop :=
  ∀ p t, namespaced_payload root p → text p = Some t →
         extract_pssh root = Some (Py.strip t).

Definition returns_first_pssh_like (root : Element) : Prop :=
  (¬ ∃ p, namespaced_payload root p) →
  ∀ e, List.find pssh_like (iter root) = Some e →
       extract_pssh root = header_of e.

Definition returns_absent (root : Element) : Prop :=
  (¬ ∃ p, namespaced_payload root p) →
  List.find pssh_like (iter root) = None →
  extract_pssh root = None.

(** Manifests used below. *)
Definition leaf (t : string) (txt : option string) : Element :=
  mkElement t ∅ txt [].

Definition protection (cs : list Element) : Element :=
  mkElement CONTENT_PROTECTION {[ SCHEME_ID_URI := WIDEVINE_URN ]} None cs.

Definition mpd (cs : list Element) : Element :=
  mkElement "{urn:mpeg:dash:schema:mpd:2011}MPD" ∅ None cs.

(** A namespaced manifest with one payload. *)
Definition namespaced_manifest : Element :=
  mpd [protection [leaf CENC_PSSH (Some " QUJD
")]].

(** The manifest of the specification's end-to-end scenario: no
    namespaces at all. *)
Definition plain_manifest : Element :=
  mkElement "MPD" ∅ None
    [mkElement "ContentProtection" {[ SCHEME_ID_URI := WIDEVINE_URN ]} None
       [leaf "pssh" (Some "QUJD")]].

(** A manifest without any protection data. *)
Definition clear_manifest : Element :=
  mpd [leaf "{urn:mpeg:dash:schema:mpd:2011}Period" None].

(** A blank namespaced payload behind another element named like one. *)
Definition blank_payload_manifest : Element :=
  mpd [leaf "xpssh" (Some "ZZ"); protection [leaf CENC_PSSH (Some " ")]].

(** A payload without text before a payload with text. *)
Definition textless_payload_manifest : Element :=
  mpd [protection [leaf CENC_PSSH None; leaf CENC_PSSH (Some "BBB")]].

(** A document whose root is the only element named like a payload. *)
Definition root_only_manifest : Element := leaf "pssh" (Some "QUJD").

End ManifestSpec.

Module DownloaderSpec.
Import ET Downloader.

(** The key cache as the specification sees it: the in-memory mapping and
    the persisted file. *)
Definition key_cache (s : state) : option (gmap string string) * cache_file_state :=
  (widevine_data s, cache_file s).

(** A world in which nothing works and nobody answers; the examples
    override what they need. *)
Definition quiet_world : World :=
  {| home := "/home/user";
     timestamp := "20240101_120000";
     b64decode := λ _, None;
     video_appears := λ _, false;
     network_items := [];
     page_tracks := None;
     play_clicked := false;
     http_manifest := λ _, None;
     http_subtitle := λ _, None;
     answer := "";
     cache_writable := true;
     tool := λ _, None;
     ffmpeg := λ _, FfFailed "" |}.

(** A fresh instance, before [initialize_browser]. *)
Definition fresh (f : cache_file_state) : state :=
  mkState false None f ∅.

(** An instance with an open session and the given cache, in memory and
    on disk. *)
Definition session (cache : gmap string string) : state :=
  mkState true (Some cache) (Stored cache) ∅.

(** The key of the specification's end-to-end scenario. *)
Definition scenario_key : string :=
  "11112222333344445555666677778888:99990000aaaabbbbccccddddeeeeffff".

Definition itv_page : string := "https://www.itv.com/watch/drama/1a2b3c".

(** Worlds that differ from a given one in a single answer. *)
Definition with_answer (a : string) (w : World) : World :=
  mkWorld (home w) (timestamp w) (b64decode w) (video_appears w)
    (network_items w) (page_tracks w) (play_clicked w) (http_manifest w)
    (http_subtitle w) a (cache_writable w) (tool w) (ffmpeg w).

Definition with_page (video : bool) (items : list (option string))
  (w : World) : World :=
  mkWorld (home w) (timestamp w) (b64decode w) (λ _, video)
    items (page_tracks w) (play_clicked w) (http_manifest w)
    (http_subtitle w) (answer w) (cache_writable w) (tool w) (ffmpeg w).

Definition with_manifest (root : Element) (w : World) : World :=
  mkWorld (home w) (timestamp w) (b64decode w) (video_appears w)
    (network_items w) (page_tracks w) (play_clicked w) (λ _, Some root)
    (http_subtitle w) (answer w) (cache_writable w) (tool w) (ffmpeg w).

Definition with_tool (r : tool_result) (w : World) : World :=
  mkWorld (home w) (timestamp w) (b64decode w) (video_appears w)
    (network_items w) (page_tracks w) (play_clicked w) (http_manifest w)
    (http_subtitle w) (answer w) (cache_writable w) (λ _, Some r) (ffmpeg w).

(** What the interactive acquisition protocol does up to and including the
    prompt, in a session that is already open. *)
Definition kid_hint (w : World) (header : string) : option string :=
  (λ bs, hex (take 16 (drop 32 bs))) <$> b64decode w header.

Definition interactive_protocol (w : World) (header url service : string)
  : list event :=
  [Print (match kid_hint w header with
          | Some kid => MsgKid kid
          | None => MsgKidError
          end);
   Print MsgKeyExtraction; Print MsgGuide; Print (MsgOpening service);
   Navigate url; Sleep 5; Print MsgLooking; Print MsgPleaseWait;
   WaitForPlay 10]
  ++ (if play_clicked w then [ClickPlay; Sleep 5] else [Print MsgNoPlayButton])
  ++ [Print MsgCheckExtension; Print MsgLookForRequests; Print MsgFindPair]
  ++ (if Py.truthy_opt (kid_hint w header)
      then [Print (MsgKidNeeded (default "" (kid_hint w header)))]
      else [])
  ++ [Prompt].

(** Events that write the key cache file. *)
Definition is_cache_write (e : event) : bool :=
  match e with WriteCache _ => true | _ => false end.

(** Events of subtitle muxing and of renaming or removing files. *)
Definition is_post_processing (e : event) : bool :=
  match e with
  | RunFfmpeg _ | Rename _ _ | Remove _ => true
  | _ => false
  end.

(** Weakest preconditions: started in [s], [m] emits only events that
    satisfy [T]; if it returns [a] the final state satisfies [Q a], if it
    raises [e] the final state satisfies [E e]. *)
Definition wp {A : Type} (T : event → Prop) (m : M A)
  (Q : A → state → Prop) (E : exn → state → Prop) (s : state) : Prop :=
  Forall T (trace (m s))
  ∧ match out (m s) with
    | Ret a => Q a (st (m s))
    | Raise e => E e (st (m s))
    end.

(** Events that start the download tool. *)
Definition is_tool_run (e : event) : bool :=
  match e with RunTool _ => true | _ => false end.

(** Events of the stages before the download: neither a tool run nor
    post-processing. *)
Definition is_early (e : event) : bool :=
  negb (is_tool_run e) && negb (is_post_processing e).

(** [m] emits only events that pass the test [T], whatever else it does. *)
Definition emits {A : Type} (T : event → bool) (m : M A) : Prop :=
  ∀ s, wp (λ e, T e = true) m (λ _ _, True) (λ _ _, True) s.

(** An extractor leaves the session open and emits early events only. *)
Definition extractor_spec (extract_func : string → M extracted) : Prop :=
  ∀ url s,
    wp (λ e, is_early e = true) (extract_func url)
      (λ _ s', driver s' = true) (λ _ _, True) s.

(** The command line [download_and_decrypt] builds. *)
Definition command_of (w : World) (mpd drm_key output_name : string)
  : list string :=
  tool_command w mpd drm_key output_name
    (Path.join (DOWNLOAD_DIR w) output_name).

(** The domain markers of [process_url], per service, in the order in
    which they are tried. *)
Definition markers (p : provider) : list string :=
  match p with
  | Channel4 => ["channel4.com"; "all4.com"]
  | ITV => ["itv.com"; "itvx.com"]
  | Channel5 => ["channel5.com"; "my5.tv"]
  end.

(** Some marker of [p] occurs in the text [t]. *)
Definition has_marker (p : provider) (t : string) : bool :=
  existsb (λ m, Py.contains m t) (markers p).

(** The first service, in the order Channel 4, ITV, Channel 5, one of
    whose markers occurs anywhere in the URL. *)
Definition detected (url : string) : option provider :=
  List.find (λ p, has_marker p url) [Channel4; ITV; Channel5].

Definition extractor (w : World) (p : provider) : string → M extracted :=
  match p with
  | Channel4 => extract_channel4_data w
  | ITV => extract_itv_data w
  | Channel5 => extract_channel5_data w
  end.

(** Events by which an extractor shows: its announcement and the
    navigation of the session. *)
Definition is_extraction (e : event) : bool :=
  match e with
  | Print (MsgAnalyzing _ _) | Navigate _ => true
  | _ => false
  end.

(** C7 as the specification states it, with the host taken from
    [urlparse]: a URL whose host holds no marker fails without any
    extractor; a URL whose host holds a marker of [p] has the extractor of
    [p] invoked. *)
Definition unmatched_host_fails (w : World) (s : state) (url : string) : Prop :=
  (∀ p, has_marker p (Url.netloc url) = false) →
  out (process_url w url s) = Ret false
  ∧ Forall (λ e, is_extraction e = false) (trace (process_url w url s)).

Definition matched_host_extracts (w : World) (s : state) (url : string) : Prop :=
  ∀ p, has_marker p (Url.netloc url) = true →
       Print (MsgAnalyzing p url) ∈ trace (process_url w url s).

(** Pages used below. *)
Definition channel4_page : string :=
  "https://www.channel4.com/programmes/taskmaster/on-demand/12345-001".
Definition channel5_page : string := "https://www.channel5.com/show/neighbours".
Definition foreign_page : string := "https://example.com/watch?src=itv.com".
Definition referred_page : string := "https://www.itv.com/watch?ref=channel4.com".

(** A world in which an ITV job runs up to the download tool, which exits
    with code 1: the video appears, the manifest is requested last, it
    carries the scenario's header, and the key is in the cache. *)
Definition failing_tool : tool_result :=
  mkToolResult ["Start downloading "] "Segment 4 of 90: HTTP 403" 1 ∅.

Definition itv_manifest_url : string :=
  "https://cdn.itv.com/playlist/drama/1a2b3c/manifest.mpd".

Definition tool_failure_world : World :=
  with_tool failing_tool
    (with_manifest ManifestSpec.plain_manifest
       (with_page true [Some "https://www.itv.com/app.js"; Some itv_manifest_url]
          quiet_world)).

(** The pattern each extractor searches for. *)
Definition pattern_of (p : provider) : Re.regex :=
  match p with
  | Channel4 => Re.CHANNEL4_ID
  | ITV | Channel5 => Re.ALNUM_ID
  end.

(** The loop body of each extractor. *)
Definition classify_of (p : provider) : loop_vars → option string → loop_vars :=
  match p with
  | Channel4 => classify_channel4
  | ITV => classify_itv
  | Channel5 => classify_channel5
  end.

(** A world in which the page requests a manifest whose URL has no path
    segment made of letters and digits only. *)
Definition flat_manifest_url : string := "https://cdn.itv.com/manifest.mpd".

Definition flat_world : World :=
  with_tool failing_tool
    (with_manifest ManifestSpec.plain_manifest
       (with_page true [Some flat_manifest_url] quiet_world)).

(** The paths of [download_and_decrypt]: the two names under which the
    tool's output is looked for, and the final name. *)
Definition mkv_path (w : World) (output_name : string) : string :=
  Path.join (Path.join (DOWNLOAD_DIR w) output_name) (output_name ++ ".mkv").
Definition mp4_path (w : World) (output_name : string) : string :=
  Path.join (Path.join (DOWNLOAD_DIR w) output_name) (output_name ++ ".mp4").
Definition final_path (w : World) (output_name : string) : string :=
  Path.join (DOWNLOAD_DIR w) (output_name ++ "_FINAL.mkv").

(** The file [download_and_decrypt] picks among those present in [fs]. *)
Definition expected_output (w : World) (output_name : string)
  (fs : gmap string string) : string :=
  if bool_decide (is_Some (fs !! mkv_path w output_name))
  then mkv_path w output_name
  else mp4_path w output_name.

(** A world in which the tool succeeds and leaves an ".mp4" file. *)
Definition mp4_tool : tool_result :=
  mkToolResult ["Done"] "" 0
    {[ "/home/user/Downloads/UKStreamDownloads/ITV-show-1/ITV-show-1.mp4"
       := "ftypisom" ]}.

Definition mp4_world : World := with_tool mp4_tool quiet_world.


(** The state after [if not self.driver: self.initialize_browser()] and
    what that step emits. *)
Definition loaded_cache (f : cache_file_state) : gmap string string :=
  match f with
  | Stored m => m
  | Unreadable | Missing => ∅
  end.

Definition opened (s : state) : state :=
  if driver s then s
  else set_widevine_data (loaded_cache (cache_file s)) (set_driver true s).

Definition opening_events (s : state) : list event :=
  if driver s then []
  else [Print MsgInitializing; StartBrowser]
       ++ match cache_file s with
          | Stored _ => [Print MsgCacheLoaded]
          | Unreadable => [Print MsgCacheLoadError]
          | Missing => []
          end
       ++ [Print MsgInitialized].

(** The normal form the specification asks of an operator's answer:
    trimmed and lower-cased. *)
Definition normalized (a : string) : string := Py.lower (Py.strip a).

(** C4 as the specification states it, for one state of the instance. *)
Definition cache_hit_returns_cached (w : World) (s : state) : Prop :=
  ∀ cache header key url service,
    widevine_data s = Some cache →
    cache !! header = Some key →
    out (get_drm_key w (Some header) url service s) = Ret (Some key).

End DownloaderSpec.

(** ** Further statements and test data *)

Module ExtraSpec.
Import ET Downloader DownloaderSpec.

(** A pattern without a capture group. *)
Fixpoint group_free (r : Re.regex) : bool :=
  match r with
  | Re.Lit _ | Re.PlusClass _ | Re.Eos => true
  | Re.Seq r1 r2 | Re.Alt r1 r2 => group_free r1 && group_free r2
  | Re.Opt r1 => group_free r1
  | Re.Group _ => false
  end.

(** The character class of the group of each extractor's pattern. *)
Definition class_of (p : provider) : ascii → bool :=
  match p with
  | Channel4 => Re.is_digit
  | ITV | Channel5 => Re.is_alnum
  end.

(** The network entries an extractor takes for a manifest and for a
    subtitle file: the tests of its loop, the second tried only when the
    first fails. *)
Definition is_manifest (p : provider) (u : string) : bool :=
  match p with
  | Channel4 | Channel5 => Py.contains ".mpd" u
  | ITV => Py.contains ".mpd" u || Py.contains ".ism/" u
  end.

Definition is_subtitle (p : provider) (u : string) : bool :=
  negb (is_manifest p u)
  && match p with
     | Channel4 => Py.contains ".vtt" u || Py.contains "/subs." u
     | ITV => Py.contains ".vtt" u || Py.contains "/subs." u
              || Py.contains "subtitles" u
     | Channel5 => Py.contains ".vtt" u || Py.contains "subtitles" u
     end.

(** The names of the network entries, as the loop reads them. *)
Definition names (items : list (option string)) : list string :=
  default "" <$> items.

(** The variables after the network loop of the extractor of [p]. *)
Definition requests (w : World) (p : provider) (url : string) : loop_vars :=
  fold_left (classify_of p) (network_items w) (mkVars url None None).

(** What an extractor returns when it gives up. *)
Definition failure (p : provider) : extracted :=
  match p with
  | Channel4 => ExTriple
  | ITV | Channel5 => ExNone
  end.

(** The subtitle URL after the page-source block of the Channel 4
    extractor, entered with the value the loop left. *)
Definition page_subtitle (w : World) (url : string) (subtitle : option string)
  : option string :=
  if Py.truthy_opt subtitle then subtitle
  else match page_tracks w with
       | None | Some [] => subtitle
       | Some (None :: _) => None
       | Some (Some src :: _) =>
           if Py.truthy src && negb (Py.startswith "http" src)
           then Some (Url.scheme url ++ "://" ++ Url.netloc url ++ src)
           else Some src
       end.

(** What an extractor returns, as a function of what the session shows. *)
Definition extraction (w : World) (p : provider) (url : string) : extracted :=
  let v := requests w p url in
  if video_appears w url && Py.truthy_opt (v_mpd v)
  then
    let mpd := default "" (v_mpd v) in
    ExData (mkData mpd
              (Manifest.pssh_var (Manifest.scan_manifest (http_manifest w mpd)))
              match p with
              | Channel4 => page_subtitle w (v_url v) (v_sub v)
              | ITV | Channel5 => v_sub v
              end
              (Re.program_id_of (pattern_of p) (v_url v)))
  else failure p.

(** Events by which the session is opened and observed: prints, the
    browser, the network log, the page source and HTTP GETs. *)
Definition is_observation (e : event) : bool :=
  match e with
  | Print _ | StartBrowser | Navigate _ | WaitForVideo _ | Sleep _
  | ReadNetwork | ReadPageSource | HttpGet _ => true
  | _ => false
  end.

(** A Channel 4 session whose page has a relative subtitle track and whose
    last request is the manifest, served by another host. *)
Definition channel4_manifest_url : string :=
  "https://cdn.channel4.com/media/12345-001/stream.mpd".

Definition channel4_world : World :=
  mkWorld "/home/user" "20240101_120000" (λ _, None) (λ _, true)
    [Some "https://www.channel4.com/static/player.js"; Some channel4_manifest_url]
    (Some [Some "/subtitles/12345-001.xml"]) false
    (λ _, Some ManifestSpec.plain_manifest) (λ _, None) "" true (λ _, None)
    (λ _, FfFailed "").

(** The file ffmpeg writes for a video, and its command line. *)
Definition with_subs_path (video_path : string) : string :=
  Path.splitext_root video_path ++ "_with_subs.mkv".

Definition mux_command (video_path subtitle_path : string) : list string :=
  ["ffmpeg"; "-i"; video_path; "-i"; subtitle_path;
   "-c"; "copy"; "-c:s"; "mov_text"; with_subs_path video_path].

(** What muxing does to the files and what it emits, by the answer of
    ffmpeg. *)
Definition files_after_mux (video_path : string) (r : ffmpeg_result)
  (fs : gmap string string) : gmap string string :=
  match r with
  | FfDone content =>
      <[video_path := content]> (delete (with_subs_path video_path) fs)
  | FfFailed _ | FfNotStarted => fs
  end.

Definition mux_events (video_path subtitle_path : string) (r : ffmpeg_result)
  : list event :=
  [Print MsgMuxing; RunFfmpeg (mux_command video_path subtitle_path)]
  ++ match r with
     | FfDone _ =>
         [Print (MsgMuxed (with_subs_path video_path)); Remove video_path;
          Rename (with_subs_path video_path) video_path]
     | FfFailed err => [Print MsgMuxError; Print (MsgFfmpegStderr err)]
     | FfNotStarted => []
     end.

(** A subtitle file was passed to [download_and_decrypt] and is among the
    files [fs]. *)
Definition subtitle_present (subtitle_path : option string)
  (fs : gmap string string) : bool :=
  Py.truthy_opt subtitle_path
  && bool_decide (is_Some (fs !! default "" subtitle_path)).

(** What ffmpeg answers when [download_and_decrypt] has it mux the
    subtitle into the tool's output; [None] when it is not asked. *)
Definition mux_result (w : World) (output_name : string)
  (subtitle_path : option string) (fs : gmap string string)
  : option ffmpeg_result :=
  if subtitle_present subtitle_path fs
  then Some (ffmpeg w (mux_command (expected_output w output_name fs)
                         (default "" subtitle_path)))
  else None.

(** The content that gets the final name: what ffmpeg wrote when it was
    asked and succeeded, what the tool left otherwise. *)
Definition final_content (w : World) (output_name : string)
  (subtitle_path : option string) (fs : gmap string string)
  (original : string) : string :=
  match mux_result w output_name subtitle_path fs with
  | Some (FfDone muxed) => muxed
  | _ => original
  end.

(** C10 as the specification states it: on a successful run the final
    path ends in "_FINAL.mkv" and holds the tool's output, renamed and not
    converted. *)
Definition renamed_as_is (w : World) (s : state)
  (mpd drm_key output_name : string) (subtitle_path : option string) : Prop :=
  ∀ p,
    out (download_and_decrypt w mpd drm_key output_name subtitle_path s)
    = Ret (Some p) →
    Py.endswith "_FINAL.mkv" p = true
    ∧ ∃ result,
        tool w (command_of w mpd drm_key output_name) = Some result
        ∧ files (st (download_and_decrypt w mpd drm_key output_name
                       subtitle_path s)) !! p
          = (t_files result ∪ files s)
            !! expected_output w output_name (t_files result ∪ files s).

(** A world in which the tool leaves an ".mp4" file and ffmpeg muxes, and
    a disk that holds the subtitle file of the job. *)
Definition show_subtitle : string :=
  "/home/user/Downloads/UKStreamDownloads/temp/ITV-show-1.vtt".

Definition remux_world : World :=
  mkWorld "/home/user" "20240101_120000" (λ _, None) (λ _, false) [] None
    false (λ _, None) (λ _, None) "" true (λ _, Some mp4_tool)
    (λ _, FfDone "matroska with subtitles").

Definition with_subtitle_file : state :=
  mkState true (Some ∅) (Stored ∅) {[ show_subtitle := "WEBVTT" ]}.

(** The invariant of an instance: the key cache is loaded whenever a
    session is open ([initialize_browser] is the only place that sets either).
    It holds of a fresh instance. *)
Definition initialized (s : state) : Prop :=
  driver s = true → is_Some (widevine_data s).

(** The output name of a job that extracted [d]. *)
Definition output_name_of (w : World) (p : provider) (d : data) : string :=
  generate_output_name w (service_name p) d.

(** A world in which an ITV job goes through: the manifest is requested,
    it carries the scenario's header, and the tool leaves an ".mkv" file
    under the name the job asks for. *)
Definition job_tool : tool_result :=
  mkToolResult ["Done"] "" 0
    {[ "/home/user/Downloads/UKStreamDownloads/ITV-playlist-20240101_120000/ITV-playlist-20240101_120000.mkv"
       := "matroska" ]}.

Definition job_world : World :=
  with_tool job_tool
    (with_manifest ManifestSpec.plain_manifest
       (with_page true [Some "https://www.itv.com/app.js"; Some itv_manifest_url]
          quiet_world)).

(** A world in which the ITV manifest carries no protection header. *)
Definition clear_world : World :=
  with_manifest ManifestSpec.clear_manifest
    (with_page true [Some itv_manifest_url] quiet_world).

(** URLs that [urlparse] takes as they are: printable ASCII without
    blanks, which it would strip, and without square brackets, on which it
    may raise [ValueError]. *)
Definition is_plain_char (c : ascii) : bool :=
  let n := N_of_ascii c in
  ((33 <=? n) && (n <=? 126) && negb (n =? 91) && negb (n =? 93))%N.

Definition plain_url (u : string) : bool := Url.all_chars is_plain_char u.

(** A world in which the video element appears and the page requests no
    manifest. *)
Definition no_manifest_world : World :=
  with_page true [Some "https://www.channel4.com/app.js"] quiet_world.



End ExtraSpec.

(** ** Statements about the program around the class *)

Module ProgramSpec.
Import Downloader Program DownloaderSpec ExtraSpec.

(** The instance [UKStreamerDownloader(...)] creates, over the disk as it
    is. *)
Definition new_instance (s : state) : state :=
  mkState false None (cache_file s) (files s).

(** Where the [try] of [main] has its URL from: the command line, which
    counts as a line typed, or the prompt. *)
Definition url_source (sh : Shell) : input_result :=
  if Py.truthy_opt (arg_url sh)
  then Typed (default "" (arg_url sh))
  else typed_url sh.

(** The URL [main] hands to [process_url]; the empty string, on which a
    job does nothing, when the prompt gives none. *)
Definition job_url (sh : Shell) : string :=
  match url_source sh with
  | Typed url => url
  | EndOfInput | Interrupted => ""
  end.

(** The [try] body of [main] over a job of any behaviour: the state it
    ends in, what the job did, and the line the handler prints. *)
Definition try_state (process : string → state → job_run) (sh : Shell)
  (s : state) : state :=
  match url_source sh with
  | Typed url => j_st (process url s)
  | EndOfInput | Interrupted => s
  end.

Definition job_events (process : string → state → job_run) (sh : Shell)
  (s : state) : list action :=
  match url_source sh with
  | Typed url => Job <$> j_trace (process url s)
  | EndOfInput | Interrupted => []
  end.

Definition reported (process : string → state → job_run) (sh : Shell)
  (s : state) : option notice :=
  match url_source sh with
  | Typed url =>
      match j_end (process url s) with
      | Returned _ => None
      | Failed e => Some (NoteError (JobError e))
      | Cancelled => Some NoteCancelled
      end
  | EndOfInput => Some (NoteError EOFError)
  | Interrupted => Some NoteCancelled
  end.

(** The lines of the handlers of [main]. *)
Definition is_report (n : notice) : bool :=
  match n with
  | NoteCancelled | NoteError _ => true
  | _ => false
  end.

(** The dependency check of [main] passes: the tool is installed and
    ffmpeg answers. *)
Definition ffmpeg_check : list string := ["ffmpeg"; "-version"].

Definition ready (w : World) (s : state) : Prop :=
  is_Some (files s !! N_M3U8DL_RE_PATH w)
  ∧ ∃ banner, ffmpeg w ffmpeg_check = FfDone banner.

(** The paths [cleanup] empties: those of the listed entries of the
    temporary directory whose removal does not fail. *)
Definition removed (w : World) (sh : Shell) (names : list string)
  (path : string) : bool :=
  existsb (λ name, String.eqb (Path.join (TEMP_DIR w) name) path) names
  && negb (unlink_fails sh path).

(** The job [main] runs, on the new instance. *)
Definition job (w : World) (sh : Shell) (s : state) : run bool :=
  process_url w (job_url sh) (new_instance s).

(** Actions of [main] that need no instance: lines and the ffmpeg
    check. *)
Definition is_preliminary (a : action) : bool :=
  match a with
  | Say _ | Job (RunFfmpeg _) => true
  | _ => false
  end.

(** A shell session: the URL on the command line, one leftover subtitle
    file in the temporary directory. *)
Definition shell (url : string) : Shell :=
  mkShell (Some url) (Typed "")
    (Some ["ITV-playlist-20240101_120000.vtt"]) (λ _, false).

(** A shell session without a URL on the command line, in which the
    operator presses Ctrl-C at the prompt, and one in which the input has
    ended. *)
Definition interrupted_shell : Shell :=
  mkShell None Interrupted (Some []) (λ _, false).

Definition closed_input_shell : Shell :=
  mkShell None EndOfInput (Some []) (λ _, false).

(** A job that raises before a session is open, as when the browser
    cannot be started. *)
Definition browserless_job (url : string) (s : state) : job_run :=
  mkJobRun (Failed FileNotFoundError) s [Print (MsgProcessing url)].

(** A disk on which the tool is installed. *)
Definition installed (f : cache_file_state) : state :=
  mkState false None f
    {[ "/home/user/tools/N_m3u8DL-RE/N_m3u8DL-RE.dll" := "MZ" ]}.

(** A world in which ffmpeg answers and fails at everything else. *)
Definition with_ffmpeg (w : World) : World :=
  mkWorld (home w) (timestamp w) (b64decode w) (video_appears w)
    (network_items w) (page_tracks w) (play_clicked w) (http_manifest w)
    (http_subtitle w) (answer w) (cache_writable w) (tool w)
    (λ cmd, if decide (cmd = ffmpeg_check) then FfDone "ffmpeg version 6.0"
            else ffmpeg w cmd).

(** An instance with an open session and a leftover subtitle file in the
    temporary directory. *)
Definition leftover : state :=
  mkState true (Some ∅) Missing
    {[ "/home/user/Downloads/UKStreamDownloads/temp/ITV-playlist-20240101_120000.vtt"
       := "WEBVTT" ]}.

(** Actions of the loop of [cleanup]. *)
Definition is_removal (a : action) : bool :=
  match a with
  | Unlink _ | Say (NoteDeleteError _) => true
  | _ => false
  end.

End ProgramSpec.

(** * Properties *)

(** ** Strings *)

Module PyFacts.

Lemma contains_colon_cons (c : ascii) (s : string) :
  Py.contains ":" (String c s) = Ascii.eqb c ":" || Py.contains ":" s.
Proof.
  cbn [Py.contains String.prefix].
  destruct (Ascii.eqb_spec c ":") as [->|Hne].
  - destruct (ascii_dec ":" ":"); [by destruct s | done].
  - destruct (ascii_dec ":" c) as [<-|_]; [done | reflexivity].
Qed.

Lemma is_space_not_colon (c : ascii) :
  Py.is_space c = true → Ascii.eqb c ":" = false.
Proof.
  intros Hsp. destruct (Ascii.eqb_spec c ":") as [->|_]; [|done].
  discriminate Hsp.
Qed.

Lemma contains_colon_lstrip (s : string) :
  Py.contains ":" (Py.lstrip s) = Py.contains ":" s.
Proof.
  induction s as [|c s IH]; [done|].
  cbn [Py.lstrip]. destruct (Py.is_space c) eqn:Hsp; [|done].
  by rewrite contains_colon_cons, (is_space_not_colon c Hsp), IH.
Qed.

Lemma contains_colon_rstrip (s : string) :
  Py.contains ":" (Py.rstrip s) = Py.contains ":" s.
Proof.
  induction s as [|c s IH]; [done|].
  cbn [Py.rstrip]. rewrite (contains_colon_cons c s), <- IH.
  destruct (Py.rstrip s) as [|c' r].
  - destruct (Py.is_space c) eqn:Hsp.
    + by rewrite (is_space_not_colon c Hsp).
    + by rewrite contains_colon_cons.
  - by rewrite (contains_colon_cons c).
Qed.

(** Trimming neither removes nor adds a colon. *)
Lemma contains_colon_strip (s : string) :
  Py.contains ":" (Py.strip s) = Py.contains ":" s.
Proof.
  unfold Py.strip. by rewrite contains_colon_rstrip, contains_colon_lstrip.
Qed.

Lemma endswith_refl (p : string) : Py.endswith p p = true.
Proof. destruct p; cbn [Py.endswith]; by rewrite String.eqb_refl. Qed.

Lemma endswith_app (p s : string) : Py.endswith p (s ++ p) = true.
Proof.
  induction s as [|c s IH]; [apply endswith_refl|].
  change (String c s ++ p) with (String c (s ++ p)).
  cbn [Py.endswith]. rewrite IH. apply orb_true_r.
Qed.

Lemma endswith_app_r (p a b : string) :
  Py.endswith p b = true → Py.endswith p (a ++ b) = true.
Proof.
  intros H. induction a as [|c a IH]; [exact H|].
  change (String c a ++ b) with (String c (a ++ b)).
  cbn [Py.endswith]. rewrite IH. apply orb_true_r.
Qed.

(** [os.path.join] keeps the ending of its last component. *)
Lemma join_endswith (p a b : string) :
  Py.endswith p b = true → Py.endswith p (Path.join a b) = true.
Proof.
  intros H. unfold Path.join.
  destruct (Py.startswith "/" b); [exact H|].
  destruct (negb (Py.truthy a) || Py.endswith "/" a);
    repeat apply endswith_app_r; exact H.
Qed.

(** *** Trimming *)

Lemma rstrip_idempotent (s : string) : Py.rstrip (Py.rstrip s) = Py.rstrip s.
Proof.
  induction s as [|c s IH]; [reflexivity|].
  cbn [Py.rstrip]. destruct (Py.rstrip s) as [|c' r] eqn:Hr.
  - destruct (Py.is_space c) eqn:Hsp; [reflexivity|].
    cbn [Py.rstrip]. by rewrite Hsp.
  - change (Py.rstrip (String c (String c' r))
            = String c (String c' r)).
    cbn [Py.rstrip]. cbn [Py.rstrip] in IH. rewrite IH. reflexivity.
Qed.

(** A string that does not start with whitespace. *)
Lemma lstrip_head (s : string) :
  match Py.lstrip s with
  | EmptyString => True
  | String c _ => Py.is_space c = false
  end.
Proof.
  induction s as [|c s IH]; [exact I|].
  cbn [Py.lstrip]. by destruct (Py.is_space c) eqn:Hsp.
Qed.

Lemma lstrip_rstrip_lstrip (s : string) :
  Py.lstrip (Py.rstrip (Py.lstrip s)) = Py.rstrip (Py.lstrip s).
Proof.
  pose proof (lstrip_head s) as Hhead.
  destruct (Py.lstrip s) as [|c t]; [reflexivity|].
  cbn [Py.rstrip]. destruct (Py.rstrip t); rewrite ?Hhead; cbn [Py.lstrip];
    by rewrite Hhead.
Qed.

(** [s.strip().strip() == s.strip()] *)
Lemma strip_idempotent (s : string) : Py.strip (Py.strip s) = Py.strip s.
Proof.
  unfold Py.strip. by rewrite lstrip_rstrip_lstrip, rstrip_idempotent.
Qed.

End PyFacts.

(** ** The program identifier patterns *)

Module ReFacts.
Import ExtraSpec.

Lemma app_cons (c : ascii) (a b : string) : String c a ++ b = String c (a ++ b).
Proof. reflexivity. Qed.

Lemma length_app (a b : string) :
  String.length (a ++ b) = String.length a + String.length b.
Proof.
  induction a as [|c a IH]; [reflexivity|].
  rewrite app_cons. cbn [String.length]. by rewrite IH.
Qed.

Lemma substring_app (a b : string) : substring 0 (String.length a) (a ++ b) = a.
Proof.
  induction a as [|c a IH]; [by destruct b|].
  rewrite app_cons. cbn [String.length substring]. by rewrite IH.
Qed.

Lemma consumed_app (a b : string) : Re.consumed (a ++ b) b = a.
Proof.
  unfold Re.consumed. rewrite length_app.
  replace (String.length a + String.length b - String.length b)
    with (String.length a) by lia.
  apply substring_app.
Qed.

Lemma app_assoc_str (a b c : string) : (a ++ b) ++ c = a ++ b ++ c.
Proof.
  induction a as [|x a IH]; [reflexivity|]. rewrite !app_cons. by rewrite IH.
Qed.

Section Matching.
Context {A : Type}.

(** What [star] hands to its continuation: the input minus a prefix in the
    class. *)
Lemma star_inv (cls : ascii → bool) (s : string) (k : string → option A) (a : A) :
  Re.star cls s k = Some a →
  ∃ pre rest, s = pre ++ rest ∧ Url.all_chars cls pre = true ∧ k rest = Some a.
Proof.
  induction s as [|c s IH]; cbn [Re.star]; intros H.
  - by exists "", "".
  - destruct (cls c) eqn:Hc; [|by exists "", (String c s)].
    destruct (Re.star cls s k) as [a'|] eqn:Hstar.
    + injection H as ->. destruct (IH eq_refl) as (pre & rest & -> & Hpre & Hk).
      exists (String c pre), rest. cbn [Url.all_chars]. by rewrite Hc, Hpre.
    + by exists "", (String c s).
Qed.

(** A pattern without a group continues on a suffix of its input, with the
    capture it was given. *)
Lemma matching_group_free (r : Re.regex) :
  group_free r = true →
  ∀ (s : string) (cap : option string)
    (k : string → option string → option A) (a : A),
    Re.matching r s cap k = Some a →
    ∃ pre rest, s = pre ++ rest ∧ k rest cap = Some a.
Proof.
  induction r as [c|cls|r1 IH1 r2 IH2|r1 IH1 r2 IH2|r1 IH1|r1 _|];
    cbn [group_free Re.matching]; intros Hfree s cap k a H.
  - destruct s as [|c' s]; [discriminate|].
    destruct (Ascii.eqb c c'); [|discriminate]. by exists (String c' ""), s.
  - destruct s as [|c' s]; [discriminate|].
    destruct (cls c'); [|discriminate].
    apply star_inv in H as (pre & rest & -> & _ & Hk).
    by exists (String c' pre), rest.
  - apply andb_prop in Hfree as [H1 H2].
    apply (IH1 H1) in H as (pre1 & rest1 & -> & H).
    apply (IH2 H2) in H as (pre2 & rest2 & -> & H).
    exists (pre1 ++ pre2), rest2. by rewrite app_assoc_str.
  - apply andb_prop in Hfree as [H1 H2].
    destruct (Re.matching r1 s cap k) as [a'|] eqn:Hm.
    + injection H as ->. by apply (IH1 H1) in Hm.
    + by apply (IH2 H2) in H.
  - destruct (Re.matching r1 s cap k) as [a'|] eqn:Hm.
    + injection H as ->. by apply (IH1 Hfree) in Hm.
    + by exists "", s.
  - discriminate.
  - destruct (Re.at_end s); [|discriminate]. by exists "", s.
Qed.
End Matching.

(** A match of [/(cls+)tail]: the group holds a non-empty run of the class
    that follows a slash. *)
Lemma id_pattern_match (cls : ascii → bool) (tail : Re.regex) (s : string)
  (g : option string) :
  group_free tail = true →
  Re.matching (Re.Seq (Re.Lit "/") (Re.Seq (Re.Group (Re.PlusClass cls)) tail))
    s None (λ _ cap, Some cap) = Some g →
  ∃ id rest, s = "/" ++ id ++ rest ∧ g = Some id ∧ id ≠ ""
             ∧ Url.all_chars cls id = true.
Proof.
  intros Hfree. cbn [Re.matching].
  destruct s as [|c0 s1]; [discriminate|].
  destruct (Ascii.eqb_spec "/" c0) as [<-|_]; [|discriminate].
  destruct s1 as [|c s2]; [discriminate|].
  destruct (cls c) eqn:Hc; [|discriminate].
  intros H. apply star_inv in H as (pre & rest & -> & Hpre & H).
  apply (matching_group_free tail Hfree) in H as (_ & _ & _ & [= <-]).
  exists (String c pre), rest.
  change (String c (pre ++ rest)) with (String c pre ++ rest).
  rewrite consumed_app. cbn [Url.all_chars]. rewrite Hc, Hpre. by repeat split.
Qed.

Lemma search_inv (r : Re.regex) (s : string) (g : option string) :
  Re.search r s = Some g →
  ∃ before s', s = before ++ s'
               ∧ Re.matching r s' None (λ _ cap, Some cap) = Some g.
Proof.
  induction s as [|c s IH]; cbn [Re.search].
  - destruct (Re.matching r "" None _) eqn:Hm; [|discriminate].
    intros [= <-]. by exists "", "".
  - destruct (Re.matching r (String c s) None _) eqn:Hm.
    + intros [= <-]. by exists "", (String c s).
    + intros (before & s' & -> & H)%IH. by exists (String c before), s'.
Qed.

(** X3.  A program identifier, when one is found, is a non-empty run of
    the pattern's class (digits for Channel 4, letters and digits for ITV and
    Channel 5) that directly follows a slash in the searched text: it holds
    no slash and no whitespace. *)
Theorem program_id_shape (p : Downloader.provider) (url id : string) :
  Re.program_id_of (DownloaderSpec.pattern_of p) url = Some id →
  id ≠ ""
  ∧ Url.all_chars (class_of p) id = true
  ∧ ∃ before rest, url = before ++ "/" ++ id ++ rest.
Proof.
  unfold Re.program_id_of.
  destruct (Re.search (DownloaderSpec.pattern_of p) url) as [g|] eqn:Hs;
    [|discriminate].
  intros ->. apply search_inv in Hs as (before & s' & -> & Hm).
  assert (∃ id' rest, s' = "/" ++ id' ++ rest ∧ Some id = Some id' ∧ id' ≠ ""
                      ∧ Url.all_chars (class_of p) id' = true)
    as (id' & rest & -> & [= <-] & Hne & Hall)
    by (destruct p; cbn [DownloaderSpec.pattern_of class_of] in *;
        unfold Re.CHANNEL4_ID, Re.ALNUM_ID in Hm;
        (eapply id_pattern_match; [|exact Hm]); reflexivity).
  split; [exact Hne|]. split; [exact Hall|]. by exists before, rest.
Qed.

Lemma program_id_shape_witness :
  "12345" ≠ ""
  ∧ Url.all_chars Re.is_digit "12345" = true
  ∧ ∃ before rest,
      DownloaderSpec.channel4_page = before ++ "/" ++ "12345" ++ rest.
Proof.
  apply (program_id_shape Downloader.Channel4 DownloaderSpec.channel4_page).
  vm_compute. reflexivity.
Defined.

End ReFacts.

(** ** Paths *)

Module PathFacts.
Import ReFacts.

Lemma app_inv_head_str (a b c : string) : a ++ b = a ++ c → b = c.
Proof.
  induction a as [|x a IH]; [done|]. rewrite !app_cons. intros [= H]. auto.
Qed.

Lemma app_nil_r_str (a : string) : a ++ "" = a.
Proof. induction a as [|x a IH]; [done|]. by rewrite app_cons, IH. Qed.

(** The character found by [rfind] is where it says. *)
Lemma rfind_char_split (c : ascii) (p : string) (i : nat) :
  Path.rfind_char c p = Some i →
  ∃ rest, p = substring 0 i p ++ String c rest.
Proof.
  revert i. induction p as [|x p IH]; intros i; cbn [Path.rfind_char];
    [discriminate|].
  destruct (Path.rfind_char c p) as [j|].
  - intros [= <-]. destruct (IH j eq_refl) as [rest Hrest].
    exists rest. cbn [substring]. rewrite app_cons. by rewrite <- Hrest.
  - destruct (Ascii.eqb_spec c x) as [<-|_]; [|discriminate].
    intros [= <-]. exists p. by destruct p.
Qed.

(** The root [splitext] returns is a prefix of the path, and what it cuts
    off is empty or starts with a dot. *)
Lemma splitext_root_split (p : string) :
  ∃ ext, p = Path.splitext_root p ++ ext
         ∧ (ext = "" ∨ ∃ rest, ext = String "." rest).
Proof.
  unfold Path.splitext_root.
  destruct (Path.rfind_char "." p) as [dot|] eqn:Hdot;
    [|exists ""; by rewrite app_nil_r_str; auto].
  destruct (_ && _); [|exists ""; by rewrite app_nil_r_str; auto].
  destruct (rfind_char_split _ _ _ Hdot) as [rest Hrest].
  exists (String "." rest). eauto.
Qed.

(** The name under which ffmpeg writes is never the name of its input. *)
Lemma with_subs_fresh (p : string) :
  Path.splitext_root p ++ "_with_subs.mkv" ≠ p.
Proof.
  destruct (splitext_root_split p) as (ext & Hp & Hext).
  intros Heq. rewrite Hp in Heq at 2.
  apply app_inv_head_str in Heq. by destruct Hext as [->|[rest ->]].
Qed.

(** A suffix no longer than [b] that [b] does not end with is not a
    suffix of [a ++ b] either. *)
Lemma endswith_app_short (p a b : string) :
  Py.endswith p b = false →
  (String.length p <= String.length b)%nat →
  Py.endswith p (a ++ b) = false.
Proof.
  intros Hb Hlen. induction a as [|c a IH]; [exact Hb|].
  rewrite app_cons. cbn [Py.endswith]. rewrite IH, orb_false_r.
  destruct (String.eqb_spec p (String c (a ++ b))) as [Heq|]; [|reflexivity].
  apply (f_equal String.length) in Heq. cbn [String.length] in Heq.
  rewrite length_app in Heq. lia.
Qed.

Lemma join_relative (a b : string) :
  Py.truthy a = true →
  Py.endswith "/" a = false →
  Py.startswith "/" b = false →
  Path.join a b = a ++ "/" ++ b.
Proof. intros Ha Hend Hb. unfold Path.join. by rewrite Hb, Ha, Hend. Qed.

Lemma truthy_app (a b : string) : Py.truthy b = true → Py.truthy (a ++ b) = true.
Proof. intros Hb. by destruct a. Qed.

End PathFacts.

(** ** The manifest protection parser *)

Module ManifestFacts.
Import ET Manifest ManifestSpec.

Lemma elem_of_visited_payloads (root p : Element) :
  p ∈ visited_payloads root ↔
  ∃ cp, cp ∈ descendants root ∧ is_protection cp
        ∧ p ∈ descendants cp ∧ tag p = CENC_PSSH.
Proof.
  unfold visited_payloads, protections, payloads, findall_tag_attr,
    findall_tag, is_protection.
  rewrite list_elem_of_bind. split.
  - intros (cp & Hp & Hcp).
    apply list_elem_of_filter in Hp as [Htag Hp].
    apply list_elem_of_filter in Hcp as [Hattr Hcp].
    apply list_elem_of_filter in Hcp as [Hcptag Hcp].
    exists cp. auto.
  - intros (cp & Hcp & [Hcptag Hattr] & Hp & Htag).
    exists cp. split; repeat (apply list_elem_of_filter; split); auto.
Qed.

Lemma scan_payloads_text (ps : list Element) (v : option string) :
  Forall (λ q, is_Some (text q)) ps →
  scan_payloads ps v
  = mkScan (match last ps with Some p => header_of p | None => v end) false.
Proof.
  intros Hall. revert v.
  induction Hall as [|p ps [t Ht] _ IH]; intros v; simpl; [done|].
  rewrite Ht, IH, last_cons.
  destruct (last ps); [done|].
  unfold header_of. by rewrite Ht.
Qed.

Lemma scan_protections_text (es : list Element) (v : option string) :
  Forall (λ q, is_Some (text q)) (es ≫= payloads) →
  scan_protections es v
  = mkScan (match last (es ≫= payloads) with
            | Some p => header_of p
            | None => v
            end) false.
Proof.
  revert v. induction es as [|e es IH]; intros v Hall; [done|].
  rewrite bind_cons in *. apply Forall_app in Hall as [He Hes].
  cbn [scan_protections].
  rewrite (scan_payloads_text _ _ He). cbn [raised pssh_var].
  rewrite (IH _ Hes), last_app.
  by destruct (last (es ≫= payloads)).
Qed.

Lemma pssh_like_has_text (e : Element) :
  pssh_like e = true → ∃ t, text e = Some t.
Proof.
  unfold pssh_like. intros [_ H]%andb_prop.
  destruct (text e); [eauto | discriminate].
Qed.

Lemma scan_fallback_find (es : list Element) (v : option string) :
  scan_fallback es v
  = match List.find pssh_like es with
    | Some e => header_of e
    | None => v
    end.
Proof.
  induction es as [|e es IH]; simpl; [done|].
  destruct (pssh_like e) eqn:Hlike; [|done].
  destruct (pssh_like_has_text e Hlike) as [t Ht].
  unfold header_of. by rewrite Ht.
Qed.

Lemma iter_unfold (e : Element) : iter e = e :: descendants e.
Proof. by destruct e. Qed.

(** Without visited payloads the block is the permissive scan. *)
Lemma extract_pssh_fallback (root : Element) :
  visited_payloads root = [] →
  extract_pssh root
  = match List.find pssh_like (descendants root) with
    | Some e => header_of e
    | None => None
    end.
Proof.
  intros Hnil. unfold extract_pssh, scan_root.
  change (protections root ≫= payloads) with (visited_payloads root) in *.
  rewrite scan_protections_text;
    change (protections root ≫= payloads) with (visited_payloads root);
    rewrite Hnil; [|constructor].
  cbn [last raised pssh_var Py.truthy_opt negb].
  unfold findall_any. by rewrite scan_fallback_find.
Qed.

(** Concrete runs of the block. *)
Example extract_namespaced : extract_pssh namespaced_manifest = Some "QUJD".
Proof. vm_compute. reflexivity. Qed.

Example extract_plain : extract_pssh plain_manifest = Some "QUJD".
Proof. vm_compute. reflexivity. Qed.

Example extract_clear : extract_pssh clear_manifest = None.
Proof. vm_compute. reflexivity. Qed.

(** C1, as amended.  Let the visited payloads be the
    [{urn:mpeg:cenc:2013}pssh] elements found below the matching
    ContentProtection elements that lie strictly below the root, in document
    order.  (1) If every visited payload has text and the last one's text
    is not blank, the parser returns that last text, trimmed.  (2) If there
    is no visited payload, the parser returns the trimmed text of the first
    element strictly below the root whose lower-cased tag contains "pssh"
    and whose text is non-empty.  (3) If there is no visited payload and no
    such element, the parser returns absent. *)
Theorem extract_pssh_two_tiers (root : Element) :
  (∀ p t,
      Forall (λ q, is_Some (text q)) (visited_payloads root) →
      last (visited_payloads root) = Some p →
      text p = Some t →
      Py.strip t ≠ "" →
      extract_pssh root = Some (Py.strip t))
  ∧ (∀ e,
        visited_payloads root = [] →
        List.find pssh_like (descendants root) = Some e →
        extract_pssh root = header_of e)
  ∧ (visited_payloads root = [] →
     List.find pssh_like (descendants root) = None →
     extract_pssh root = None).
Proof.
  split; [|split].
  - unfold extract_pssh, scan_root, visited_payloads.
    intros p t Hall Hlast Ht Hne.
    rewrite (scan_protections_text _ _ Hall), Hlast.
    cbn [raised pssh_var]. unfold header_of. rewrite Ht. cbn [fmap option_fmap option_map].
    destruct (Py.strip t); [done|reflexivity].
  - intros e Hnil Hfind. by rewrite (extract_pssh_fallback root Hnil), Hfind.
  - intros Hnil Hfind. by rewrite (extract_pssh_fallback root Hnil), Hfind.
Qed.

(** The three parts at work: on the namespaced manifest, on the
    specification's scenario and on a manifest without protection data. *)
Lemma extract_pssh_two_tiers_witness :
  extract_pssh namespaced_manifest = Some "QUJD"
  ∧ extract_pssh plain_manifest = Some "QUJD"
  ∧ extract_pssh clear_manifest = None.
Proof.
  split; [|split].
  - apply (proj1 (extract_pssh_two_tiers namespaced_manifest)
             (leaf CENC_PSSH (Some " QUJD
")) " QUJD
").
    + vm_compute. repeat constructor. eexists. reflexivity.
    + vm_compute. reflexivity.
    + reflexivity.
    + vm_compute. discriminate.
  - apply (proj1 (proj2 (extract_pssh_two_tiers plain_manifest))
             (leaf "pssh" (Some "QUJD"))).
    + vm_compute. reflexivity.
    + vm_compute. reflexivity.
  - apply (proj2 (proj2 (extract_pssh_two_tiers clear_manifest))).
    + vm_compute. reflexivity.
    + vm_compute. reflexivity.
Defined.

(** The third part of the sentence holds as the specification states it:
    a manifest with neither kind of element, the root included, yields
    absent. *)
Lemma absent_as_stated (root : Element) : returns_absent root.
Proof.
  intros Hno Hfind. rewrite iter_unfold in Hfind.
  assert (visited_payloads root = []) as Hnil.
  { destruct (visited_payloads root) as [|p ps] eqn:Hps; [reflexivity|].
    exfalso. apply Hno. exists p.
    assert (p ∈ visited_payloads root) as Hp by (rewrite Hps; left).
    apply elem_of_visited_payloads in Hp as (cp & Hcp & Hprot & Hin & Htag).
    exists cp. split; [|auto]. rewrite iter_unfold. by right. }
  rewrite (extract_pssh_fallback root Hnil).
  cbn [List.find] in Hfind. destruct (pssh_like root); [discriminate|].
  by rewrite Hfind.
Qed.

(** C1 fails as stated.  A blank namespaced payload sends the parser to
    the permissive scan, which returns another element's text; a payload
    without text ends the block before a later payload is read; and the
    permissive scan never looks at the root element. *)
Lemma extract_pssh_counterexample :
  ¬ returns_namespaced_payload blank_payload_manifest
  ∧ ¬ returns_namespaced_payload textless_payload_manifest
  ∧ ¬ returns_first_pssh_like root_only_manifest.
Proof.
  split; [|split].
  - intros H.
    specialize (H (leaf CENC_PSSH (Some " ")) " ").
    assert (extract_pssh blank_payload_manifest = Some "ZZ") as Hrun
      by (vm_compute; reflexivity).
    rewrite Hrun in H. discriminate H; [|reflexivity].
    exists (protection [leaf CENC_PSSH (Some " ")]).
    split; [|split; [|split]].
    + simpl. set_solver.
    + split; [reflexivity|]. vm_compute. reflexivity.
    + simpl. set_solver.
    + reflexivity.
  - intros H.
    specialize (H (leaf CENC_PSSH (Some "BBB")) "BBB").
    assert (extract_pssh textless_payload_manifest = None) as Hrun
      by (vm_compute; reflexivity).
    rewrite Hrun in H. discriminate H; [|reflexivity].
    exists (protection [leaf CENC_PSSH None; leaf CENC_PSSH (Some "BBB")]).
    split; [|split; [|split]].
    + simpl. set_solver.
    + split; [reflexivity|]. vm_compute. reflexivity.
    + simpl. set_solver.
    + reflexivity.
  - intros H.
    assert (extract_pssh root_only_manifest = None) as Hrun
      by (vm_compute; reflexivity).
    assert (¬ ∃ p, namespaced_payload root_only_manifest p) as Hno.
    { intros (p & cp & Hcp & _ & Hp & _).
      simpl in Hcp. apply list_elem_of_singleton in Hcp. subst cp.
      simpl in Hp. set_solver. }
    assert (List.find pssh_like (iter root_only_manifest)
            = Some root_only_manifest) as Hfind
      by (vm_compute; reflexivity).
    specialize (H Hno root_only_manifest Hfind).
    rewrite Hrun in H. discriminate H.
Qed.

(** *** What the block returns and when it reports an error *)

Lemma scan_payloads_trimmed (ps : list Element) (v : option string) :
  (∀ h, v = Some h → Py.strip h = h) →
  ∀ h, pssh_var (scan_payloads ps v) = Some h → Py.strip h = h.
Proof.
  revert v. induction ps as [|p ps IH]; intros v Hv; [exact Hv|].
  cbn [scan_payloads]. destruct (text p) as [t|]; [|exact Hv].
  apply IH. intros h [= <-]. apply PyFacts.strip_idempotent.
Qed.

Lemma scan_protections_trimmed (es : list Element) (v : option string) :
  (∀ h, v = Some h → Py.strip h = h) →
  ∀ h, pssh_var (scan_protections es v) = Some h → Py.strip h = h.
Proof.
  revert v. induction es as [|e es IH]; intros v Hv; [exact Hv|].
  cbn [scan_protections].
  pose proof (scan_payloads_trimmed (payloads e) v Hv) as He.
  destruct (raised (scan_payloads (payloads e) v)); [exact He|].
  by apply IH.
Qed.

Lemma scan_fallback_trimmed (es : list Element) (v : option string) :
  (∀ h, v = Some h → Py.strip h = h) →
  ∀ h, scan_fallback es v = Some h → Py.strip h = h.
Proof.
  intros Hv. induction es as [|e es IH]; [exact Hv|].
  cbn [scan_fallback]. destruct (pssh_like e); [|exact IH].
  destruct (text e) as [t|]; [|exact Hv].
  intros h [= <-]. apply PyFacts.strip_idempotent.
Qed.

(** X1.  Whatever the manifest, a header produced by the block has no
    leading or trailing whitespace: trimming it again changes nothing.  This
    holds for both tiers, and when the block was left by an exception. *)
Theorem pssh_header_trimmed (fetched : option Element) (h : string) :
  pssh_var (scan_manifest fetched) = Some h → Py.strip h = h.
Proof.
  destruct fetched as [root|]; [|discriminate].
  cbn [scan_manifest]. unfold scan_root.
  assert (∀ h0 : string, None = Some h0 → Py.strip h0 = h0) as Hnone
    by discriminate.
  pose proof (scan_protections_trimmed (protections root) None Hnone) as Hp.
  destruct (raised (scan_protections (protections root) None)); [apply Hp|].
  destruct (negb (Py.truthy_opt (pssh_var (scan_protections (protections root) None))));
    [|apply Hp].
  cbn [pssh_var]. by apply scan_fallback_trimmed.
Qed.

Lemma pssh_header_trimmed_witness : Py.strip "QUJD" = "QUJD".
Proof.
  apply (pssh_header_trimmed (Some namespaced_manifest)).
  vm_compute. reflexivity.
Defined.

Lemma scan_payloads_raised (ps : list Element) (v : option string) :
  raised (scan_payloads ps v) = true ↔ Exists (λ p, text p = None) ps.
Proof.
  revert v. induction ps as [|p ps IH]; intros v; cbn [scan_payloads].
  - split; [discriminate | by intros ?%Exists_nil].
  - rewrite Exists_cons. destruct (text p) as [t|].
    + rewrite IH. split; [auto | by intros [[=]|?]].
    + cbn [raised]. split; auto.
Qed.

Lemma scan_protections_raised (es : list Element) (v : option string) :
  raised (scan_protections es v) = true
  ↔ Exists (λ p, text p = None) (es ≫= payloads).
Proof.
  revert v. induction es as [|e es IH]; intros v; cbn [scan_protections].
  - split; [discriminate | by intros ?%Exists_nil].
  - rewrite bind_cons, Exists_app, <- (scan_payloads_raised (payloads e) v).
    destruct (raised (scan_payloads (payloads e) v)) eqn:Hr.
    + rewrite Hr. split; auto.
    + rewrite IH. split; [auto | by intros [[=]|?]].
Qed.

(** X2.  Once the manifest has been fetched and parsed, the block reports
    a parse error exactly when one of the visited payload elements has no
    text; nothing else in it can raise. *)
Theorem parse_error_iff_textless_payload (root : Element) :
  raised (scan_manifest (Some root)) = true
  ↔ Exists (λ p, text p = None) (visited_payloads root).
Proof.
  cbn [scan_manifest]. unfold scan_root, visited_payloads.
  rewrite <- (scan_protections_raised (protections root) None).
  destruct (raised (scan_protections (protections root) None)) eqn:Hr;
    [by rewrite Hr|].
  by destruct (negb (Py.truthy_opt (pssh_var (scan_protections (protections root) None))));
    cbn [raised]; rewrite ?Hr.
Qed.

End ManifestFacts.

(** ** The downloader *)

Module DownloaderFacts.
Import ET Downloader DownloaderSpec ExtraSpec PyFacts.

(** *** Running the monad *)

Lemma run_eta {A : Type} (r : run A) : mkRun (out r) (st r) (trace r) = r.
Proof. by destruct r. Qed.

Lemma after_nil {A : Type} (r : run A) : after [] r = r.
Proof. apply run_eta. Qed.

Lemma after_after {A : Type} (t t' : list event) (r : run A) :
  after t (after t' r) = after (t ++ t') r.
Proof. unfold after. simpl. by rewrite app_assoc. Qed.

Lemma after_mkRun {A : Type} (t t' : list event) (o : outcome A) (s : state) :
  after t (mkRun o s t') = mkRun o s (t ++ t').
Proof. reflexivity. Qed.

Lemma run_bind {A B : Type} (m : M A) (f : A → M B) (s : state) :
  (m ≫= f) s
  = match out (m s) with
    | Ret a => after (trace (m s)) (f a (st (m s)))
    | Raise e => mkRun (Raise e) (st (m s)) (trace (m s))
    end.
Proof. reflexivity. Qed.

Lemma bind_run {A B : Type} (m : M A) (f : A → M B) (s s' : state)
  (a : A) (t : list event) :
  m s = mkRun (Ret a) s' t → (m ≫= f) s = after t (f a s').
Proof. intros H. by rewrite run_bind, H. Qed.

Lemma bind_raised {A B : Type} (m : M A) (f : A → M B) (s s' : state)
  (e : exn) (t : list event) :
  m s = mkRun (Raise e) s' t → (m ≫= f) s = mkRun (Raise e) s' t.
Proof. intros H. by rewrite run_bind, H. Qed.

Lemma bind_ret {A B : Type} (a : A) (f : A → M B) (s : state) :
  (mret a ≫= f) s = f a s.
Proof. rewrite run_bind. apply after_nil. Qed.

Lemma bind_emit {B : Type} (e : event) (f : unit → M B) (s : state) :
  (emit e ≫= f) s = after [e] (f () s).
Proof. reflexivity. Qed.

Lemma bind_print {B : Type} (m : message) (f : unit → M B) (s : state) :
  (print m ≫= f) s = after [Print m] (f () s).
Proof. reflexivity. Qed.

Lemma bind_get_state {B : Type} (f : state → M B) (s : state) :
  (get_state ≫= f) s = f s s.
Proof. rewrite run_bind. apply after_nil. Qed.

Lemma bind_put_state {B : Type} (s' : state) (f : unit → M B) (s : state) :
  (put_state s' ≫= f) s = f () s'.
Proof. rewrite run_bind. apply after_nil. Qed.

Lemma bind_raise {A B : Type} (e : exn) (f : A → M B) (s : state) :
  (raise e ≫= f) s = mkRun (Raise e) s [].
Proof. reflexivity. Qed.

Lemma bind_assoc {A B C : Type} (m : M A) (f : A → M B) (g : B → M C)
  (s : state) :
  ((m ≫= f) ≫= g) s = (m ≫= λ a, f a ≫= g) s.
Proof.
  rewrite !run_bind. destruct (out (m s)) as [a|e]; [|reflexivity].
  unfold after. cbn [out st trace]. rewrite run_bind.
  destruct (out (f a (st (m s)))); unfold after; cbn [out st trace];
    by rewrite <- ?app_assoc.
Qed.

Lemma ret_run {A : Type} (a : A) (s : state) :
  (mret a : M A) s = mkRun (Ret a) s [].
Proof. reflexivity. Qed.

Lemma print_run (m : message) (s : state) :
  print m s = mkRun (Ret ()) s [Print m].
Proof. reflexivity. Qed.

Lemma emit_run (e : event) (s : state) : emit e s = mkRun (Ret ()) s [e].
Proof. reflexivity. Qed.

Lemma raise_run {A : Type} (e : exn) (s : state) :
  (raise e : M A) s = mkRun (Raise e) s [].
Proof. reflexivity. Qed.

Create Rewrite HintDb run.
#[local] Hint Rewrite @bind_ret @bind_emit @bind_print @bind_get_state
  @bind_put_state @bind_raise @bind_assoc @after_after @after_mkRun
  @after_nil @ret_run print_run emit_run : run.
#[local] Hint Rewrite @raise_run @app_nil_r : run.
#[local] Hint Rewrite <- @app_assoc : run.

(** Symbolic execution of straight-line code. *)
Ltac exec :=
  repeat (autorewrite with run; cbn [app default from_option id negb]).

(** *** Key resolution: cache hit *)

(** C4, as amended.  For every non-empty protection header that has an
    entry in the key cache, [get_drm_key] returns the cached value
    unchanged; it prints the cached key and does nothing else: no
    navigation, no play-control activation, no prompt, no cache write, and
    the state is the one it started from. *)
Theorem get_drm_key_cache_hit (w : World) (s : state)
  (cache : gmap string string) (header key url service : string) :
  header ≠ "" →
  widevine_data s = Some cache →
  cache !! header = Some key →
  get_drm_key w (Some header) url service s
  = mkRun (Ret (Some key)) s [Print (MsgCachedKey key)].
Proof.
  intros Hne Hdata Hhit. unfold get_drm_key.
  destruct header as [|c header]; [done|].
  cbn [Py.truthy_opt Py.truthy negb]. exec.
  rewrite Hdata, Hhit. by exec.
Qed.

(** The specification's scenario: the pre-seeded entry is returned
    without any prompt. *)
Lemma get_drm_key_cache_hit_witness :
  get_drm_key quiet_world (Some "QUJD") itv_page "ITV"
    (session {[ "QUJD" := scenario_key ]})
  = mkRun (Ret (Some scenario_key)) (session {[ "QUJD" := scenario_key ]})
      [Print (MsgCachedKey scenario_key)].
Proof.
  apply (get_drm_key_cache_hit quiet_world _ {[ "QUJD" := scenario_key ]}).
  - discriminate.
  - reflexivity.
  - vm_compute. reflexivity.
Defined.

(** C4 fails as stated: the empty header is turned away before the cache
    is consulted, entry or not. *)
Lemma get_drm_key_cache_hit_counterexample :
  ¬ cache_hit_returns_cached quiet_world (session {[ "" := "aa:bb" ]}).
Proof.
  intros H.
  specialize (H {[ "" := "aa:bb" ]} "" "aa:bb" itv_page "ITV" eq_refl).
  assert (out (get_drm_key quiet_world (Some "") itv_page "ITV"
                 (session {[ "" := "aa:bb" ]})) = Ret None) as Hrun
    by reflexivity.
  rewrite Hrun in H. discriminate H. vm_compute. reflexivity.
Qed.

(** *** Key resolution: the interactive path *)

Lemma ensure_browser_open (s : state) :
  driver s = true → ensure_browser s = mkRun (Ret ()) s [].
Proof. intros H. unfold ensure_browser. exec. by rewrite H. Qed.

Lemma extract_kid_run (w : World) (header : string) (s : state) :
  extract_kid w header s
  = mkRun (Ret (kid_hint w header)) s
      [Print (match kid_hint w header with
              | Some kid => MsgKid kid
              | None => MsgKidError
              end)].
Proof.
  unfold extract_kid, kid_hint. by destruct (b64decode w header).
Qed.

Lemma try_play_run (w : World) (s : state) :
  try_play w s
  = mkRun (Ret ()) s
      (WaitForPlay 10
     :: if play_clicked w then [ClickPlay; Sleep 5] else [Print MsgNoPlayButton]).
Proof. unfold try_play. by destruct (play_clicked w). Qed.

(** A cache miss in an open session: the protocol runs up to the prompt,
    then the answer is examined. *)
Lemma get_drm_key_miss (w : World) (s : state) (cache : gmap string string)
  (header url service : string) :
  driver s = true →
  header ≠ "" →
  widevine_data s = Some cache →
  cache !! header = None →
  get_drm_key w (Some header) url service s
  = after (interactive_protocol w header url service)
      (if Py.contains ":" (Py.strip (answer w))
       then mkRun (Ret (Some (Py.strip (answer w))))
              (set_cache_file
                 (if cache_writable w
                  then Stored (<[header := Py.strip (answer w)]> cache)
                  else cache_file s)
                 (set_widevine_data (<[header := Py.strip (answer w)]> cache) s))
              (if cache_writable w
               then [WriteCache (<[header := Py.strip (answer w)]> cache);
                     Print MsgCacheSaved]
               else [Print MsgCacheSaveError])
       else mkRun (Ret None) s [Print MsgInvalidKeyFormat]).
Proof.
  intros Hopen Hne Hdata Hmiss. unfold get_drm_key.
  destruct header as [|c header]; [done|].
  cbn [Py.truthy_opt Py.truthy negb]. exec.
  rewrite Hdata, Hmiss.
  rewrite (bind_run _ _ _ _ _ _ (ensure_browser_open s Hopen)).
  rewrite (bind_run _ _ _ _ _ _ (extract_kid_run w _ s)). exec.
  rewrite (bind_run _ _ _ _ _ _ (try_play_run w s)). exec.
  unfold interactive_protocol.
  destruct (play_clicked w), (Py.truthy_opt (kid_hint w (String c header)));
    exec;
    (destruct (Py.contains ":" (Py.strip (answer w))); [|by exec]);
    destruct (Py.split_colon (Py.strip (answer w))); exec;
    rewrite Hdata; exec; unfold save_widevine_proxy_data; exec;
    (destruct (cache_writable w); exec; [reflexivity|]);
    by destruct s.
Qed.

(** C5.  In an open session (the state in which [process_url] calls the
    resolver), for every header that misses the cache and every answer
    without a colon: the protocol runs up to the prompt, the format error
    is reported, the result is [None], and the state is the one the call
    started from; in particular the key cache, in memory and on disk, is
    untouched and nothing was written to the cache file. *)
Theorem get_drm_key_invalid_answer (w : World) (s : state)
  (cache : gmap string string) (header url service : string) :
  driver s = true →
  header ≠ "" →
  widevine_data s = Some cache →
  cache !! header = None →
  Py.contains ":" (answer w) = false →
  get_drm_key w (Some header) url service s
  = mkRun (Ret None) s
      (interactive_protocol w header url service ++ [Print MsgInvalidKeyFormat])
  ∧ key_cache (st (get_drm_key w (Some header) url service s)) = key_cache s
  ∧ Forall (λ e, is_cache_write e = false)
      (trace (get_drm_key w (Some header) url service s)).
Proof.
  intros Hopen Hne Hdata Hmiss Hbad.
  rewrite (get_drm_key_miss w s cache header url service Hopen Hne Hdata Hmiss).
  rewrite contains_colon_strip, Hbad, after_mkRun.
  split; [reflexivity|]. split; [reflexivity|].
  cbn [trace]. unfold interactive_protocol.
  destruct (play_clicked w), (Py.truthy_opt (kid_hint w header));
    cbn [app]; repeat constructor.
Qed.

Lemma get_drm_key_invalid_answer_witness :
  get_drm_key (with_answer " no separator " quiet_world) (Some "QUJD")
    itv_page "ITV" (session ∅)
  = mkRun (Ret None) (session ∅)
      (interactive_protocol (with_answer " no separator " quiet_world)
         "QUJD" itv_page "ITV" ++ [Print MsgInvalidKeyFormat]).
Proof.
  apply (get_drm_key_invalid_answer (with_answer " no separator " quiet_world)
           (session ∅) ∅ "QUJD" itv_page "ITV").
  - reflexivity.
  - discriminate.
  - reflexivity.
  - reflexivity.
  - vm_compute. reflexivity.
Defined.

(** A valid answer is cached and returned as typed, apart from the
    surrounding whitespace. *)
Lemma get_drm_key_valid_answer (w : World) (s : state)
  (cache : gmap string string) (header url service : string) :
  driver s = true →
  header ≠ "" →
  widevine_data s = Some cache →
  cache !! header = None →
  Py.contains ":" (answer w) = true →
  out (get_drm_key w (Some header) url service s)
  = Ret (Some (Py.strip (answer w)))
  ∧ widevine_data (st (get_drm_key w (Some header) url service s))
    = Some (<[header := Py.strip (answer w)]> cache).
Proof.
  intros Hopen Hne Hdata Hmiss Hgood.
  rewrite (get_drm_key_miss w s cache header url service Hopen Hne Hdata Hmiss).
  by rewrite contains_colon_strip, Hgood.
Qed.

(** C3 fails on the code: an answer in capitals is cached and returned in
    capitals, not in the normal form; [get_drm_key] lower-cases the two
    halves into variables it never reads again. *)
Theorem get_drm_key_keeps_case :
  out (get_drm_key (with_answer "  ABCD:EF01  " quiet_world) (Some "QUJD")
         itv_page "ITV" (session ∅))
  = Ret (Some "ABCD:EF01")
  ∧ key_cache (st (get_drm_key (with_answer "  ABCD:EF01  " quiet_world)
                     (Some "QUJD") itv_page "ITV" (session ∅)))
    = (Some {[ "QUJD" := "ABCD:EF01" ]}, Stored {[ "QUJD" := "ABCD:EF01" ]})
  ∧ normalized "  ABCD:EF01  " = "abcd:ef01".
Proof. vm_compute. done. Qed.

(** *** A weakest-precondition calculus *)

Section WP.
Context {A : Type} (T : event → Prop).
Implicit Types (Q : A → state → Prop) (E : exn → state → Prop).

Lemma wp_ret (a : A) Q E s : Q a s → wp T (mret a) Q E s.
Proof. intros H. split; [constructor | exact H]. Qed.

Lemma wp_raise (e : exn) Q E s : E e s → wp T (raise e) Q E s.
Proof. intros H. split; [constructor | exact H]. Qed.

Lemma wp_mono (m : M A) Q Q' E E' s :
  wp T m Q E s →
  (∀ a s', Q a s' → Q' a s') →
  (∀ e s', E e s' → E' e s') →
  wp T m Q' E' s.
Proof.
  intros [Ht Ho] HQ HE. split; [exact Ht|].
  destruct (out (m s)); auto.
Qed.

Lemma wp_bind {B : Type} (m : M B) (f : B → M A) Q E s :
  wp T m (λ b s', wp T (f b) Q E s') E s → wp T (m ≫= f) Q E s.
Proof.
  intros [Ht Ho]. unfold wp. rewrite run_bind.
  destruct (out (m s)) as [b|e]; [|by split].
  destruct Ho as [Ht' Ho']. split; [by apply Forall_app | exact Ho'].
Qed.

Lemma wp_try_catch (m : M A) (h : exn → M A) Q E s :
  wp T m Q (λ e s', wp T (h e) Q E s') s → wp T (try_catch m h) Q E s.
Proof.
  intros [Ht Ho]. unfold wp, try_catch. cbn zeta.
  destruct (out (m s)) as [a|e] eqn:Hout.
  - rewrite Hout. by split.
  - destruct Ho as [Ht' Ho']. split; [by apply Forall_app | exact Ho'].
Qed.
End WP.

Section WPPrimitives.
Context (T : event → Prop).

Lemma wp_emit (e : event) (Q : unit → state → Prop) E s :
  T e → Q () s → wp T (emit e) Q E s.
Proof. intros He H. split; [by repeat constructor | exact H]. Qed.

Lemma wp_print (m : message) (Q : unit → state → Prop) E s :
  T (Print m) → Q () s → wp T (print m) Q E s.
Proof. apply wp_emit. Qed.

Lemma wp_get_state (Q : state → state → Prop) E s :
  Q s s → wp T get_state Q E s.
Proof. intros H. split; [constructor | exact H]. Qed.

Lemma wp_put_state (s' : state) (Q : unit → state → Prop) E s :
  Q () s' → wp T (put_state s') Q E s.
Proof. intros H. split; [constructor | exact H]. Qed.

(** A loop whose body keeps [I] and does not raise keeps [I]. *)
Lemma wp_for_each {B : Type} (l : list B) (body : B → M unit)
  (I : state → Prop) E s :
  (∀ x s', I s' → wp T (body x) (λ _, I) E s') →
  I s → wp T (for_each l body) (λ _, I) E s.
Proof.
  intros Hbody. revert s. induction l as [|x l IH]; intros s Hs.
  - by apply wp_ret.
  - cbn [for_each]. apply wp_bind.
    eapply wp_mono; [apply (Hbody x s Hs) | | auto].
    intros ? s' Hs'. by apply IH.
Qed.
End WPPrimitives.

(** One step of a weakest-precondition proof. *)
Ltac wp_step :=
  lazymatch goal with
  | |- wp _ (mbind _ _) _ _ _ => apply wp_bind
  | |- wp _ (mret _) _ _ _ => apply wp_ret
  | |- wp _ (raise _) _ _ _ => apply wp_raise
  | |- wp _ (emit _) _ _ _ => apply wp_emit; [reflexivity|]
  | |- wp _ (print _) _ _ _ => apply wp_print; [reflexivity|]
  | |- wp _ get_state _ _ _ => apply wp_get_state
  | |- wp _ (put_state _) _ _ _ => apply wp_put_state
  | |- wp _ (try_catch _ _) _ _ _ => apply wp_try_catch
  | |- wp _ (if ?b then _ else _) _ _ _ => destruct b eqn:?
  | |- wp _ (match ?x with _ => _ end) _ _ _ => destruct x eqn:?
  end.

(** Use a proved specification for the call in head position. *)
Ltac wp_call H :=
  eapply wp_mono; [apply H | intros ? ? ? | intros ? ? ?]; cbv beta in *.

Ltac wp_run := repeat wp_step; try done.

(** *** What each method emits *)

Lemma ensure_browser_run (s : state) :
  ensure_browser s = mkRun (Ret ()) (opened s) (opening_events s).
Proof.
  unfold ensure_browser, opened, opening_events. exec.
  destruct (driver s) eqn:Hd; [reflexivity|].
  unfold initialize_browser, load_widevine_proxy_data. exec.
  cbn [cache_file set_driver].
  destruct (cache_file s) eqn:Hf; exec; unfold set_widevine_data, set_driver;
    cbn [driver cache_file files loaded_cache]; by rewrite ?Hf.
Qed.

Lemma driver_opened (s : state) : driver (opened s) = true.
Proof. unfold opened. by destruct (driver s) eqn:Hd. Qed.

Lemma early_opening_events (s : state) :
  Forall (λ e, is_early e = true) (opening_events s).
Proof.
  unfold opening_events.
  destruct (driver s), (cache_file s); repeat constructor.
Qed.

(** After [ensure_browser] the session is open. *)
Lemma wp_ensure_browser (s : state) :
  wp (λ e, is_early e = true) ensure_browser
    (λ _ s', driver s' = true) (λ _ _, True) s.
Proof.
  unfold wp. rewrite ensure_browser_run. cbn [out st trace].
  split; [apply early_opening_events | apply driver_opened].
Qed.

(** The helpers of the extractors leave the state alone. *)
Lemma wp_wait_for_video (w : World) (url : string) (s : state) :
  wp (λ e, is_early e = true) (wait_for_video w url)
    (λ _ s', s' = s) (λ _ _, True) s.
Proof. unfold wait_for_video. wp_run. Qed.

Lemma wp_fetch_pssh (w : World) (mpd : string) (s : state) :
  wp (λ e, is_early e = true) (fetch_pssh w mpd)
    (λ _ s', s' = s) (λ _ _, True) s.
Proof. unfold fetch_pssh. wp_run. Qed.

Lemma wp_report (mpd : string) (pssh subtitle : option string) (s : state) :
  wp (λ e, is_early e = true) (report mpd pssh subtitle)
    (λ _ s', s' = s) (λ _ _, True) s.
Proof. unfold report. wp_run. Qed.

Lemma wp_scan_page_for_subtitles (w : World) (url : string)
  (subtitle : option string) (s : state) :
  wp (λ e, is_early e = true) (scan_page_for_subtitles w url subtitle)
    (λ _ s', s' = s) (λ _ _, True) s.
Proof. unfold scan_page_for_subtitles. wp_run. Qed.

Ltac wp_extract_step :=
  lazymatch goal with
  | |- wp _ ensure_browser _ _ _ => wp_call wp_ensure_browser
  | |- wp _ (wait_for_video _ _) _ _ _ => wp_call wp_wait_for_video; try subst
  | |- wp _ (fetch_pssh _ _) _ _ _ => wp_call wp_fetch_pssh; try subst
  | |- wp _ (report _ _ _) _ _ _ => wp_call wp_report; try subst
  | |- wp _ (scan_page_for_subtitles _ _ _) _ _ _ =>
      wp_call wp_scan_page_for_subtitles; try subst
  | |- _ => wp_step
  end.

Lemma wp_extract_channel4_data (w : World) :
  extractor_spec (extract_channel4_data w).
Proof.
  intros url s. unfold extract_channel4_data.
  repeat wp_extract_step; done.
Qed.

Lemma wp_extract_itv_data (w : World) :
  extractor_spec (extract_itv_data w).
Proof.
  intros url s. unfold extract_itv_data.
  repeat wp_extract_step; done.
Qed.

Lemma wp_extract_channel5_data (w : World) :
  extractor_spec (extract_channel5_data w).
Proof.
  intros url s. unfold extract_channel5_data.
  repeat wp_extract_step; done.
Qed.

Lemma early_get_drm_key (w : World) (pssh : option string) (url service : string) :
  emits is_early (get_drm_key w pssh url service).
Proof.
  intros s.
  unfold get_drm_key, extract_kid, try_play, save_widevine_proxy_data.
  repeat wp_extract_step; done.
Qed.

Lemma early_download_subtitle (w : World) (subtitle : option string)
  (output_path : string) :
  emits is_early (download_subtitle w subtitle output_path).
Proof. intros s. unfold download_subtitle. wp_run. Qed.

(** *** The download step *)

Lemma for_each_print_run (l : list string) (g : string → message) (s : state) :
  for_each l (λ line, print (g line)) s
  = mkRun (Ret ()) s ((λ line, Print (g line)) <$> l).
Proof.
  induction l as [|x l IH]; [reflexivity|].
  cbn [for_each]. rewrite bind_print, IH. reflexivity.
Qed.



(** The only tool run of [download_and_decrypt] is on the command line it
    builds. *)
Lemma download_and_decrypt_tool_run (w : World) (s : state)
  (mpd drm_key output_name : string) (subtitle_path : option string) :
  Forall (λ e, is_tool_run e = true →
               e = RunTool (command_of w mpd drm_key output_name))
    (trace (download_and_decrypt w mpd drm_key output_name subtitle_path s)).
Proof.
  set (T := λ e, is_tool_run e = true →
                 e = RunTool (command_of w mpd drm_key output_name)).
  assert (∀ e, is_tool_run e = false → T e) as Hother
    by (intros e He Hrun; congruence).
  assert (wp T (download_and_decrypt w mpd drm_key output_name subtitle_path)
            (λ _ _, True) (λ _ _, True) s) as [Htrace _]; [|exact Htrace].
  unfold download_and_decrypt, collect_output, mux_subtitle_into_video,
    path_exists, os_remove, os_rename.
  repeat first
    [ apply wp_bind
    | apply wp_ret
    | apply wp_raise
    | apply wp_try_catch
    | apply wp_get_state
    | apply wp_put_state
    | apply wp_emit; [first [by apply Hother | by intros _] |]
    | apply wp_print; [by apply Hother |]
    | eapply wp_mono;
      [apply (wp_for_each T _ _ (λ _, True) (λ _ _, False));
       [intros; apply wp_print; [by apply Hother | done] | done]
      | intros ? ? _ | intros ? ? []]
    | lazymatch goal with
      | |- wp _ (if ?b then _ else _) _ _ _ => destruct b eqn:?
      | |- wp _ (match ?x with _ => _ end) _ _ _ => destruct x eqn:?
      end ]; done.
Qed.

(** *** The job: a failing download tool *)

Lemma early_no_tool_run (t : list event) (cmd : list string) :
  Forall (λ e, is_early e = true) t → RunTool cmd ∉ t.
Proof.
  intros Hall Hin. rewrite Forall_forall in Hall.
  by specialize (Hall _ Hin).
Qed.









(** *** Provider detection *)

(** [process_url] dispatches on [detected]. *)
Lemma process_url_dispatch (w : World) (s : state) (url : string) :
  process_url w url s
  = after [Print (MsgProcessing url)]
      match detected url with
      | Some p => process_detected w url (service_name p) (extractor w p) s
      | None =>
          mkRun (Ret false) s
            [Print (MsgUnsupported url); Print MsgSupportedServices]
      end.
Proof.
  unfold process_url, detected, has_marker.
  cbn [List.find existsb markers]. rewrite !orb_false_r, bind_print.
  destruct (Py.contains "channel4.com" url || Py.contains "all4.com" url);
    [reflexivity|].
  destruct (Py.contains "itv.com" url || Py.contains "itvx.com" url);
    [reflexivity|].
  destruct (Py.contains "channel5.com" url || Py.contains "my5.tv" url);
    reflexivity.
Qed.

(** Every extractor starts by announcing itself. *)
Lemma extractor_announces {B : Type} (w : World) (p : provider)
  (url : string) (k : extracted → M B) (s : state) :
  ∃ r, (extractor w p url ≫= k) s = after [Print (MsgAnalyzing p url)] r.
Proof.
  destruct p; cbn [extractor];
    unfold extract_channel4_data, extract_itv_data, extract_channel5_data;
    rewrite bind_assoc, bind_print; eauto.
Qed.

Lemma detected_none (url : string) :
  (∀ p, has_marker p url = false) → detected url = None.
Proof.
  intros H. unfold detected. cbn [List.find].
  by rewrite (H Channel4), (H ITV), (H Channel5).
Qed.

Lemma detected_some (url : string) (p : provider) :
  has_marker p url = true →
  ∃ q, detected url = Some q ∧ has_marker q url = true.
Proof.
  intros Hp. unfold detected. cbn [List.find].
  destruct (has_marker Channel4 url) eqn:H4; [eauto|].
  destruct (has_marker ITV url) eqn:Hitv; [eauto|].
  destruct (has_marker Channel5 url) eqn:H5; [eauto|].
  destruct p; congruence.
Qed.

(** The job of a detected service: it goes on with that service's
    extractor, whose announcement is its third event. *)
Lemma process_url_detected (w : World) (s : state) (url : string) (q : provider) :
  detected url = Some q →
  process_url w url s
  = after [Print (MsgProcessing url)]
      (process_detected w url (service_name q) (extractor w q) s)
  ∧ ∃ r, process_url w url s
         = after [Print (MsgProcessing url);
                  Print (MsgDetected (service_name q));
                  Print (MsgAnalyzing q url)] r.
Proof.
  intros Hq. rewrite process_url_dispatch, Hq.
  split; [reflexivity|].
  unfold process_detected. rewrite bind_print.
  lazymatch goal with
  | |- context [(extractor w q url ≫= ?k) s] =>
      destruct (extractor_announces w q url k s) as [r Hr]
  end.
  exists r. rewrite Hr, !after_after. reflexivity.
Qed.

(** C7, as amended.  The markers are looked for in the whole URL, not in
    its host.  (1) A URL in which no marker occurs is reported as
    unsupported: [process_url] returns [False] after three prints, the state
    untouched and no extractor invoked.  (2) A URL in which a marker occurs
    is handed to the extractor of the first service, in the order
    Channel 4, ITV, Channel 5, that has a marker in it; the job starts with
    that extractor's announcement. *)
Theorem process_url_detection (w : World) (s : state) (url : string) :
  ((∀ p, has_marker p url = false) →
   process_url w url s
   = mkRun (Ret false) s
       [Print (MsgProcessing url); Print (MsgUnsupported url);
        Print MsgSupportedServices])
  ∧ (∀ p, has_marker p url = true →
          ∃ q, detected url = Some q
               ∧ has_marker q url = true
               ∧ process_url w url s
                 = after [Print (MsgProcessing url)]
                     (process_detected w url (service_name q) (extractor w q) s)
               ∧ ∃ r, process_url w url s
                      = after [Print (MsgProcessing url);
                               Print (MsgDetected (service_name q));
                               Print (MsgAnalyzing q url)] r).
Proof.
  split.
  - intros Hnone. by rewrite process_url_dispatch, (detected_none url Hnone).
  - intros p Hp. destruct (detected_some url p Hp) as (q & Hq & Hmark).
    exists q. split; [exact Hq|]. split; [exact Hmark|].
    apply process_url_detected, Hq.
Qed.

Lemma process_url_detection_witness :
  process_url quiet_world "https://www.bbc.co.uk/iplayer/episode/m001" (fresh Missing)
  = mkRun (Ret false) (fresh Missing)
      [Print (MsgProcessing "https://www.bbc.co.uk/iplayer/episode/m001");
       Print (MsgUnsupported "https://www.bbc.co.uk/iplayer/episode/m001");
       Print MsgSupportedServices]
  ∧ ∃ q, detected itv_page = Some q
         ∧ has_marker q itv_page = true
         ∧ process_url quiet_world itv_page (fresh Missing)
           = after [Print (MsgProcessing itv_page)]
               (process_detected quiet_world itv_page (service_name q)
                  (extractor quiet_world q) (fresh Missing))
         ∧ ∃ r, process_url quiet_world itv_page (fresh Missing)
                = after [Print (MsgProcessing itv_page);
                         Print (MsgDetected (service_name q));
                         Print (MsgAnalyzing q itv_page)] r.
Proof.
  split.
  - apply (proj1 (process_url_detection quiet_world (fresh Missing)
                    "https://www.bbc.co.uk/iplayer/episode/m001")).
    intros []; vm_compute; reflexivity.
  - apply (proj2 (process_url_detection quiet_world (fresh Missing) itv_page)
             ITV).
    vm_compute. reflexivity.
Defined.

(** C7 fails as stated.  A marker in the query string of a foreign host
    starts the ITV extractor; a Channel 4 marker in the query string of an
    ITV page starts the Channel 4 extractor instead of ITV's. *)
Lemma process_url_detection_counterexample :
  ¬ unmatched_host_fails quiet_world (fresh Missing) foreign_page
  ∧ ¬ matched_host_extracts quiet_world (fresh Missing) referred_page.
Proof.
  split.
  - intros H. destruct H as [_ H]; [intros []; vm_compute; reflexivity|].
    rewrite Forall_forall in H.
    specialize (H (Print (MsgAnalyzing ITV foreign_page))).
    discriminate H. vm_compute.
    repeat first [apply list_elem_of_here | apply list_elem_of_further].
  - intros H. specialize (H ITV). vm_compute in H.
    specialize (H eq_refl).
    repeat (apply elem_of_cons in H as [H|H]; [discriminate H|]).
    by apply elem_of_nil in H.
Qed.

(** *** A video element that never appears *)

(** What an extractor does up to the timeout. *)
Lemma extractor_timeout (w : World) (p : provider) (url : string) (s : state) :
  video_appears w url = false →
  extractor w p url s
  = mkRun (Ret (match p with Channel4 => ExTriple | _ => ExNone end))
      (opened s)
      (Print (MsgAnalyzing p url)
       :: opening_events s
       ++ [Navigate url; WaitForVideo 30; Print MsgVideoTimeout]).
Proof.
  intros Hno.
  destruct p; cbn [extractor];
    unfold extract_channel4_data, extract_itv_data, extract_channel5_data;
    exec; rewrite (bind_run _ _ _ _ _ _ (ensure_browser_run s)); exec;
    unfold wait_for_video; exec; rewrite Hno; exec; reflexivity.
Qed.

(** On a timeout the ITV and Channel 5 jobs return [False] after a single
    navigation; the Channel 4 job raises [AttributeError], because its
    extractor returns a tuple where the other two return [None]. *)
Lemma process_url_timeout (w : World) (p : provider) (url : string) (s : state) :
  detected url = Some p →
  video_appears w url = false →
  process_url w url s
  = mkRun (match p with Channel4 => Raise AttributeError | _ => Ret false end)
      (opened s)
      ([Print (MsgProcessing url); Print (MsgDetected (service_name p));
        Print (MsgAnalyzing p url)]
       ++ opening_events s
       ++ [Navigate url; WaitForVideo 30; Print MsgVideoTimeout]
       ++ match p with Channel4 => [] | _ => [Print MsgExtractFailed] end).
Proof.
  intros Hp Hno. rewrite process_url_dispatch, Hp.
  unfold process_detected. rewrite bind_print.
  rewrite (bind_run _ _ _ _ _ _ (extractor_timeout w p url s Hno)).
  destruct p; exec; rewrite ?app_nil_r; reflexivity.
Qed.

(** C6 fails on the code for Channel 4: when the video element does not
    appear, [process_url] raises [AttributeError] instead of returning
    [False]; on the same timeout the ITV and Channel 5 jobs return
    [False]. *)
Theorem channel4_timeout_raises :
  out (process_url quiet_world channel4_page (fresh Missing))
  = Raise AttributeError
  ∧ out (process_url quiet_world itv_page (fresh Missing)) = Ret false
  ∧ out (process_url quiet_world channel5_page (fresh Missing)) = Ret false.
Proof.
  rewrite (process_url_timeout quiet_world Channel4 channel4_page)
    by reflexivity.
  rewrite (process_url_timeout quiet_world ITV itv_page) by reflexivity.
  rewrite (process_url_timeout quiet_world Channel5 channel5_page)
    by reflexivity.
  done.
Qed.

(** *** The program identifier *)

Lemma classify_of_url (p : provider) (v : loop_vars) (item : option string) :
  v_url (classify_of p v item) = default "" item.
Proof.
  destruct p; cbn [classify_of];
    unfold classify_channel4, classify_itv, classify_channel5;
    repeat lazymatch goal with
           | |- context [if ?b then _ else _] => destruct b
           end; reflexivity.
Qed.

(** After the network loop the variable [url] holds the name of the last
    entry; the page URL survives only when there was no entry. *)
Lemma loop_url (p : provider) (items : list (option string)) (v : loop_vars) :
  v_url (fold_left (classify_of p) items v)
  = match last items with
    | Some item => default "" item
    | None => v_url v
    end.
Proof.
  destruct items as [|item items _] using rev_ind; [reflexivity|].
  rewrite fold_left_app, last_snoc. apply classify_of_url.
Qed.

Lemma loop_mpd_nil (p : provider) (items : list (option string)) (url : string) :
  last items = None →
  v_mpd (fold_left (classify_of p) items (mkVars url None None)) = None.
Proof. intros ->%last_None. reflexivity. Qed.

(** Whenever an extractor returns data, the program identifier is the
    match of its pattern in the name of the last network entry. *)
Lemma extractor_program_id (w : World) (p : provider) (url : string)
  (s : state) (d : data) :
  out (extractor w p url s) = Ret (ExData d) →
  ∃ item, last (network_items w) = Some item
          ∧ program_id d = Re.program_id_of (pattern_of p) (default "" item).
Proof.
  pose proof (loop_url p (network_items w) (mkVars url None None)) as Hurl.
  pose proof (loop_mpd_nil p (network_items w) url) as Hnil.
  destruct (last (network_items w)) as [item|].
  - clear Hnil. intros Hout. exists item. split; [reflexivity|].
    revert Hout.
    destruct p; cbn [extractor classify_of pattern_of] in *;
      unfold extract_channel4_data, extract_itv_data, extract_channel5_data;
      exec; rewrite (bind_run _ _ _ _ _ _ (ensure_browser_run s)); exec;
      unfold wait_for_video; exec;
      (destruct (video_appears w url); exec; [|discriminate]);
      (destruct (Py.truthy_opt _); exec; [|discriminate]);
      unfold fetch_pssh; exec;
      (destruct (Manifest.raised _); exec);
      unfold scan_page_for_subtitles, report; exec;
      repeat lazymatch goal with
             | |- context [if ?b then _ else _] => destruct b; exec
             | |- context [match ?x with _ => _ end] => destruct x; exec
             end;
      cbn [out]; intros [= <-]; cbn [program_id]; by rewrite Hurl.
  - specialize (Hnil eq_refl). clear Hurl.
    destruct p; cbn [extractor classify_of] in *;
      unfold extract_channel4_data, extract_itv_data, extract_channel5_data;
      exec; rewrite (bind_run _ _ _ _ _ _ (ensure_browser_run s)); exec;
      unfold wait_for_video; exec;
      (destruct (video_appears w url); exec; [|discriminate]);
      rewrite Hnil; cbn [Py.truthy_opt]; exec; discriminate.
Qed.

(** C2 fails on the code: the network loop reuses the name [url], so the
    pattern is matched against the last network entry.  On an ITV page
    whose own URL yields "watch", the extractor returns "playlist", taken
    from the manifest URL; on a Channel 4 page whose own URL yields
    "12345", the same requests leave the identifier undetected. *)
Theorem program_id_from_last_request :
  out (extract_itv_data tool_failure_world itv_page (session ∅))
  = Ret (ExData (mkData itv_manifest_url (Some "QUJD") None (Some "playlist")))
  ∧ Re.program_id_of Re.ALNUM_ID itv_page = Some "watch"
  ∧ out (extract_channel4_data tool_failure_world channel4_page (session ∅))
    = Ret (ExData (mkData itv_manifest_url (Some "QUJD") None None))
  ∧ Re.program_id_of Re.CHANNEL4_ID channel4_page = Some "12345".
Proof. vm_compute. done. Qed.

(** Without a program identifier the name carries the text of [None]. *)
Lemma generate_output_name_undetected (w : World) (service : string) (d : data) :
  program_id d = None →
  generate_output_name w service d
  = Py.remove_spaces service ++ "-None-" ++ timestamp w.
Proof.
  intros Hnone. unfold generate_output_name. rewrite Hnone. reflexivity.
Qed.

(** C9 fails on the code: the dictionary always has the key
    ["program_id"], so the default ["program"] of [data.get] is never used.
    A job whose extraction detects no identifier names its output
    "ITV-None-20240101_120000" and hands that name to the download tool. *)
Theorem undetected_program_id_named_none :
  out (extract_itv_data flat_world itv_page (session {[ "QUJD" := scenario_key ]}))
  = Ret (ExData (mkData flat_manifest_url (Some "QUJD") None None))
  ∧ generate_output_name flat_world "ITV"
      (mkData flat_manifest_url (Some "QUJD") None None)
    = "ITV-None-20240101_120000"
  ∧ RunTool (command_of flat_world flat_manifest_url scenario_key
               "ITV-None-20240101_120000")
    ∈ trace (process_url flat_world itv_page
               (session {[ "QUJD" := scenario_key ]})).
Proof.
  split; [vm_compute; reflexivity|]. split; [vm_compute; reflexivity|].
  vm_compute.
  repeat first [apply list_elem_of_here | apply list_elem_of_further].
Qed.

(** *** The final artifact *)

(** A handler that returns [None] cannot be the source of a path. *)
Lemma try_catch_some (m : M (option string)) (msg : message) (s : state)
  (p : string) :
  out (try_catch m (λ _, print msg;; mret None) s) = Ret (Some p) →
  try_catch m (λ _, print msg;; mret None) s = m s
  ∧ out (m s) = Ret (Some p).
Proof.
  unfold try_catch. cbn zeta.
  destruct (out (m s)) as [a|e] eqn:Hout.
  - rewrite Hout. auto.
  - discriminate.
Qed.

(** A successful [collect_output]: the file it found is renamed to the
    final path, and the rename is the last thing that happens to the files;
    without a subtitle it is the only thing. *)
Lemma collect_output_success (w : World) (output_name : string)
  (subtitle_path : option string) (s : state) (p : string) :
  out (collect_output w output_name (Path.join (DOWNLOAD_DIR w) output_name)
         subtitle_path s) = Ret (Some p) →
  p = final_path w output_name
  ∧ is_Some (files s !! expected_output w output_name (files s))
  ∧ ∃ (t : list event) (before : state) (content : string),
      files before !! expected_output w output_name (files s) = Some content
      ∧ collect_output w output_name (Path.join (DOWNLOAD_DIR w) output_name)
          subtitle_path s
        = mkRun (Ret (Some p))
            (set_files
               (<[p := content]>
                  (delete (expected_output w output_name (files s)) (files before)))
               before)
            (t ++ [Rename (expected_output w output_name (files s)) p;
                   Print (MsgFinalOutput p)])%list
      ∧ (subtitle_path = None →
         before = s
         ∧ t = [Print (MsgDecrypted (expected_output w output_name (files s)))]).
Proof.
  unfold collect_output, path_exists. exec.
  change (Path.join (Path.join (DOWNLOAD_DIR w) output_name)
            (output_name ++ ".mkv")) with (mkv_path w output_name).
  change (Path.join (Path.join (DOWNLOAD_DIR w) output_name)
            (output_name ++ ".mp4")) with (mp4_path w output_name).
  change (Path.join (DOWNLOAD_DIR w) (output_name ++ "_FINAL.mkv"))
    with (final_path w output_name).
  change (if bool_decide (is_Some (files s !! mkv_path w output_name))
          then mkv_path w output_name else mp4_path w output_name)
    with (expected_output w output_name (files s)).
  set (src := expected_output w output_name (files s)).
  destruct (bool_decide (is_Some (files s !! src))) eqn:Hfound;
    exec; [|discriminate].
  apply bool_decide_eq_true in Hfound.
  assert (∀ (pre : list event) (s1 : state),
            out (after pre
                   ((os_rename src (final_path w output_name)
                     ≫= λ _, print (MsgFinalOutput (final_path w output_name))
                     ≫= λ _, mret (Some (final_path w output_name))) s1))
            = Ret (Some p) →
            p = final_path w output_name
            ∧ ∃ c, files s1 !! src = Some c
              ∧ after pre
                  ((os_rename src (final_path w output_name)
                    ≫= λ _, print (MsgFinalOutput (final_path w output_name))
                    ≫= λ _, mret (Some (final_path w output_name))) s1)
                = mkRun (Ret (Some p))
                    (set_files (<[p := c]> (delete src (files s1))) s1)
                    (pre ++ [Rename src p; Print (MsgFinalOutput p)]))
    as Hrename.
  { intros pre s1. unfold os_rename. exec.
    destruct (files s1 !! src) as [c|]; exec; [|discriminate].
    cbn [out]. intros [= <-]. split; [reflexivity|]. by exists c. }
  destruct subtitle_path as [sp|]; cbn [Py.truthy_opt].
  - destruct (Py.truthy sp); exec.
    + destruct (bool_decide (is_Some (files s !! sp))); exec.
      * rewrite run_bind.
        destruct (out (mux_subtitle_into_video w src sp s)); [|discriminate].
        rewrite after_after. intros Hout.
        destruct (Hrename _ _ Hout) as (-> & c & Hc & ->).
        split; [reflexivity|]. split; [exact Hfound|].
        eexists _, _, c. split; [exact Hc|]. split; [reflexivity|discriminate].
      * intros Hout. destruct (Hrename _ _ Hout) as (-> & c & Hc & ->).
        split; [reflexivity|]. split; [exact Hfound|].
        eexists _, _, c. split; [exact Hc|]. split; [reflexivity|discriminate].
    + intros Hout. destruct (Hrename _ _ Hout) as (-> & c & Hc & ->).
      split; [reflexivity|]. split; [exact Hfound|].
      eexists _, _, c. split; [exact Hc|]. split; [reflexivity|discriminate].
  - exec. intros Hout. destruct (Hrename _ _ Hout) as (-> & c & Hc & ->).
    split; [reflexivity|]. split; [exact Hfound|].
    eexists _, _, c. split; [exact Hc|]. split; [reflexivity|]. by intros _.
Qed.

Lemma final_path_endswith (w : World) (output_name : string) :
  Py.endswith "_FINAL.mkv" (final_path w output_name) = true.
Proof. apply join_endswith, endswith_app. Qed.

(** What [mux_subtitle_into_video] does on a video file that exists. *)
Lemma mux_subtitle_into_video_run (w : World) (video_path subtitle_path : string)
  (s : state) (old : string) :
  files s !! video_path = Some old →
  mux_subtitle_into_video w video_path subtitle_path s
  = mkRun
      (match ffmpeg w (mux_command video_path subtitle_path) with
       | FfNotStarted => Raise FileNotFoundError
       | _ => Ret ()
       end)
      (set_files
         (files_after_mux video_path
            (ffmpeg w (mux_command video_path subtitle_path)) (files s)) s)
      (mux_events video_path subtitle_path
         (ffmpeg w (mux_command video_path subtitle_path))).
Proof.
  intros Hvideo.
  pose proof (PathFacts.with_subs_fresh video_path) as Hfresh.
  unfold mux_subtitle_into_video, mux_events, files_after_mux.
  fold (with_subs_path video_path). fold (mux_command video_path subtitle_path).
  fold (with_subs_path video_path) in Hfresh.
  exec. destruct (ffmpeg w _) as [content|err|]; exec;
    [|by destruct s..].
  unfold os_remove. exec. cbn [files set_files].
  rewrite lookup_insert_ne, Hvideo by done. exec.
  unfold os_rename. exec. cbn [files set_files].
  rewrite lookup_delete_ne, lookup_insert_eq by done. exec.
  unfold set_files, put_state, after.
  cbn [driver widevine_data cache_file files out st trace].
  rewrite app_nil_r. do 2 f_equal. apply map_eq. intros k.
  destruct (decide (k = video_path)) as [->|Hk];
    [by rewrite !lookup_insert_eq|].
  rewrite !lookup_insert_ne by done.
  destruct (decide (k = with_subs_path video_path)) as [->|Hk'];
    [by rewrite !lookup_delete_eq|].
  by rewrite !lookup_delete_ne, lookup_insert_ne by done.
Qed.

Lemma files_after_mux_video (video_path : string) (r : ffmpeg_result)
  (fs : gmap string string) (old : string) :
  fs !! video_path = Some old →
  files_after_mux video_path r fs !! video_path
  = Some (match r with FfDone content => content | _ => old end).
Proof.
  intros Hold. destruct r; cbn [files_after_mux]; [|done..].
  by rewrite lookup_insert_eq.
Qed.

(** [collect_output] on a state in which the expected output is there:
    the subtitle is muxed in when its file is there too, then the output is
    renamed; only an ffmpeg that cannot be started stops it. *)
Lemma collect_output_run (w : World) (output_name : string)
  (subtitle_path : option string) (s : state) (original : string) :
  files s !! expected_output w output_name (files s) = Some original →
  ∃ (s' : state) (t : list event),
    collect_output w output_name (Path.join (DOWNLOAD_DIR w) output_name)
      subtitle_path s
    = mkRun
        (match mux_result w output_name subtitle_path (files s) with
         | Some FfNotStarted => Raise FileNotFoundError
         | _ => Ret (Some (final_path w output_name))
         end) s' t
    ∧ match mux_result w output_name subtitle_path (files s) with
      | Some FfNotStarted =>
          s' = s
          ∧ Forall (λ e, ∀ src dst, e ≠ Rename src dst ∧ e ≠ Remove src) t
      | _ =>
          files s' !! final_path w output_name
          = Some (final_content w output_name subtitle_path (files s) original)
          ∧ ∃ t0, t = (t0 ++ [Rename (expected_output w output_name (files s))
                                (final_path w output_name);
                              Print (MsgFinalOutput (final_path w output_name))])%list
      end
    ∧ (mux_result w output_name subtitle_path (files s) = None →
       t = [Print (MsgDecrypted (expected_output w output_name (files s)));
            Rename (expected_output w output_name (files s))
              (final_path w output_name);
            Print (MsgFinalOutput (final_path w output_name))]).
Proof.
  intros Hfound.
  unfold collect_output, path_exists, final_content, mux_result,
    subtitle_present. exec.
  change (Path.join (Path.join (DOWNLOAD_DIR w) output_name)
            (output_name ++ ".mkv")) with (mkv_path w output_name).
  change (Path.join (Path.join (DOWNLOAD_DIR w) output_name)
            (output_name ++ ".mp4")) with (mp4_path w output_name).
  change (Path.join (DOWNLOAD_DIR w) (output_name ++ "_FINAL.mkv"))
    with (final_path w output_name).
  change (if bool_decide (is_Some (files s !! mkv_path w output_name))
          then mkv_path w output_name else mp4_path w output_name)
    with (expected_output w output_name (files s)).
  set (src := expected_output w output_name (files s)) in *.
  set (dst := final_path w output_name).
  rewrite bool_decide_eq_true_2 by eauto. exec.
  assert (∀ (pre : list event) (s1 : state) (c : string),
            files s1 !! src = Some c →
            ∃ s' t,
              after pre
                ((os_rename src dst
                  ≫= λ _, print (MsgFinalOutput dst)
                  ≫= λ _, mret (Some dst)) s1)
              = mkRun (Ret (Some dst)) s' t
              ∧ (files s' !! dst = Some c
                 ∧ ∃ t0, t = (t0 ++ [Rename src dst; Print (MsgFinalOutput dst)])%list)
              ∧ t = (pre ++ [Rename src dst; Print (MsgFinalOutput dst)])%list)
    as Hrename.
  { intros pre s1 c Hc. unfold os_rename. exec. rewrite Hc. exec.
    eexists _, _. split; [reflexivity|]. split; [|reflexivity].
    cbn [files set_files]. rewrite lookup_insert_eq. eauto. }
  destruct (Py.truthy_opt subtitle_path); cbn [andb]; exec.
  - destruct (bool_decide (is_Some (files s !! default "" subtitle_path)));
      exec.
    + pose proof (mux_subtitle_into_video_run w src (default "" subtitle_path)
                    s original Hfound) as Hmux.
      pose proof (files_after_mux_video src
                    (ffmpeg w (mux_command src (default "" subtitle_path)))
                    (files s) original Hfound) as Hvideo.
      destruct (ffmpeg w (mux_command src (default "" subtitle_path)))
        as [muxed|err|].
      * rewrite (bind_run _ _ _ _ _ _ Hmux), after_after.
        destruct (Hrename
                    ([Print (MsgDecrypted src)]
                     ++ mux_events src (default "" subtitle_path) (FfDone muxed))%list
                    (set_files (files_after_mux src (FfDone muxed) (files s)) s)
                    muxed Hvideo) as (s' & t & -> & Hs' & _).
        exists s', t. split; [reflexivity|]. split; [exact Hs'|discriminate].
      * rewrite (bind_run _ _ _ _ _ _ Hmux), after_after.
        destruct (Hrename
                    ([Print (MsgDecrypted src)]
                     ++ mux_events src (default "" subtitle_path) (FfFailed err))%list
                    (set_files (files_after_mux src (FfFailed err) (files s)) s)
                    original Hvideo) as (s' & t & -> & Hs' & _).
        exists s', t. split; [reflexivity|]. split; [exact Hs'|discriminate].
      * rewrite (bind_raised _ _ _ _ _ _ Hmux). rewrite after_mkRun.
        eexists _, _. split; [reflexivity|]. split; [|discriminate].
        split; [by destruct s|].
        repeat constructor; discriminate.
    + destruct (Hrename [Print (MsgDecrypted src)] s original Hfound)
        as (s' & t & -> & Hs' & Ht).
      exists s', t. split; [reflexivity|]. split; [exact Hs'|]. by intros _.
  - destruct (Hrename [Print (MsgDecrypted src)] s original Hfound)
      as (s' & t & -> & Hs' & Ht).
    exists s', t. split; [reflexivity|]. split; [exact Hs'|]. by intros _.
Qed.

(** C10, as amended.  Whenever [download_and_decrypt] returns a path,
    that path is [DOWNLOAD_DIR/<output_name>_FINAL.mkv] and ends in
    "_FINAL.mkv"; the tool ran and exited with code 0, and the file taken as
    its output is the ".mkv" one if present among the files it left, the
    ".mp4" one otherwise.  The run ends with the [os.rename] of that file to
    the final path.  What the final path then holds depends on the
    subtitle: when a subtitle file was passed and is there and ffmpeg
    succeeds, it is what ffmpeg wrote, which had replaced the tool's output;
    in every other case it is the tool's output as the tool left it.  When
    no subtitle file is there, the run only prints between the tool's output
    and the rename: no ffmpeg run, no removal. *)
Theorem download_and_decrypt_final (w : World) (s : state)
  (mpd drm_key output_name : string) (subtitle_path : option string)
  (p : string) :
  out (download_and_decrypt w mpd drm_key output_name subtitle_path s)
  = Ret (Some p) →
  p = final_path w output_name
  ∧ Py.endswith "_FINAL.mkv" p = true
  ∧ ∃ (result : tool_result) (original : string),
      tool w (command_of w mpd drm_key output_name) = Some result
      ∧ t_returncode result = 0%Z
      ∧ (t_files result ∪ files s)
        !! expected_output w output_name (t_files result ∪ files s)
        = Some original
      ∧ files (st (download_and_decrypt w mpd drm_key output_name
                     subtitle_path s)) !! p
        = Some (final_content w output_name subtitle_path
                  (t_files result ∪ files s) original)
      ∧ (∃ t0 : list event,
           trace (download_and_decrypt w mpd drm_key output_name
                    subtitle_path s)
           = (t0 ++ [Rename (expected_output w output_name
                               (t_files result ∪ files s)) p;
                     Print (MsgFinalOutput p)])%list)
      ∧ (mux_result w output_name subtitle_path (t_files result ∪ files s)
         = None →
         trace (download_and_decrypt w mpd drm_key output_name subtitle_path s)
         = ([Print MsgDownloading;
             Makedirs (Path.join (DOWNLOAD_DIR w) output_name);
             Print MsgRunningTool;
             RunTool (command_of w mpd drm_key output_name)]
            ++ ((λ line, Print (MsgToolLine (Py.strip line)))
                  <$> t_stdout result)
            ++ [Print (MsgDecrypted
                         (expected_output w output_name
                            (t_files result ∪ files s)));
                Rename (expected_output w output_name
                          (t_files result ∪ files s)) p;
                Print (MsgFinalOutput p)])%list).
Proof.
  unfold download_and_decrypt. fold (command_of w mpd drm_key output_name).
  exec. unfold after at 1. cbn [out]. intros Hout.
  apply try_catch_some in Hout as [-> Hout]. revert Hout. exec.
  destruct (tool w (command_of w mpd drm_key output_name)) as [result|];
    exec; [|discriminate].
  rewrite (bind_run _ _ _ _ _ _ (for_each_print_run _ _ _)).
  destruct (t_returncode result =? 0)%Z eqn:Hcode; exec; [|discriminate].
  apply Z.eqb_eq in Hcode.
  unfold after at 1. cbn [out]. intros Hout.
  destruct (collect_output_success w output_name subtitle_path _ p Hout)
    as (_ & [original Horiginal] & _).
  cbn [files set_files] in Horiginal.
  destruct (collect_output_run w output_name subtitle_path
              (set_files (t_files result ∪ files s) s) original Horiginal)
    as (s' & t & Hrun & Hcases & Hplain).
  cbn [files set_files] in *.
  rewrite Hrun in Hout |- *. cbn [out] in Hout.
  destruct (mux_result w output_name subtitle_path (t_files result ∪ files s))
    as [[muxed|err|]|] eqn:Hmux; try discriminate Hout;
    injection Hout as <-;
    destruct Hcases as [Hfinal [t0 ->]];
    (split; [reflexivity|]); (split; [apply final_path_endswith|]);
    exists result, original;
    (split; [reflexivity|]); (split; [exact Hcode|]);
    (split; [exact Horiginal|]);
    cbn [after st trace];
    (split; [exact Hfinal|]);
    (split; [eexists; rewrite app_assoc; reflexivity|]);
    intros Hnone; try congruence.
  by rewrite (Hplain eq_refl).
Qed.

(** The tool leaves an ".mp4" file, the subtitle file is there and ffmpeg
    muxes it in: the result is the "_FINAL.mkv" path. *)
Lemma download_and_decrypt_final_witness :
  out (download_and_decrypt remux_world itv_manifest_url scenario_key
         "ITV-show-1" (Some show_subtitle) with_subtitle_file)
  = Ret (Some "/home/user/Downloads/UKStreamDownloads/ITV-show-1_FINAL.mkv")
  ∧ Py.endswith "_FINAL.mkv"
      "/home/user/Downloads/UKStreamDownloads/ITV-show-1_FINAL.mkv" = true.
Proof.
  assert (out (download_and_decrypt remux_world itv_manifest_url scenario_key
                 "ITV-show-1" (Some show_subtitle) with_subtitle_file)
          = Ret (Some "/home/user/Downloads/UKStreamDownloads/ITV-show-1_FINAL.mkv"))
    as Hrun by (vm_compute; reflexivity).
  split; [exact Hrun|].
  exact (proj1 (proj2 (download_and_decrypt_final remux_world with_subtitle_file
                         itv_manifest_url scenario_key "ITV-show-1"
                         (Some show_subtitle) _ Hrun))).
Defined.

(** C10 fails as stated.  With the subtitle file of the job on disk and
    an ffmpeg that succeeds, the run is successful and the final path holds
    what ffmpeg wrote, not the ".mp4" file the tool left. *)
Lemma download_and_decrypt_final_counterexample :
  ¬ renamed_as_is remux_world with_subtitle_file itv_manifest_url scenario_key
      "ITV-show-1" (Some show_subtitle).
Proof.
  intros H.
  destruct (H "/home/user/Downloads/UKStreamDownloads/ITV-show-1_FINAL.mkv")
    as [_ (result & Htool & Hfiles)]; [vm_compute; reflexivity|].
  injection Htool as <-. vm_compute in Hfiles. discriminate Hfiles.
Qed.

(** What that run leaves on disk: ffmpeg's output under the final name,
    the subtitle file, and nothing under the name the tool used. *)
Example remuxed_under_final_name :
  files (st (download_and_decrypt remux_world itv_manifest_url scenario_key
               "ITV-show-1" (Some show_subtitle) with_subtitle_file))
  = {[ "/home/user/Downloads/UKStreamDownloads/ITV-show-1_FINAL.mkv"
       := "matroska with subtitles";
       show_subtitle := "WEBVTT" ]}.
Proof. vm_compute. reflexivity. Qed.

(** Without a subtitle the ".mp4" file is renamed as it is: its content
    under the final name, and nothing under the old one. *)
Example mp4_renamed_as_is :
  files (st (download_and_decrypt mp4_world itv_manifest_url scenario_key
               "ITV-show-1" None (session ∅)))
  = {[ "/home/user/Downloads/UKStreamDownloads/ITV-show-1_FINAL.mkv" := "ftypisom" ]}.
Proof. vm_compute. reflexivity. Qed.

(** *** The session at the time of key resolution *)

(** [process_url] calls [get_drm_key] on the state an extractor returned
    in, and every extractor returns with the session open. *)
Lemma extractor_leaves_session_open (w : World) (p : provider)
  (url : string) (s : state) (x : extracted) :
  out (extractor w p url s) = Ret x →
  driver (st (extractor w p url s)) = true.
Proof.
  intros Hout.
  assert (extractor_spec (extractor w p)) as Hspec
    by (destruct p; [apply wp_extract_channel4_data
                    | apply wp_extract_itv_data
                    | apply wp_extract_channel5_data]).
  destruct (Hspec url s) as [_ Hpost]. by rewrite Hout in Hpost.
Qed.

(** *** The network loop *)

Lemma classify_of_mpd (p : provider) (v : loop_vars) (item : option string) :
  v_mpd (classify_of p v item)
  = if is_manifest p (default "" item) then Some (default "" item) else v_mpd v.
Proof.
  destruct p; cbn [classify_of is_manifest];
    unfold classify_channel4, classify_itv, classify_channel5;
    repeat lazymatch goal with
           | |- context [if ?b then _ else _] => destruct b
           end; reflexivity.
Qed.

Lemma classify_of_sub (p : provider) (v : loop_vars) (item : option string) :
  v_sub (classify_of p v item)
  = if is_subtitle p (default "" item) then Some (default "" item) else v_sub v.
Proof.
  destruct p; unfold is_subtitle; cbn [classify_of is_manifest];
    unfold classify_channel4, classify_itv, classify_channel5;
    repeat lazymatch goal with
           | |- context [if ?b then _ else _] => destruct b; cbn [negb andb orb]
           end; reflexivity.
Qed.

Lemma loop_last (p : provider) (items : list (option string)) (v : loop_vars) :
  v_mpd (fold_left (classify_of p) items v)
  = from_option Some (v_mpd v) (last (List.filter (is_manifest p) (names items)))
  ∧ v_sub (fold_left (classify_of p) items v)
    = from_option Some (v_sub v) (last (List.filter (is_subtitle p) (names items))).
Proof.
  unfold names.
  induction items as [|item items [IHm IHs]] using rev_ind; [done|].
  rewrite fold_left_app, fmap_app, !List.filter_app. cbn [fold_left fmap list_fmap List.filter].
  rewrite classify_of_mpd, classify_of_sub, IHm, IHs.
  split.
  - destruct (is_manifest p (default "" item)); [by rewrite last_snoc|].
    by rewrite app_nil_r.
  - destruct (is_subtitle p (default "" item)); [by rewrite last_snoc|].
    by rewrite app_nil_r.
Qed.

(** X4.  Of the entries of the network log, each extractor keeps the last
    one that passes its manifest test and the last one that fails it and
    passes its subtitle test; an entry that passes both counts as a manifest
    only, and an entry without a name counts as the empty name. *)
Theorem network_loop_last_match (p : provider) (items : list (option string))
  (url : string) :
  v_mpd (fold_left (classify_of p) items (mkVars url None None))
  = last (List.filter (is_manifest p) (names items))
  ∧ v_sub (fold_left (classify_of p) items (mkVars url None None))
    = last (List.filter (is_subtitle p) (names items)).
Proof.
  destruct (loop_last p items (mkVars url None None)) as [-> ->].
  cbn [v_mpd v_sub].
  by split; destruct (last _).
Qed.

(** *** What an extractor returns *)

Lemma scan_page_for_subtitles_run (w : World) (url : string)
  (subtitle : option string) (s : state) :
  out (scan_page_for_subtitles w url subtitle s)
  = Ret (page_subtitle w url subtitle)
  ∧ st (scan_page_for_subtitles w url subtitle s) = s.
Proof.
  unfold scan_page_for_subtitles, page_subtitle.
  destruct (Py.truthy_opt subtitle); [done|]. exec.
  destruct (page_tracks w) as [[|[src|] tracks]|]; exec; try done.
  by destruct (Py.truthy src && negb (Py.startswith "http" src)).
Qed.

Lemma extractor_result (w : World) (p : provider) (url : string) (s : state) :
  out (extractor w p url s) = Ret (extraction w p url)
  ∧ st (extractor w p url s) = opened s.
Proof.
  unfold extraction, requests.
  destruct p; cbn [extractor classify_of pattern_of failure];
    unfold extract_channel4_data, extract_itv_data, extract_channel5_data;
    exec; rewrite (bind_run _ _ _ _ _ _ (ensure_browser_run s)); exec;
    unfold wait_for_video; exec;
    (destruct (video_appears w url); exec; [|done]);
    cbn [andb];
    (destruct (Py.truthy_opt _); exec; [|done]);
    unfold fetch_pssh; exec;
    (destruct (Manifest.raised _); exec);
    try (rewrite run_bind;
         lazymatch goal with
         | |- context [scan_page_for_subtitles w ?u ?sub ?s'] =>
             destruct (scan_page_for_subtitles_run w u sub s') as [Ho Hs];
             rewrite Ho, Hs
         end);
    unfold report; exec; done.
Qed.

Lemma extractor_observes (w : World) (p : provider) (url : string) :
  emits is_observation (extractor w p url).
Proof.
  intros s.
  destruct p; cbn [extractor];
    unfold extract_channel4_data, extract_itv_data, extract_channel5_data,
      ensure_browser, initialize_browser, load_widevine_proxy_data,
      wait_for_video, fetch_pssh, scan_page_for_subtitles, report;
    wp_run.
Qed.

(** X5.  An extractor that returns has only looked: it printed, drove
    the browser, read the network log and the page source and issued HTTP
    GETs; it asked the operator nothing, ran no tool and wrote, renamed or
    removed no file.  The only change it made to the instance is to open the
    session and load the key cache when no session was open. *)
Theorem extractor_only_observes (w : World) (p : provider) (url : string)
  (s : state) (x : extracted) :
  out (extractor w p url s) = Ret x →
  st (extractor w p url s) = opened s
  ∧ Forall (λ e, is_observation e = true) (trace (extractor w p url s)).
Proof.
  intros _. destruct (extractor_result w p url s) as [_ Hst].
  split; [exact Hst|]. apply (extractor_observes w p url s).
Qed.

Lemma extractor_only_observes_witness :
  st (extractor tool_failure_world ITV itv_page (fresh Missing))
  = opened (fresh Missing)
  ∧ Forall (λ e, is_observation e = true)
      (trace (extractor tool_failure_world ITV itv_page (fresh Missing))).
Proof.
  apply (extractor_only_observes tool_failure_world ITV itv_page (fresh Missing)
           (ExData (mkData itv_manifest_url (Some "QUJD") None (Some "playlist")))).
  vm_compute. reflexivity.
Defined.

Lemma is_manifest_truthy (p : provider) (u : string) :
  is_manifest p u = true → Py.truthy u = true.
Proof. destruct u; [by destruct p|done]. Qed.

Lemma last_filter_Some {A : Type} (f : A → bool) (l : list A) (x : A) :
  last (List.filter f l) = Some x → f x = true ∧ x ∈ l.
Proof.
  intros Hlast. apply last_Some in Hlast as [l' Hl'].
  assert (In x (List.filter f l)) as Hin
    by (rewrite Hl'; apply in_or_app; right; by left).
  apply filter_In in Hin as [Hin Hf]. split; [exact Hf|].
  by apply list_elem_of_In.
Qed.

Lemma last_filter_is_Some {A : Type} (f : A → bool) (l : list A) :
  Exists (λ x, f x = true) l → is_Some (last (List.filter f l)).
Proof.
  intros (x & Hin & Hf)%Exists_exists.
  assert (In x (List.filter f l)) as Hx
    by (apply filter_In; split; [by apply list_elem_of_In | exact Hf]).
  destruct (List.filter f l) as [|y l'] using rev_ind; [destruct Hx|].
  rewrite last_snoc. eauto.
Qed.

Lemma filter_none {A : Type} (f : A → bool) (l : list A) :
  Forall (λ x, f x = false) l → List.filter f l = [].
Proof.
  induction 1 as [|x l Hx _ IH]; [reflexivity|].
  cbv beta in Hx. cbn [List.filter]. by rewrite Hx.
Qed.

Lemma requests_vars (w : World) (p : provider) (url : string) :
  v_mpd (requests w p url)
  = last (List.filter (is_manifest p) (names (network_items w)))
  ∧ v_sub (requests w p url)
    = last (List.filter (is_subtitle p) (names (network_items w)))
  ∧ v_url (requests w p url)
    = match last (network_items w) with
      | Some item => default "" item
      | None => url
      end.
Proof.
  unfold requests.
  destruct (loop_last p (network_items w) (mkVars url None None)) as [-> ->].
  rewrite loop_url. cbn [v_mpd v_sub v_url].
  by repeat split; destruct (last _).
Qed.

(** X6.  What an extractor returns, when it returns: a dictionary
    exactly when the video element appeared and some entry of the network log
    passed its manifest test, and its failure value otherwise (the tuple for
    Channel 4, [None] for ITV and Channel 5). *)
Theorem extractor_data_iff (w : World) (p : provider) (url : string)
  (s : state) (x : extracted) :
  out (extractor w p url s) = Ret x →
  ((∃ d, x = ExData d)
   ↔ video_appears w url = true
     ∧ Exists (λ u, is_manifest p u = true) (names (network_items w)))
  ∧ ((∃ d, x = ExData d) ∨ x = failure p).
Proof.
  destruct (extractor_result w p url s) as [-> _]. intros [= <-].
  unfold extraction. destruct (requests_vars w p url) as (-> & _ & _).
  split; [split|].
  - intros [d Hd]. destruct (video_appears w url); cbn [andb] in Hd;
      [|by destruct p].
    split; [reflexivity|].
    destruct (last _) as [u|] eqn:Hlast; cbn [Py.truthy_opt] in Hd;
      [|by destruct p].
    apply last_filter_Some in Hlast as [Hu Hin].
    apply Exists_exists. eauto.
  - intros [-> Hex]. cbn [andb].
    apply (last_filter_is_Some (is_manifest p)) in Hex as [u Hu]. rewrite Hu.
    apply last_filter_Some in Hu as [Hu _].
    cbn [Py.truthy_opt]. rewrite (is_manifest_truthy p u Hu). eauto.
  - destruct (_ && _); eauto.
Qed.

Lemma extractor_data_iff_witness :
  ((∃ d, ExNone = ExData d)
   ↔ video_appears quiet_world itv_page = true
     ∧ Exists (λ u, is_manifest ITV u = true) (names (network_items quiet_world)))
  ∧ ((∃ d, ExNone = ExData d) ∨ ExNone = failure ITV).
Proof.
  apply (extractor_data_iff quiet_world ITV itv_page (fresh Missing) ExNone).
  vm_compute. reflexivity.
Defined.

(** X7.  The dictionary an extractor returns: the manifest URL is the
    last entry of the network log that passed the manifest test, and it is
    not empty; the header is the one found in the manifest fetched from that
    URL; for ITV and Channel 5 the subtitle URL is the last entry that passed
    the subtitle test, [None] when there is none. *)
Theorem extractor_data_fields (w : World) (p : provider) (url : string)
  (s : state) (d : data) :
  out (extractor w p url s) = Ret (ExData d) →
  last (List.filter (is_manifest p) (names (network_items w))) = Some (mpd_url d)
  ∧ mpd_url d ≠ ""
  ∧ pssh d = Manifest.pssh_var (Manifest.scan_manifest (http_manifest w (mpd_url d)))
  ∧ (p ≠ Channel4 →
     subtitle_url d
     = last (List.filter (is_subtitle p) (names (network_items w)))).
Proof.
  destruct (extractor_result w p url s) as [-> _]. unfold extraction.
  destruct (requests_vars w p url) as (-> & -> & _).
  destruct (video_appears w url); cbn [andb]; [|by destruct p].
  destruct (last (List.filter (is_manifest p) _)) as [u|] eqn:Hlast;
    cbn [Py.truthy_opt]; [|by destruct p].
  apply last_filter_Some in Hlast as [Hu _].
  pose proof (is_manifest_truthy p u Hu) as Htruthy. rewrite Htruthy.
  intros [= <-]. cbn [mpd_url pssh subtitle_url default from_option id].
  split; [reflexivity|]. split; [by destruct u|]. split; [reflexivity|].
  by destruct p.
Qed.

Lemma extractor_data_fields_witness :
  last (List.filter (is_manifest ITV) (names (network_items tool_failure_world)))
  = Some itv_manifest_url
  ∧ itv_manifest_url ≠ ""
  ∧ Some "QUJD"
    = Manifest.pssh_var
        (Manifest.scan_manifest (http_manifest tool_failure_world itv_manifest_url))
  ∧ (ITV ≠ Channel4 →
     None = last (List.filter (is_subtitle ITV)
                    (names (network_items tool_failure_world)))).
Proof.
  apply (extractor_data_fields tool_failure_world ITV itv_page (session ∅)
           (mkData itv_manifest_url (Some "QUJD") None (Some "playlist"))).
  vm_compute. reflexivity.
Defined.

(** X8.  Channel 4 only: when no network entry passed the subtitle test,
    the first subtitle track of the page has a relative source and the name
    of the last network entry is a plain URL (printable ASCII without blanks
    or square brackets, which [urlparse] takes as it is), the subtitle URL is
    that source appended to the scheme and host of the last network entry,
    not of the page that was asked for. *)
Theorem channel4_relative_track (w : World) (url : string) (s : state)
  (d : data) (item : option string) (src : string)
  (tracks : list (option string)) :
  out (extract_channel4_data w url s) = Ret (ExData d) →
  Forall (λ u, is_subtitle Channel4 u = false) (names (network_items w)) →
  last (network_items w) = Some item →
  plain_url (default "" item) = true →
  page_tracks w = Some (Some src :: tracks) →
  src ≠ "" →
  Py.startswith "http" src = false →
  subtitle_url d
  = Some (Url.scheme (default "" item) ++ "://"
          ++ Url.netloc (default "" item) ++ src).
Proof.
  intros Hout Hnone Hlast _ Htracks Hsrc Hrel. revert Hout.
  destruct (extractor_result w Channel4 url s) as [Hout _].
  cbn [extractor] in Hout. rewrite Hout. unfold extraction.
  destruct (requests_vars w Channel4 url) as (_ & Hsub & Hurl).
  rewrite Hsub, Hurl, Hlast.
  assert (List.filter (is_subtitle Channel4) (names (network_items w)) = [])
    as ->.
    by apply filter_none.
  destruct (video_appears w url && _); [|discriminate].
  intros [= <-]. cbn [subtitle_url last]. unfold page_subtitle.
  cbn [Py.truthy_opt]. rewrite Htracks, Hrel.
  by destruct src.
Qed.

Lemma channel4_relative_track_witness :
  Some "/subtitles/12345-001.xml"
  ≠ Some "https://cdn.channel4.com/subtitles/12345-001.xml"
  ∧ subtitle_url
      (mkData channel4_manifest_url (Some "QUJD")
         (Some "https://cdn.channel4.com/subtitles/12345-001.xml") (Some "12345"))
    = Some (Url.scheme channel4_manifest_url ++ "://"
            ++ Url.netloc channel4_manifest_url ++ "/subtitles/12345-001.xml").
Proof.
  split; [discriminate|].
  apply (channel4_relative_track channel4_world channel4_page (session ∅)
           _ (Some channel4_manifest_url) "/subtitles/12345-001.xml" []).
  - vm_compute. reflexivity.
  - vm_compute. repeat constructor.
  - reflexivity.
  - vm_compute. reflexivity.
  - reflexivity.
  - discriminate.
  - reflexivity.
Defined.

(** *** The key cache across calls and across runs *)

Lemma get_drm_key_hit_run (w : World) (s : state) (cache : gmap string string)
  (header key url service : string) :
  header ≠ "" →
  widevine_data s = Some cache →
  cache !! header = Some key →
  get_drm_key w (Some header) url service s
  = mkRun (Ret (Some key)) s [Print (MsgCachedKey key)].
Proof.
  intros Hne Hdata Hhit. unfold get_drm_key.
  destruct header as [|c header]; [done|].
  cbn [Py.truthy_opt Py.truthy negb]. exec.
  rewrite Hdata, Hhit. by exec.
Qed.

Lemma widevine_data_opened (s : state) :
  widevine_data (opened s)
  = if driver s then widevine_data s else Some (loaded_cache (cache_file s)).
Proof. unfold opened. by destruct (driver s). Qed.

(** X9.  A key the operator typed is found again: in the state a
    successful resolution leaves, resolving the same header returns the same
    key after a single print, whatever the session shows by then; the
    operator is not asked twice. *)
Theorem typed_key_is_reused (w w' : World) (s : state)
  (cache : gmap string string) (header url service url' service' : string) :
  driver s = true →
  header ≠ "" →
  widevine_data s = Some cache →
  cache !! header = None →
  Py.contains ":" (answer w) = true →
  get_drm_key w' (Some header) url' service'
    (st (get_drm_key w (Some header) url service s))
  = mkRun (Ret (Some (Py.strip (answer w))))
      (st (get_drm_key w (Some header) url service s))
      [Print (MsgCachedKey (Py.strip (answer w)))].
Proof.
  intros Hopen Hne Hdata Hmiss Hgood.
  apply (get_drm_key_hit_run w' _ (<[header := Py.strip (answer w)]> cache));
    [exact Hne| |by rewrite lookup_insert_eq].
  rewrite (get_drm_key_miss w s cache header url service Hopen Hne Hdata Hmiss).
  by rewrite contains_colon_strip, Hgood.
Qed.

Lemma typed_key_is_reused_witness :
  get_drm_key quiet_world (Some "QUJD") itv_page "ITV"
    (st (get_drm_key (with_answer (" " ++ scenario_key) quiet_world)
           (Some "QUJD") itv_page "ITV" (session ∅)))
  = mkRun (Ret (Some (Py.strip (answer (with_answer (" " ++ scenario_key) quiet_world)))))
      (st (get_drm_key (with_answer (" " ++ scenario_key) quiet_world)
             (Some "QUJD") itv_page "ITV" (session ∅)))
      [Print (MsgCachedKey
                (Py.strip (answer (with_answer (" " ++ scenario_key) quiet_world))))].
Proof.
  apply (typed_key_is_reused (with_answer (" " ++ scenario_key) quiet_world)
           quiet_world (session ∅) ∅ "QUJD" itv_page "ITV" itv_page "ITV").
  - reflexivity.
  - discriminate.
  - reflexivity.
  - reflexivity.
  - vm_compute. reflexivity.
Defined.

(** X10.  A key the operator typed survives a restart when the cache file
    can be written: an instance that opens its session over the file the
    resolution left has the key in memory, and resolves the header from it
    without a prompt. *)
Theorem typed_key_survives_restart (w w' : World) (s s2 : state)
  (cache : gmap string string) (header url service url' service' : string) :
  driver s = true →
  header ≠ "" →
  widevine_data s = Some cache →
  cache !! header = None →
  Py.contains ":" (answer w) = true →
  cache_writable w = true →
  driver s2 = false →
  cache_file s2 = cache_file (st (get_drm_key w (Some header) url service s)) →
  widevine_data (st (ensure_browser s2))
  = Some (<[header := Py.strip (answer w)]> cache)
  ∧ get_drm_key w' (Some header) url' service' (st (ensure_browser s2))
    = mkRun (Ret (Some (Py.strip (answer w)))) (st (ensure_browser s2))
        [Print (MsgCachedKey (Py.strip (answer w)))].
Proof.
  intros Hopen Hne Hdata Hmiss Hgood Hwrite Hclosed Hfile.
  rewrite (get_drm_key_miss w s cache header url service Hopen Hne Hdata Hmiss)
    in Hfile.
  rewrite contains_colon_strip, Hgood, Hwrite in Hfile. cbn in Hfile.
  assert (widevine_data (st (ensure_browser s2))
          = Some (<[header := Py.strip (answer w)]> cache)) as Hloaded
    by (rewrite ensure_browser_run; cbn [st];
        by rewrite widevine_data_opened, Hclosed, Hfile).
  split; [exact Hloaded|].
  apply (get_drm_key_hit_run w' _ _ _ _ _ _ Hne Hloaded).
  by rewrite lookup_insert_eq.
Qed.

Lemma typed_key_survives_restart_witness :
  widevine_data
    (st (ensure_browser (fresh (Stored {[ "QUJD" := scenario_key ]}))))
  = Some (<[ "QUJD" := Py.strip (answer (with_answer scenario_key quiet_world)) ]> ∅)
  ∧ get_drm_key quiet_world (Some "QUJD") itv_page "ITV"
      (st (ensure_browser (fresh (Stored {[ "QUJD" := scenario_key ]}))))
    = mkRun (Ret (Some (Py.strip (answer (with_answer scenario_key quiet_world)))))
        (st (ensure_browser (fresh (Stored {[ "QUJD" := scenario_key ]}))))
        [Print (MsgCachedKey
                  (Py.strip (answer (with_answer scenario_key quiet_world))))].
Proof.
  apply (typed_key_survives_restart (with_answer scenario_key quiet_world)
           quiet_world (session ∅) (fresh (Stored {[ "QUJD" := scenario_key ]}))
           ∅ "QUJD" itv_page "ITV" itv_page "ITV").
  - reflexivity.
  - discriminate.
  - reflexivity.
  - reflexivity.
  - vm_compute. reflexivity.
  - reflexivity.
  - reflexivity.
  - vm_compute. reflexivity.
Defined.



(** X12.  On an instance whose key cache was never loaded, that is,
    before any session was opened, [get_drm_key] with a non-empty header
    raises [AttributeError] at once: it prints nothing, starts no browser
    and leaves the instance as it was.  With an empty or absent header it
    returns [None] after its one line, there too. *)
Theorem get_drm_key_unloaded_cache (w : World) (pssh : option string)
  (url service : string) (s : state) :
  widevine_data s = None →
  get_drm_key w pssh url service s
  = if Py.truthy_opt pssh
    then mkRun (Raise AttributeError) s []
    else mkRun (Ret None) s [Print MsgNoPsshForKey].
Proof.
  intros Hdata. unfold get_drm_key.
  destruct (Py.truthy_opt pssh); cbn [negb]; exec; [|reflexivity].
  by rewrite Hdata.
Qed.

Lemma get_drm_key_unloaded_cache_witness :
  get_drm_key quiet_world (Some "QUJD") itv_page "ITV" (fresh Missing)
  = if Py.truthy_opt (Some "QUJD")
    then mkRun (Raise AttributeError) (fresh Missing) []
    else mkRun (Ret None) (fresh Missing) [Print MsgNoPsshForKey].
Proof.
  apply (get_drm_key_unloaded_cache quiet_world (Some "QUJD") itv_page "ITV"
           (fresh Missing)).
  reflexivity.
Defined.

(** *** Muxing *)



(** *** The download step, once the tool has been started *)

(** In the model [download_and_decrypt] does not raise, and it keeps the
    session and the key cache. *)
Lemma wp_download_and_decrypt (w : World) (s : state)
  (mpd drm_key output_name : string) (subtitle_path : option string) :
  wp (λ _, True)
    (download_and_decrypt w mpd drm_key output_name subtitle_path)
    (λ _ s', driver s' = driver s ∧ key_cache s' = key_cache s)
    (λ _ _, False) s.
Proof.
  set (I := λ s' : state, driver s' = driver s ∧ key_cache s' = key_cache s).
  unfold download_and_decrypt, collect_output, mux_subtitle_into_video,
    path_exists, os_remove, os_rename.
  repeat first
    [ apply wp_bind
    | apply wp_ret
    | apply wp_raise
    | apply wp_try_catch
    | apply wp_get_state
    | apply wp_put_state
    | apply wp_emit; [done|]
    | apply wp_print; [done|]
    | eapply wp_mono;
      [apply (wp_for_each (λ _, True) _ _ I (λ _ _, False));
       [intros; apply wp_print; done | done]
      | intros ? ? ? | intros ? ? []]
    | lazymatch goal with
      | |- wp _ (if ?b then _ else _) _ _ _ => destruct b eqn:?
      | |- wp _ (match ?x with _ => _ end) _ _ _ => destruct x eqn:?
      end ]; done.
Qed.

(** X14.  Once the call that starts the download tool has been reached,
    [download_and_decrypt] does not raise, whatever happens from there on:
    a tool that cannot be started, a nonzero exit, no output file, an ffmpeg
    that fails or cannot be started, a removal or a rename that fails; it
    returns a path or [None].  It changes nothing of the instance but the
    files: the session and the key cache, in memory and on disk, are as
    before. *)
Theorem download_and_decrypt_contained (w : World) (s : state)
  (mpd drm_key output_name : string) (subtitle_path : option string)
  (cmd : list string) :
  RunTool cmd
  ∈ trace (download_and_decrypt w mpd drm_key output_name subtitle_path s) →
  (∃ r, out (download_and_decrypt w mpd drm_key output_name subtitle_path s)
        = Ret r)
  ∧ driver (st (download_and_decrypt w mpd drm_key output_name subtitle_path s))
    = driver s
  ∧ key_cache (st (download_and_decrypt w mpd drm_key output_name subtitle_path s))
    = key_cache s.
Proof.
  intros _.
  destruct (wp_download_and_decrypt w s mpd drm_key output_name subtitle_path)
    as [_ Hpost].
  destruct (out _) as [r|e]; [|done].
  destruct Hpost as [Hd Hk]. eauto.
Qed.

Lemma download_and_decrypt_contained_witness :
  (∃ r, out (download_and_decrypt quiet_world itv_manifest_url scenario_key
               "ITV-show-1" None (session ∅)) = Ret r)
  ∧ driver (st (download_and_decrypt quiet_world itv_manifest_url scenario_key
                  "ITV-show-1" None (session ∅)))
    = driver (session ∅)
  ∧ key_cache (st (download_and_decrypt quiet_world itv_manifest_url
                     scenario_key "ITV-show-1" None (session ∅)))
    = key_cache (session ∅).
Proof.
  apply (download_and_decrypt_contained quiet_world (session ∅)
           itv_manifest_url scenario_key "ITV-show-1" None
           (command_of quiet_world itv_manifest_url scenario_key "ITV-show-1")).
  vm_compute.
  repeat first [apply list_elem_of_here | apply list_elem_of_further].
Defined.





(** *** The job as a whole *)

Lemma initialized_opened (s : state) :
  initialized s → is_Some (widevine_data (opened s)).
Proof.
  intros Hinit. rewrite widevine_data_opened.
  destruct (driver s) eqn:Hd; [by apply Hinit | eauto].
Qed.

Lemma extractor_run (w : World) (p : provider) (url : string) (s : state) :
  extractor w p url s
  = mkRun (Ret (extraction w p url)) (opened s) (trace (extractor w p url s)).
Proof.
  destruct (extractor_result w p url s) as [Hout Hst].
  rewrite <- Hout, <- Hst. symmetry. apply run_eta.
Qed.

Lemma extraction_data (w : World) (p : provider) (url : string) (d : data) :
  extraction w p url = ExData d → Py.truthy (mpd_url d) = true.
Proof.
  unfold extraction.
  destruct (video_appears w url); cbn [andb]; [|by destruct p].
  destruct (v_mpd (requests w p url)) as [u|]; cbn [Py.truthy_opt];
    [|by destruct p].
  destruct (Py.truthy u) eqn:Hu; [|by destruct p].
  by intros [= <-].
Qed.

(** X16.  A job whose extraction fails ends there, for whatever reason the
    extraction failed: a video element that did not appear, or a page that
    requested no manifest.  When the extractor of the detected service
    returns its failure value, the ITV and Channel 5 jobs print that the
    extraction failed and return [False]; the Channel 4 job raises
    [AttributeError], because its extractor returns a tuple where the other
    two return [None].  In either case the state is the one the extractor
    left and the run consists of the two opening lines and the extraction:
    no key is resolved and nothing is downloaded. *)
Theorem job_on_failed_extraction (w : World) (p : provider) (url : string)
  (s : state) :
  detected url = Some p →
  out (extractor w p url s) = Ret (failure p) →
  process_url w url s
  = mkRun (match p with Channel4 => Raise AttributeError | _ => Ret false end)
      (st (extractor w p url s))
      ([Print (MsgProcessing url); Print (MsgDetected (service_name p))]
       ++ trace (extractor w p url s)
       ++ match p with Channel4 => [] | _ => [Print MsgExtractFailed] end).
Proof.
  intros Hp Hfail.
  assert (extractor w p url s
          = mkRun (Ret (failure p)) (st (extractor w p url s))
              (trace (extractor w p url s))) as Hrun
    by (rewrite <- Hfail; symmetry; apply run_eta).
  rewrite process_url_dispatch, Hp. unfold process_detected.
  rewrite bind_print, (bind_run _ _ _ _ _ _ Hrun).
  destruct p; cbn [failure]; exec; rewrite ?app_nil_r; reflexivity.
Qed.

Lemma job_on_failed_extraction_witness :
  process_url no_manifest_world channel4_page (fresh Missing)
  = mkRun (Raise AttributeError)
      (st (extractor no_manifest_world Channel4 channel4_page (fresh Missing)))
      ([Print (MsgProcessing channel4_page);
        Print (MsgDetected (service_name Channel4))]
       ++ trace (extractor no_manifest_world Channel4 channel4_page
                   (fresh Missing))
       ++ []).
Proof.
  apply (job_on_failed_extraction no_manifest_world Channel4 channel4_page
           (fresh Missing)).
  - reflexivity.
  - vm_compute. reflexivity.
Defined.

(** A path returned by [download_and_decrypt] is the final path, and a
    file is there. *)
Lemma download_and_decrypt_some (w : World) (s : state)
  (mpd drm_key output_name : string) (subtitle_path : option string)
  (p : string) :
  out (download_and_decrypt w mpd drm_key output_name subtitle_path s)
  = Ret (Some p) →
  p = final_path w output_name
  ∧ is_Some (files (st (download_and_decrypt w mpd drm_key output_name
                          subtitle_path s)) !! p).
Proof.
  unfold download_and_decrypt. exec. unfold after at 1. cbn [out]. intros Hout.
  apply try_catch_some in Hout as [-> Hout]. revert Hout. exec.
  destruct (tool w _) as [result|]; exec; [|discriminate].
  rewrite (bind_run _ _ _ _ _ _ (for_each_print_run _ _ _)).
  destruct (t_returncode result =? 0)%Z; exec; [|discriminate].
  unfold after at 1. cbn [out]. intros Hout.
  destruct (collect_output_success w output_name subtitle_path _ p Hout)
    as (-> & _ & t & before & content & _ & -> & _).
  split; [reflexivity|]. cbn [after st files set_files].
  rewrite lookup_insert_eq. eauto.
Qed.

Ltac exec_in H := revert H; exec; intros H.

Lemma process_detected_true (w : World) (p : provider) (url : string) (s : state) :
  out (process_detected w url (service_name p) (extractor w p) s) = Ret true →
  ∃ d, extraction w p url = ExData d
       ∧ is_Some (files (st (process_detected w url (service_name p)
                               (extractor w p) s))
                  !! final_path w (output_name_of w p d))
       ∧ last (trace (process_detected w url (service_name p) (extractor w p) s))
         = Some (Print (MsgFinalFile (final_path w (output_name_of w p d)))).
Proof.
  remember (process_detected w url (service_name p) (extractor w p) s)
    as r eqn:Hr.
  unfold process_detected in Hr.
  rewrite bind_print, (bind_run _ _ _ _ _ _ (extractor_run w p url s)) in Hr.
  destruct (extraction w p url) as [| |d] eqn:Hx; exec_in Hr;
    [by subst r..|].
  rewrite (extraction_data w p url d Hx) in Hr. cbn [negb] in Hr.
  rewrite run_bind in Hr.
  destruct (get_drm_key w (pssh d) url (service_name p) (opened s))
    as [[k|e] sk tk]; cbn [out st trace] in Hr; [|by subst r].
  destruct (Py.truthy_opt k); cbn [negb] in Hr; exec_in Hr; [|by subst r].
  rewrite run_bind in Hr.
  lazymatch type of Hr with
  | context [out (?m sk)] => destruct (m sk) as [[sub|e] ssub tsub]
  end; cbn [out st trace] in Hr; [|by subst r].
  rewrite run_bind in Hr.
  destruct (download_and_decrypt w (mpd_url d) (default "" k)
              (generate_output_name w (service_name p) d) sub ssub)
    as [[o|e] sd td] eqn:Hd; cbn [out st trace] in Hr; [|by subst r].
  destruct o as [pth|]; cbn [Py.truthy_opt] in Hr; exec_in Hr; [|by subst r].
  destruct (Py.truthy pth); exec_in Hr; [|by subst r].
  intros _. exists d. split; [reflexivity|].
  assert (out (download_and_decrypt w (mpd_url d) (default "" k)
                 (generate_output_name w (service_name p) d) sub ssub)
          = Ret (Some pth)) as Hout by (by rewrite Hd).
  apply download_and_decrypt_some in Hout as [-> Hfile]. rewrite Hd in Hfile.
  subst r. cbn [after out st trace] in *. split; [exact Hfile|].
  by rewrite last_cons, !last_app.
Qed.

(** X17.  A job that returns [True] has left the video behind: the URL
    was taken for some service, that service's extractor returned a
    dictionary, a file exists at
    [DOWNLOAD_DIR/<Service>-<program id>-<timestamp>_FINAL.mkv], and the last
    line the job printed names that file. *)
Theorem process_url_true (w : World) (url : string) (s : state) :
  out (process_url w url s) = Ret true →
  ∃ p d,
    detected url = Some p
    ∧ out (extractor w p url s) = Ret (ExData d)
    ∧ is_Some (files (st (process_url w url s))
               !! final_path w (output_name_of w p d))
    ∧ last (trace (process_url w url s))
      = Some (Print (MsgFinalFile (final_path w (output_name_of w p d)))).
Proof.
  rewrite process_url_dispatch.
  destruct (detected url) as [p|]; [|discriminate].
  cbn [after out st trace]. intros Hout.
  destruct (process_detected_true w p url s Hout) as (d & Hx & Hfile & Hlast).
  exists p, d. split; [reflexivity|].
  destruct (extractor_result w p url s) as [-> _].
  split; [by rewrite Hx|]. split; [exact Hfile|].
  by rewrite last_app, Hlast.
Qed.

Lemma process_url_true_witness :
  ∃ p d,
    detected itv_page = Some p
    ∧ out (extractor job_world p itv_page (session {[ "QUJD" := scenario_key ]}))
      = Ret (ExData d)
    ∧ is_Some (files (st (process_url job_world itv_page
                            (session {[ "QUJD" := scenario_key ]})))
               !! final_path job_world (output_name_of job_world p d))
    ∧ last (trace (process_url job_world itv_page
                     (session {[ "QUJD" := scenario_key ]})))
      = Some (Print (MsgFinalFile
                       (final_path job_world (output_name_of job_world p d)))).
Proof.
  apply (process_url_true job_world itv_page
           (session {[ "QUJD" := scenario_key ]})).
  vm_compute. reflexivity.
Defined.

(** X18.  A job whose manifest yields no protection header, or an empty
    one, fails at the key step without troubling anyone: [process_url]
    returns [False], ending on "Failed to get DRM key"; beyond opening the
    session it changes nothing, and it only prints, browses and fetches: no
    prompt, no cache write, no tool run. *)
Theorem job_without_header (w : World) (p : provider) (url : string)
  (s : state) (d : data) :
  detected url = Some p →
  out (extractor w p url s) = Ret (ExData d) →
  Py.truthy_opt (pssh d) = false →
  out (process_url w url s) = Ret false
  ∧ st (process_url w url s) = opened s
  ∧ Forall (λ e, is_observation e = true) (trace (process_url w url s))
  ∧ last (trace (process_url w url s)) = Some (Print MsgKeyFailed).
Proof.
  intros Hp Hout Hpssh.
  destruct (extractor_result w p url s) as [Hx _].
  rewrite Hx in Hout. injection Hout as Hxd.
  rewrite process_url_dispatch, Hp. unfold process_detected.
  rewrite bind_print, (bind_run _ _ _ _ _ _ (extractor_run w p url s)), Hxd.
  exec. rewrite (extraction_data w p url d Hxd). cbn [negb].
  unfold get_drm_key. rewrite Hpssh. cbn [negb]. exec.
  cbn [Py.truthy_opt negb]. exec. cbn [out st trace].
  split; [reflexivity|]. split; [reflexivity|]. split.
  - repeat (apply Forall_cons; split; [reflexivity|]).
    apply Forall_app. split; [apply (extractor_observes w p url s)|].
    by repeat constructor.
  - by rewrite !last_cons, last_app.
Qed.

Lemma job_without_header_witness :
  out (process_url clear_world itv_page (fresh Missing)) = Ret false
  ∧ st (process_url clear_world itv_page (fresh Missing))
    = opened (fresh Missing)
  ∧ Forall (λ e, is_observation e = true)
      (trace (process_url clear_world itv_page (fresh Missing)))
  ∧ last (trace (process_url clear_world itv_page (fresh Missing)))
    = Some (Print MsgKeyFailed).
Proof.
  apply (job_without_header clear_world ITV itv_page (fresh Missing)
           (mkData itv_manifest_url None None (Some "playlist"))).
  - vm_compute. reflexivity.
  - vm_compute. reflexivity.
  - reflexivity.
Defined.

Lemma observation_early (t : list event) :
  Forall (λ e, is_observation e = true) t → Forall (λ e, is_early e = true) t.
Proof.
  intros Hall. eapply Forall_impl; [exact Hall|]. by intros [].
Qed.

Lemma is_early_trace {A : Type} (m : M A) (s : state) :
  emits is_early m → Forall (λ e, is_early e = true) (trace (m s)).
Proof. intros Hm. apply (Hm s). Qed.

Lemma get_drm_key_some (w : World) (pssh : option string)
  (url service key : string) (s : state) :
  out (get_drm_key w pssh url service s) = Ret (Some key) →
  Py.truthy_opt pssh = true.
Proof.
  unfold get_drm_key. by destruct (Py.truthy_opt pssh).
Qed.

Lemma tool_run_in_app (l1 l2 : list event) (cmd : list string) :
  Forall (λ e, is_early e = true) l1 →
  RunTool cmd ∈ (l1 ++ l2)%list → RunTool cmd ∈ l2.
Proof.
  intros Hearly [Hin|Hin]%elem_of_app; [|exact Hin].
  by apply early_no_tool_run in Hin.
Qed.

Ltac strip_early H :=
  repeat first
    [ apply elem_of_cons in H as [H|H]; [discriminate H|]
    | apply tool_run_in_app in H; [|assumption] ].

Ltac no_tool_run H :=
  subst; cbn [trace after out st] in H; exfalso;
  (eapply early_no_tool_run; [|exact H]);
  repeat first [ apply Forall_nil_2
               | apply Forall_cons; split; [reflexivity|]
               | apply Forall_app; split
               | assumption ].

Lemma process_detected_tool_run (w : World) (p : provider) (url : string)
  (s : state) (cmd : list string) :
  RunTool cmd ∈ trace (process_detected w url (service_name p) (extractor w p) s) →
  ∃ d key,
    extraction w p url = ExData d
    ∧ out (get_drm_key w (pssh d) url (service_name p) (opened s))
      = Ret (Some key)
    ∧ key ≠ ""
    ∧ cmd = command_of w (mpd_url d) key (output_name_of w p d).
Proof.
  remember (process_detected w url (service_name p) (extractor w p) s)
    as r eqn:Hr.
  unfold process_detected in Hr.
  rewrite bind_print, (bind_run _ _ _ _ _ _ (extractor_run w p url s)) in Hr.
  pose proof (observation_early _ (proj1 (extractor_observes w p url s))) as Hex.
  intros Hin.
  assert (∀ t : list event, Forall (λ e, is_early e = true) t → RunTool cmd ∉ t)
    as Hno by (intros t; apply early_no_tool_run).
  destruct (extraction w p url) as [| |d] eqn:Hx; exec_in Hr;
    [no_tool_run Hin..|].
  rewrite (extraction_data w p url d Hx) in Hr. cbn [negb] in Hr.
  rewrite run_bind in Hr.
  pose proof (is_early_trace _ (opened s)
                (early_get_drm_key w (pssh d) url (service_name p))) as Hkey.
  destruct (get_drm_key w (pssh d) url (service_name p) (opened s))
    as [[k|e] sk tk] eqn:Hrun; cbn [out st trace] in *; [|no_tool_run Hin].
  destruct k as [key|]; cbn [Py.truthy_opt negb] in Hr; exec_in Hr;
    [|no_tool_run Hin].
  destruct key as [|c key]; cbn [Py.truthy negb] in Hr; exec_in Hr;
    [no_tool_run Hin|].
  exists d, (String c key).
  split; [reflexivity|]. split; [by rewrite Hrun|]. split; [discriminate|].
  clear Hrun. rewrite run_bind in Hr.
  lazymatch type of Hr with
  | context [out (?m sk)] =>
      assert (Forall (λ e, is_early e = true) (trace (m sk))) as Hsub
        by (destruct (Py.truthy_opt (subtitle_url d));
            [apply is_early_trace, early_download_subtitle | constructor]);
      destruct (m sk) as [[sub|e] ssub tsub]
  end; cbn [out st trace] in *; [|no_tool_run Hin].
  rewrite run_bind in Hr.
  pose proof (download_and_decrypt_tool_run w ssub (mpd_url d) (String c key)
                (generate_output_name w (service_name p) d) sub) as Htool.
  rewrite Forall_forall in Htool.
  destruct (download_and_decrypt w (mpd_url d) (String c key)
              (generate_output_name w (service_name p) d) sub ssub)
    as [[o|e] sd td]; cbn [out st trace] in *.
  - assert (RunTool cmd ∈ td) as Hcmd.
    { destruct (Py.truthy_opt o); exec_in Hr; subst r; cbn [trace] in Hin;
        strip_early Hin;
        (apply elem_of_app in Hin as [Hin|Hin]; [exact Hin|]);
        strip_early Hin; by apply elem_of_nil in Hin. }
    specialize (Htool _ Hcmd eq_refl). by injection Htool as ->.
  - assert (RunTool cmd ∈ td) as Hcmd
      by (exec_in Hr; subst r; cbn [trace] in Hin; strip_early Hin; exact Hin).
    specialize (Htool _ Hcmd eq_refl). by injection Htool as ->.
Qed.

(** X19.  The download tool is never started without a header and a key.
    Whenever a job starts it, the URL was taken for some service, that
    service's extractor returned a dictionary with a non-empty header, the
    resolver returned a non-empty key for it, and the command line is the one
    built from the extracted manifest URL, that key and the job's output
    name. *)
Theorem tool_run_needs_key (w : World) (url : string) (s : state)
  (cmd : list string) :
  RunTool cmd ∈ trace (process_url w url s) →
  ∃ p d key,
    detected url = Some p
    ∧ out (extractor w p url s) = Ret (ExData d)
    ∧ Py.truthy_opt (pssh d) = true
    ∧ out (get_drm_key w (pssh d) url (service_name p) (opened s))
      = Ret (Some key)
    ∧ key ≠ ""
    ∧ cmd = command_of w (mpd_url d) key (output_name_of w p d).
Proof.
  rewrite process_url_dispatch.
  destruct (detected url) as [p|]; cbn [after trace app].
  - intros [Hin|Hin]%elem_of_cons; [discriminate|].
    destruct (process_detected_tool_run w p url s cmd Hin)
      as (d & key & Hx & Hkey & Hne & ->).
    exists p, d, key. split; [reflexivity|].
    destruct (extractor_result w p url s) as [-> _].
    split; [by rewrite Hx|]. split; [by apply get_drm_key_some in Hkey|].
    by repeat split.
  - intros Hin.
    repeat (apply elem_of_cons in Hin as [Hin|Hin]; [discriminate|]).
    by apply elem_of_nil in Hin.
Qed.

Lemma tool_run_needs_key_witness :
  ∃ p d key,
    detected itv_page = Some p
    ∧ out (extractor job_world p itv_page (session {[ "QUJD" := scenario_key ]}))
      = Ret (ExData d)
    ∧ Py.truthy_opt (pssh d) = true
    ∧ out (get_drm_key job_world (pssh d) itv_page (service_name p)
             (opened (session {[ "QUJD" := scenario_key ]})))
      = Ret (Some key)
    ∧ key ≠ ""
    ∧ command_of job_world itv_manifest_url scenario_key
        "ITV-playlist-20240101_120000"
      = command_of job_world (mpd_url d) key (output_name_of job_world p d).
Proof.
  apply (tool_run_needs_key job_world itv_page
           (session {[ "QUJD" := scenario_key ]})).
  vm_compute.
  repeat first [apply list_elem_of_here | apply list_elem_of_further].
Defined.

(** *** The invariant of an instance *)

Lemma wp_get_drm_key_loaded (w : World) (pssh : option string)
  (url service : string) (s : state) :
  is_Some (widevine_data s) →
  wp (λ _, True) (get_drm_key w pssh url service)
    (λ _ s', is_Some (widevine_data s') ∧ (driver s = true → driver s' = true)
             ∧ files s' = files s)
    (λ _ _, False) s.
Proof.
  intros [cache Hdata].
  unfold get_drm_key, ensure_browser, initialize_browser,
    load_widevine_proxy_data, extract_kid, try_play, save_widevine_proxy_data.
  repeat first
    [ apply wp_bind | apply wp_ret | apply wp_raise
    | apply wp_get_state | apply wp_put_state
    | apply wp_emit; [done|] | apply wp_print; [done|]
    | lazymatch goal with
      | |- wp _ (if ?b then _ else _) _ _ _ => destruct b eqn:?
      | |- wp _ (match ?x with _ => _ end) _ _ _ => destruct x eqn:?
      | |- wp _ (let '(_, _) := ?x in _) _ _ _ => destruct x eqn:?
      end ].
  all: cbn [widevine_data driver files set_widevine_data set_driver
              set_cache_file set_files] in *.
  all: try (repeat split; eauto; congruence).
Qed.

Lemma wp_of_run {A : Type} (T : event → Prop) (m : M A)
  (Q : A → state → Prop) (E : exn → state → Prop) (s s' : state) (a : A) :
  m s = mkRun (Ret a) s' (trace (m s)) →
  Forall T (trace (m s)) → Q a s' → wp T m Q E s.
Proof. intros Hrun Ht HQ. split; [exact Ht|]. by rewrite Hrun. Qed.

Lemma wp_process_detected (w : World) (p : provider) (url : string) (s : state) :
  initialized s →
  wp (λ _, True) (process_detected w url (service_name p) (extractor w p))
    (λ _ s', driver s' = true ∧ is_Some (widevine_data s'))
    (λ _ s', driver s' = true ∧ is_Some (widevine_data s')) s.
Proof.
  intros Hinit. unfold process_detected.
  apply wp_bind, wp_print; [done|]. apply wp_bind.
  apply (wp_of_run _ _ _ _ _ _ _ (extractor_run w p url s));
    [by apply Forall_true|].
  pose proof (driver_opened s) as Hd.
  pose proof (initialized_opened s Hinit) as Hw.
  destruct (extraction w p url) as [| |d].
  - apply wp_bind, wp_print; [done|]. by apply wp_ret.
  - by apply wp_raise.
  - destruct (negb (Py.truthy (mpd_url d)));
      [apply wp_bind, wp_print; [done|]; by apply wp_ret|].
    apply wp_bind.
    eapply wp_mono; [apply (wp_get_drm_key_loaded _ _ _ _ _ Hw)| |done].
    intros k s1 (Hw1 & Hd1 & _). specialize (Hd1 Hd). cbv beta.
    destruct (negb (Py.truthy_opt k));
      [apply wp_bind, wp_print; [done|]; by apply wp_ret|].
    apply wp_bind.
    eapply wp_mono with
      (Q := λ _ s', driver s' = true ∧ is_Some (widevine_data s'))
      (E := λ _ _, False); [|intros sub s2 [Hd2 Hw2]|done].
    + unfold download_subtitle.
      repeat first
        [ apply wp_bind | apply wp_ret | apply wp_get_state | apply wp_put_state
        | apply wp_emit; [done|] | apply wp_print; [done|]
        | lazymatch goal with
          | |- wp _ (if ?b then _ else _) _ _ _ => destruct b eqn:?
          | |- wp _ (match ?x with _ => _ end) _ _ _ => destruct x eqn:?
          end ]; done.
    + apply wp_bind.
      eapply wp_mono; [apply wp_download_and_decrypt| |done].
      intros o s3 [Hd3 [= Hw3 _]]. cbv beta.
      assert (driver s3 = true ∧ is_Some (widevine_data s3)) as HJ
        by (split; congruence).
      destruct (Py.truthy_opt o);
        repeat first [apply wp_bind | apply wp_ret | apply wp_print; [done|]];
        done.
Qed.

(** X20.  A job that returns keeps the invariant of the instance:
    afterwards the key cache is loaded whenever the session is open, so the
    instance can take another job.  A job that returns on a URL taken for a
    service leaves the session open, with [True] as with [False]: closing it
    is left to the caller.  A job on any other URL leaves the instance as it
    was. *)
Theorem process_url_keeps_initialized (w : World) (url : string) (s : state)
  (b : bool) :
  initialized s →
  out (process_url w url s) = Ret b →
  initialized (st (process_url w url s))
  ∧ (is_Some (detected url) → driver (st (process_url w url s)) = true)
  ∧ (detected url = None → st (process_url w url s) = s).
Proof.
  intros Hinit _. rewrite process_url_dispatch.
  destruct (detected url) as [p|]; cbn [after st].
  - destruct (wp_process_detected w p url s Hinit) as [_ Hpost].
    assert (driver (st (process_detected w url (service_name p)
                          (extractor w p) s)) = true
            ∧ is_Some (widevine_data (st (process_detected w url
                                            (service_name p) (extractor w p) s))))
      as [Hd Hw] by (by destruct (out _)).
    split; [by intros _|]. split; [by intros _|discriminate].
  - split; [exact Hinit|]. split; [by intros [? [=]]|done].
Qed.

Lemma process_url_keeps_initialized_witness :
  initialized (st (process_url quiet_world itv_page (fresh Missing)))
  ∧ (is_Some (detected itv_page) →
     driver (st (process_url quiet_world itv_page (fresh Missing))) = true)
  ∧ (detected itv_page = None →
     st (process_url quiet_world itv_page (fresh Missing)) = fresh Missing).
Proof.
  apply (process_url_keeps_initialized quiet_world itv_page (fresh Missing)
           false).
  - intros Hopen. discriminate Hopen.
  - vm_compute. reflexivity.
Defined.

End DownloaderFacts.

(** ** The program around the class *)

Module ProgramFacts.
Import Downloader Program DownloaderSpec ExtraSpec ProgramSpec.

Lemma p_bind_unfold {A B : Type} (m : P A) (f : A → P B) (s : state) :
  (m ≫= f) s
  = match p_out (m s) with
    | Ret a =>
        mkPRun (p_out (f a (p_st (m s)))) (p_st (f a (p_st (m s))))
          (p_trace (m s) ++ p_trace (f a (p_st (m s))))
    | Raise e => mkPRun (Raise e) (p_st (m s)) (p_trace (m s))
    end.
Proof. reflexivity. Qed.

(** *** [cleanup] *)

Lemma close_browser_run (s : state) :
  close_browser s
  = mkPRun (Ret ()) (set_driver false s)
      (if driver s then [QuitBrowser] else []).
Proof.
  unfold close_browser. rewrite p_bind_unfold. cbn [get p_out p_st p_trace].
  destruct (driver s) eqn:Hd; [reflexivity|].
  cbn. by destruct s; cbn in *; subst.
Qed.

Lemma removed_cons (w : World) (sh : Shell) (name : string)
  (names : list string) (path : string) :
  removed w sh (name :: names) path
  = (String.eqb (Path.join (TEMP_DIR w) name) path && negb (unlink_fails sh path))
    || removed w sh names path.
Proof. unfold removed. cbn [existsb]. by rewrite andb_orb_distrib_l. Qed.

(** The loop of [cleanup]: it returns, and empties the paths of the
    listed entries whose removal does not fail. *)
Lemma for_in_remove_entry (w : World) (sh : Shell) (names : list string)
  (s : state) :
  p_out (for_in names (remove_entry w sh) s) = Ret ()
  ∧ driver (p_st (for_in names (remove_entry w sh) s)) = driver s
  ∧ key_cache (p_st (for_in names (remove_entry w sh) s)) = key_cache s
  ∧ (∀ path,
       files (p_st (for_in names (remove_entry w sh) s)) !! path
       = if removed w sh names path then None else files s !! path)
  ∧ Forall (λ a, is_removal a = true)
      (p_trace (for_in names (remove_entry w sh) s)).
Proof.
  revert s. induction names as [|name names IH]; intros s.
  - cbn. repeat split; constructor.
  - cbn [for_in]. rewrite p_bind_unfold.
    set (fp := Path.join (TEMP_DIR w) name).
    assert (∃ s1 t1,
              remove_entry w sh name s = mkPRun (Ret ()) s1 t1
              ∧ driver s1 = driver s ∧ key_cache s1 = key_cache s
              ∧ Forall (λ a, is_removal a = true) t1
              ∧ ∀ path, files s1 !! path
                        = if String.eqb fp path && negb (unlink_fails sh path)
                          then None else files s !! path)
      as (s1 & t1 & -> & Hd & Hk & Ht & Hf).
    { unfold remove_entry. fold fp. rewrite p_bind_unfold.
      cbn [get p_out p_st p_trace].
      destruct (bool_decide (is_Some (files s !! fp))) eqn:Hfile.
      - rewrite p_bind_unfold. cbn [act p_out p_st p_trace].
        destruct (unlink_fails sh fp) eqn:Hfail.
        + eexists _, _. split; [reflexivity|]. repeat split;
            [by repeat constructor|].
          intros path. destruct (String.eqb_spec fp path) as [<-|_];
            [by rewrite Hfail|done].
        + eexists _, _. split; [reflexivity|]. repeat split;
            [by repeat constructor|].
          intros path. cbn [put p_st files set_files app].
          destruct (String.eqb_spec fp path) as [<-|Hne].
          * by rewrite Hfail, lookup_delete_eq.
          * by rewrite lookup_delete_ne.
      - eexists _, _. split; [reflexivity|]. repeat split; [constructor|].
        intros path. apply bool_decide_eq_false in Hfile.
        destruct (String.eqb_spec fp path) as [<-|_]; [|done].
        destruct (files s !! fp) eqn:Hfp; [|by destruct (negb _)].
        exfalso. apply Hfile. eauto. }
    cbn [p_out p_st p_trace].
    destruct (IH s1) as (Hout & Hd' & Hk' & Hf' & Ht').
    split; [exact Hout|]. split; [congruence|]. split; [congruence|].
    split; [|by apply Forall_app].
    intros path. rewrite Hf', Hf, removed_cons. fold fp.
    destruct (removed w sh names path); [by rewrite orb_true_r|].
    by rewrite orb_false_r.
Qed.

Lemma cleanup_run (w : World) (sh : Shell) (s : state) (names : list string) :
  listing sh = Some names →
  cleanup w sh s
  = mkPRun
      (p_out (for_in names (remove_entry w sh) (set_driver false s)))
      (p_st (for_in names (remove_entry w sh) (set_driver false s)))
      ([Say NoteCleaning]
       ++ (if driver s then [QuitBrowser] else [])
       ++ [ListDir (TEMP_DIR w)]
       ++ p_trace (for_in names (remove_entry w sh)
                     (set_driver false s))).
Proof.
  intros Hnames. unfold cleanup. rewrite Hnames.
  rewrite p_bind_unfold. cbn [say act p_out p_st p_trace].
  rewrite p_bind_unfold, close_browser_run. cbn [p_out p_st p_trace].
  rewrite p_bind_unfold. cbn [act p_out p_st p_trace].
  reflexivity.
Qed.

(** X21.  When the temporary directory can be listed, [cleanup] returns
    normally with the session closed and the key cache as it was, and on disk
    it empties exactly the paths [TEMP_DIR/<entry>] of the listed entries
    whose removal does not fail: every other path holds what it held, and a
    failing removal stops nothing. *)
Theorem cleanup_effect (w : World) (sh : Shell) (s : state)
  (names : list string) :
  listing sh = Some names →
  p_out (cleanup w sh s) = Ret ()
  ∧ driver (p_st (cleanup w sh s)) = false
  ∧ key_cache (p_st (cleanup w sh s)) = key_cache s
  ∧ ∀ path,
      files (p_st (cleanup w sh s)) !! path
      = if removed w sh names path then None else files s !! path.
Proof.
  intros Hnames. rewrite (cleanup_run w sh s names Hnames).
  cbn [p_out p_st].
  destruct (for_in_remove_entry w sh names (set_driver false s))
    as (Hout & Hd & Hk & Hf & _).
  by repeat split.
Qed.

Lemma cleanup_effect_witness :
  p_out (cleanup quiet_world (shell itv_page) leftover) = Ret ()
  ∧ driver (p_st (cleanup quiet_world (shell itv_page) leftover)) = false
  ∧ key_cache (p_st (cleanup quiet_world (shell itv_page) leftover))
    = key_cache leftover
  ∧ ∀ path,
      files (p_st (cleanup quiet_world (shell itv_page) leftover)) !! path
      = if removed quiet_world (shell itv_page)
             ["ITV-playlist-20240101_120000.vtt"] path
        then None else files leftover !! path.
Proof.
  apply (cleanup_effect quiet_world (shell itv_page) leftover
           ["ITV-playlist-20240101_120000.vtt"]).
  reflexivity.
Defined.

(** *** What [cleanup] leaves alone *)

Lemma download_dir_shape (w : World) :
  Py.truthy (DOWNLOAD_DIR w) = true ∧ Py.endswith "/" (DOWNLOAD_DIR w) = false.
Proof.
  unfold DOWNLOAD_DIR. split.
  - by apply PathFacts.truthy_app.
  - apply PathFacts.endswith_app_short; [reflexivity | cbn; lia].
Qed.

Lemma temp_dir_eq (w : World) : TEMP_DIR w = DOWNLOAD_DIR w ++ "/temp".
Proof.
  destruct (download_dir_shape w) as [Ht He].
  unfold TEMP_DIR. by rewrite PathFacts.join_relative.
Qed.

Lemma temp_entry_path (w : World) (name : string) :
  Py.startswith "/" name = false →
  Path.join (TEMP_DIR w) name = DOWNLOAD_DIR w ++ "/temp/" ++ name.
Proof.
  intros Hrel. rewrite PathFacts.join_relative; [| | |exact Hrel].
  - rewrite temp_dir_eq. by rewrite ReFacts.app_assoc_str.
  - rewrite temp_dir_eq. by apply PathFacts.truthy_app.
  - rewrite temp_dir_eq.
    apply PathFacts.endswith_app_short; [reflexivity | cbn; lia].
Qed.

(** The name of a job's output starts with the service, not with a slash
    and not like the temporary directory. *)
Lemma output_name_head (w : World) (p : provider) (d : data) :
  ∃ c rest, output_name_of w p d = String c rest ∧ c ≠ "/"%char ∧ c ≠ "t"%char.
Proof.
  unfold output_name_of, generate_output_name.
  destruct p; eexists _, _; (split; [reflexivity|]); by split.
Qed.

Lemma final_path_eq (w : World) (p : provider) (d : data) :
  ∃ c rest,
    final_path w (output_name_of w p d) = DOWNLOAD_DIR w ++ "/" ++ String c rest
    ∧ c ≠ "t"%char.
Proof.
  destruct (output_name_head w p d) as (c & rest & Hname & Hslash & Ht).
  destruct (download_dir_shape w) as [Htruthy Hend].
  exists c, (rest ++ "_FINAL.mkv"). split; [|exact Ht].
  unfold final_path. rewrite Hname, ReFacts.app_cons.
  apply PathFacts.join_relative; [exact Htruthy | exact Hend |].
  unfold Py.startswith. cbn [String.prefix].
  by destruct (ascii_dec "/" c) as [<-|_].
Qed.

Lemma removed_final_path (w : World) (sh : Shell) (names : list string)
  (p : provider) (d : data) :
  Forall (λ name, Py.startswith "/" name = false) names →
  removed w sh names (final_path w (output_name_of w p d)) = false.
Proof.
  intros Hrel. unfold removed.
  destruct (final_path_eq w p d) as (c & rest & -> & Ht).
  apply andb_false_iff. left. apply not_true_is_false.
  intros (name & Hin & Heq%String.eqb_eq)%existsb_exists.
  rewrite Forall_forall in Hrel.
  rewrite temp_entry_path in Heq by (apply Hrel; by apply list_elem_of_In).
  apply PathFacts.app_inv_head_str in Heq.
  injection Heq as Hc. congruence.
Qed.

(** X22.  [cleanup] does not touch the video a job produced: when the
    listing of the temporary directory holds plain entry names, the final
    path of any job, [DOWNLOAD_DIR/<output name>_FINAL.mkv], holds after
    [cleanup] what it held before. *)
Theorem cleanup_keeps_final_output (w : World) (sh : Shell) (s : state)
  (names : list string) (p : provider) (d : data) :
  listing sh = Some names →
  Forall (λ name, Py.startswith "/" name = false) names →
  files (p_st (cleanup w sh s)) !! final_path w (output_name_of w p d)
  = files s !! final_path w (output_name_of w p d).
Proof.
  intros Hnames Hrel. rewrite (cleanup_run w sh s names Hnames). cbn [p_st].
  destruct (for_in_remove_entry w sh names (set_driver false s))
    as (_ & _ & _ & -> & _).
  by rewrite (removed_final_path w sh names p d Hrel).
Qed.

Lemma cleanup_keeps_final_output_witness :
  files (p_st (cleanup quiet_world (shell itv_page) leftover))
  !! final_path quiet_world
       (output_name_of quiet_world ITV
          (mkData itv_manifest_url (Some "QUJD") None (Some "playlist")))
  = files leftover
    !! final_path quiet_world
         (output_name_of quiet_world ITV
            (mkData itv_manifest_url (Some "QUJD") None (Some "playlist"))).
Proof.
  apply (cleanup_keeps_final_output quiet_world (shell itv_page) leftover
           ["ITV-playlist-20240101_120000.vtt"]).
  - reflexivity.
  - by repeat constructor.
Defined.

(** *** The [try] statement of [main] *)

Lemma run_job_run (sh : Shell) (process : string → state → job_run)
  (s : state) :
  (run_job sh process ≫= handle) s
  = mkPRun (Ret ()) (try_state process sh s)
      ((if Py.truthy_opt (arg_url sh) then [] else [AskUrl])
       ++ job_events process sh s
       ++ match reported process sh s with
          | Some n => [Say n]
          | None => []
          end).
Proof.
  unfold run_job, try_state, job_events, reported, url_source.
  destruct (Py.truthy_opt (arg_url sh)).
  - rewrite p_bind_unfold. unfold run_process. cbn [p_out p_st p_trace].
    destruct (j_end _); reflexivity.
  - rewrite !p_bind_unfold. cbn [act p_out p_st p_trace].
    destruct (typed_url sh) as [url| |];
      [unfold run_process; cbn [p_out p_st p_trace]; destruct (j_end _)| |];
      reflexivity.
Qed.

(** The statement as a whole: the body, the line of a handler, then
    [cleanup] on the state the body ended in. *)
Lemma attempt_run (w : World) (sh : Shell)
  (process : string → state → job_run) (s : state) :
  attempt w sh process s
  = mkPRun
      (match p_out (cleanup w sh (try_state process sh s)) with
       | Ret _ => Ret ()
       | Raise e => Raise e
       end)
      (p_st (cleanup w sh (try_state process sh s)))
      (((if Py.truthy_opt (arg_url sh) then [] else [AskUrl])
        ++ job_events process sh s
        ++ match reported process sh s with
           | Some n => [Say n]
           | None => []
           end)
       ++ p_trace (cleanup w sh (try_state process sh s))).
Proof.
  unfold attempt, try_finally. cbn zeta. rewrite run_job_run. reflexivity.
Qed.

Lemma job_events_in (process : string → state → job_run) (sh : Shell)
  (s : state) (a : action) :
  a ∈ job_events process sh s → ∃ e, a = Job e.
Proof.
  unfold job_events.
  destruct (url_source sh); [|by intros ?%elem_of_nil..].
  intros (e & -> & _)%list_elem_of_fmap. eauto.
Qed.

(** What [cleanup] does not do: it prints no line of a handler, and it
    quits the browser only when a session is open. *)
Lemma cleanup_trace (w : World) (sh : Shell) (s : state) (a : action) :
  a ∈ p_trace (cleanup w sh s) →
  a = Say NoteCleaning
  ∨ (a = QuitBrowser ∧ driver s = true)
  ∨ a = ListDir (TEMP_DIR w)
  ∨ is_removal a = true.
Proof.
  intros Hin.
  assert (a ∈ ([Say NoteCleaning] ++ (if driver s then [QuitBrowser] else [])
               ++ [ListDir (TEMP_DIR w)])%list
          ∨ is_removal a = true) as [Hhead|Hloop].
  { destruct (listing sh) as [names|] eqn:Hnames.
    - rewrite (cleanup_run w sh _ names Hnames) in Hin. cbn [p_trace] in Hin.
      destruct (for_in_remove_entry w sh names (set_driver false s))
        as (_ & _ & _ & _ & Ht).
      rewrite Forall_forall in Ht.
      rewrite !app_assoc in Hin. apply elem_of_app in Hin as [Hin|Hin].
      + left. by rewrite <- !app_assoc in Hin.
      + right. by apply Ht.
    - left. unfold cleanup in Hin. rewrite Hnames in Hin.
      rewrite p_bind_unfold in Hin. cbn [say act p_out p_st p_trace] in Hin.
      rewrite p_bind_unfold, close_browser_run in Hin.
      cbn [p_out p_st p_trace] in Hin.
      rewrite p_bind_unfold in Hin. cbn [act fail p_out p_st p_trace] in Hin.
      by rewrite app_nil_r in Hin. }
  - apply elem_of_app in Hhead as [Hx|Hhead];
      [apply list_elem_of_singleton in Hx as ->; by left|].
    apply elem_of_app in Hhead as [Hq|Hx];
      [|apply list_elem_of_singleton in Hx as ->; by right; right; left].
    right; left. destruct (driver s); [|by apply elem_of_nil in Hq].
    by apply list_elem_of_singleton in Hq as ->.
  - by right; right; right.
Qed.

(** X24.  The [try] statement of [main] lets no exception of its body out
    and leaves no session behind, whatever the job does: return, raise, or
    be interrupted, with a session started or without one, as when the
    browser cannot be started; and also when the prompt for the URL ends
    with Ctrl-C or with the end of the input.  The statement ends as
    [cleanup] ends; the browser is quit exactly when a session is open at
    the end of the body of the [try]; and when the statement ends normally,
    no session is open afterwards. *)
Theorem attempt_closes_session (w : World) (sh : Shell)
  (process : string → state → job_run) (s : state) :
  p_out (attempt w sh process s)
  = p_out (cleanup w sh (try_state process sh s))
  ∧ (QuitBrowser ∈ p_trace (attempt w sh process s)
     ↔ driver (try_state process sh s) = true)
  ∧ (p_out (attempt w sh process s) = Ret () →
     driver (p_st (attempt w sh process s)) = false).
Proof.
  rewrite attempt_run. cbn [p_out p_st p_trace].
  split; [|split].
  - by destruct (p_out (cleanup w sh _)) as [[]|e].
  - split.
    + intros [Hin|Hin]%elem_of_app.
      * exfalso.
        apply elem_of_app in Hin as [Hin|Hin];
          [by destruct (Py.truthy_opt (arg_url sh));
             [apply elem_of_nil in Hin | apply list_elem_of_singleton in Hin]|].
        apply elem_of_app in Hin as [Hin|Hin];
          [by apply job_events_in in Hin as [e [=]]|].
        by destruct (reported process sh s);
          [apply list_elem_of_singleton in Hin | apply elem_of_nil in Hin].
      * by apply cleanup_trace in Hin as [[=]|[[_ Hd]|[[=]|[=]]]].
    + intros Hd. apply elem_of_app. right.
      destruct (listing sh) as [names|] eqn:Hnames.
      * rewrite (cleanup_run w sh _ names Hnames). cbn [p_trace]. rewrite Hd.
        apply list_elem_of_further, list_elem_of_here.
      * unfold cleanup. rewrite Hnames.
        rewrite p_bind_unfold. cbn [say act p_out p_st p_trace].
        rewrite p_bind_unfold, close_browser_run. cbn [p_out p_st p_trace].
        rewrite p_bind_unfold. cbn [act fail p_out p_st p_trace].
        rewrite Hd. apply list_elem_of_further, list_elem_of_here.
  - destruct (listing sh) as [names|] eqn:Hnames.
    + intros _. rewrite (cleanup_run w sh _ names Hnames). cbn [p_st].
      destruct (for_in_remove_entry w sh names
                  (set_driver false (try_state process sh s)))
        as (_ & -> & _).
      reflexivity.
    + unfold cleanup. rewrite Hnames.
      rewrite p_bind_unfold. cbn [say act p_out p_st p_trace].
      rewrite p_bind_unfold, close_browser_run. cbn [p_out p_st p_trace].
      rewrite p_bind_unfold. cbn [act fail p_out p_st p_trace].
      discriminate.
Qed.

(** A job that raises before a session is open: the error is reported and
    nothing is quit. *)
Example browserless_job_no_quit :
  p_trace (attempt quiet_world (shell itv_page) browserless_job (fresh Missing))
  = [Job (Print (MsgProcessing itv_page));
     Say (NoteError (JobError FileNotFoundError));
     Say NoteCleaning;
     ListDir "/home/user/Downloads/UKStreamDownloads/temp"].
Proof. vm_compute. reflexivity. Qed.

(** X25.  What the handlers of [main] print, and when.  "Operation
    cancelled by user" is printed when Ctrl-C ended the prompt for the URL
    or the job.  "An error occurred" is printed, with the exception, when
    the job raised one, and also when the prompt met the end of the input:
    then no job ran.  When the job returned, neither line is printed.  No
    other line of the two kinds appears in the run of the [try] statement,
    [cleanup] included. *)
Theorem attempt_reports (w : World) (sh : Shell)
  (process : string → state → job_run) (s : state) (n : notice) :
  is_report n = true →
  Say n ∈ p_trace (attempt w sh process s) ↔ reported process sh s = Some n.
Proof.
  intros Hn. rewrite attempt_run. cbn [p_trace].
  split.
  - intros [Hin|Hin]%elem_of_app.
    + apply elem_of_app in Hin as [Hin|Hin];
        [by destruct (Py.truthy_opt (arg_url sh));
           [apply elem_of_nil in Hin | apply list_elem_of_singleton in Hin]|].
      apply elem_of_app in Hin as [Hin|Hin];
        [by apply job_events_in in Hin as [e [=]]|].
      destruct (reported process sh s) as [n'|];
        [|by apply elem_of_nil in Hin].
      apply list_elem_of_singleton in Hin. by injection Hin as ->.
    + exfalso.
      apply cleanup_trace in Hin as [[= ->]|[[[=] _]|[[=]|Hrem]]];
        [discriminate Hn|].
      cbn [is_removal] in Hrem. destruct n; discriminate.
  - intros ->. apply elem_of_app. left.
    apply elem_of_app. right. apply elem_of_app. right.
    apply list_elem_of_here.
Qed.

Lemma attempt_reports_witness :
  Say (NoteError EOFError)
  ∈ p_trace (attempt quiet_world closed_input_shell
               (λ url, call (process_url quiet_world url)) (fresh Missing))
  ↔ reported (λ url, call (process_url quiet_world url)) closed_input_shell
      (fresh Missing)
    = Some (NoteError EOFError).
Proof.
  apply (attempt_reports quiet_world closed_input_shell
           (λ url, call (process_url quiet_world url)) (fresh Missing)
           (NoteError EOFError)).
  reflexivity.
Defined.

(** *** [main] *)

(** [main] once the dependency check has passed: a new instance, then the
    [try] statement on the job. *)
Lemma main_ready (w : World) (sh : Shell) (s : state) :
  ready w s →
  main w sh s
  = mkPRun
      (p_out (attempt w sh (λ url, call (process_url w url)) (new_instance s)))
      (p_st (attempt w sh (λ url, call (process_url w url)) (new_instance s)))
      ([Say NoteBanner; Say NoteRule; Job (RunFfmpeg ffmpeg_check);
        Job (Makedirs (DOWNLOAD_DIR w)); Job (Makedirs (TEMP_DIR w))]
       ++ p_trace (attempt w sh (λ url, call (process_url w url))
                     (new_instance s))).
Proof.
  intros [Htool [banner Hff]]. unfold main.
  fold ffmpeg_check. rewrite Hff.
  rewrite !p_bind_unfold. cbn [say act get p_out p_st p_trace].
  rewrite (bool_decide_eq_true_2 _ Htool). cbn [negb].
  rewrite !p_bind_unfold. cbn [act p_out p_st p_trace].
  unfold __init__, setup_directories.
  rewrite !p_bind_unfold. cbn [act get put p_out p_st p_trace].
  fold (new_instance s).
  destruct (p_out (attempt _ _ _ _)); reflexivity.
Qed.

(** A job that returns [True] was given a URL. *)
Lemma job_true_url (w : World) (sh : Shell) (s : state) :
  out (job w sh s) = Ret true → url_source sh = Typed (job_url sh).
Proof.
  unfold job, job_url.
  destruct (url_source sh); [reflexivity| |];
    rewrite DownloaderFacts.process_url_dispatch;
    change (detected "") with (@None provider); discriminate.
Qed.

(** X23.  Without its tools [main] does nothing: when N_m3u8DL-RE is not
    at its path, or when ffmpeg does not answer, because it exits with an
    error or because it cannot be started, [main] returns after explaining
    itself.  No instance is created, no directory is made, no browser is
    started, the operator is asked nothing, and the state is the one it
    started from. *)
Theorem main_needs_tools (w : World) (sh : Shell) (s : state) :
  files s !! N_M3U8DL_RE_PATH w = None
  ∨ (∃ err, ffmpeg w ffmpeg_check = FfFailed err)
  ∨ ffmpeg w ffmpeg_check = FfNotStarted →
  p_out (main w sh s) = Ret ()
  ∧ p_st (main w sh s) = s
  ∧ Forall (λ a, is_preliminary a = true) (p_trace (main w sh s)).
Proof.
  intros Hmiss. unfold main. fold ffmpeg_check.
  rewrite !p_bind_unfold. cbn [say act get p_out p_st p_trace].
  destruct (bool_decide (is_Some (files s !! N_M3U8DL_RE_PATH w))) eqn:Htool;
    cbn [negb].
  - destruct Hmiss as [Hnone|[[err Herr]|Herr]].
    + apply bool_decide_eq_true in Htool as [c Hc]. congruence.
    + rewrite Herr. rewrite !p_bind_unfold. cbn [say act p_out p_st p_trace].
      repeat split. by repeat constructor.
    + rewrite Herr. rewrite !p_bind_unfold. cbn [say act p_out p_st p_trace].
      repeat split. by repeat constructor.
  - rewrite !p_bind_unfold. cbn [say act p_out p_st p_trace].
    repeat split. by repeat constructor.
Qed.

Lemma main_needs_tools_witness :
  p_out (main quiet_world (shell itv_page) (fresh Missing)) = Ret ()
  ∧ p_st (main quiet_world (shell itv_page) (fresh Missing)) = fresh Missing
  ∧ Forall (λ a, is_preliminary a = true)
      (p_trace (main quiet_world (shell itv_page) (fresh Missing))).
Proof.
  apply (main_needs_tools quiet_world (shell itv_page) (fresh Missing)).
  left. reflexivity.
Defined.

(** X26.  The video of a successful job survives [main]: when the job
    returns [True] and the listing of the temporary directory holds plain
    entry names, a file is still at the job's "_FINAL.mkv" path when [main]
    is over, after [cleanup] has run. *)
Theorem main_keeps_final_output (w : World) (sh : Shell) (s : state)
  (names : list string) :
  ready w s →
  listing sh = Some names →
  Forall (λ name, Py.startswith "/" name = false) names →
  out (job w sh s) = Ret true →
  ∃ p d,
    detected (job_url sh) = Some p
    ∧ out (extractor w p (job_url sh) (new_instance s)) = Ret (ExData d)
    ∧ is_Some (files (p_st (main w sh s)) !! final_path w (output_name_of w p d)).
Proof.
  intros Hready Hnames Hrel Hjob.
  assert (∃ p d,
            detected (job_url sh) = Some p
            ∧ extraction w p (job_url sh) = ExData d
            ∧ is_Some (files (st (job w sh s))
                       !! final_path w (output_name_of w p d)))
    as (p & d & Hp & Hx & Hfile).
  { unfold job in *. revert Hjob.
    rewrite DownloaderFacts.process_url_dispatch.
    destruct (detected (job_url sh)) as [p|]; [|discriminate].
    cbn [after out st]. intros Hjob.
    destruct (DownloaderFacts.process_detected_true w p _ _ Hjob)
      as (d & Hx & Hfile & _).
    by exists p, d. }
  exists p, d. split; [exact Hp|].
  destruct (DownloaderFacts.extractor_result w p (job_url sh) (new_instance s))
    as [-> _].
  split; [by rewrite Hx|].
  rewrite (main_ready w sh s Hready). cbn [p_st].
  rewrite attempt_run. cbn [p_st].
  assert (try_state (λ url, call (process_url w url)) sh (new_instance s)
          = st (job w sh s)) as ->
    by (unfold try_state; by rewrite (job_true_url w sh s Hjob)).
  rewrite (cleanup_run w sh _ names Hnames). cbn [p_st].
  destruct (for_in_remove_entry w sh names (set_driver false (st (job w sh s))))
    as (_ & _ & _ & -> & _).
  by rewrite (removed_final_path w sh names p d Hrel).
Qed.

Lemma main_keeps_final_output_witness :
  ∃ p d,
    detected (job_url (shell itv_page)) = Some p
    ∧ out (extractor (with_ffmpeg job_world) p (job_url (shell itv_page))
             (new_instance (installed (Stored {[ "QUJD" := scenario_key ]}))))
      = Ret (ExData d)
    ∧ is_Some (files (p_st (main (with_ffmpeg job_world) (shell itv_page)
                              (installed (Stored {[ "QUJD" := scenario_key ]}))))
               !! final_path (with_ffmpeg job_world)
                    (output_name_of (with_ffmpeg job_world) p d)).
Proof.
  apply (main_keeps_final_output (with_ffmpeg job_world) (shell itv_page)
           (installed (Stored {[ "QUJD" := scenario_key ]}))
           ["ITV-playlist-20240101_120000.vtt"]).
  - split; [vm_compute; eauto|]. exists "ffmpeg version 6.0". reflexivity.
  - reflexivity.
  - by repeat constructor.
  - vm_compute. reflexivity.
Defined.

End ProgramFacts.
